(** * GamerVerse back end: the session-scoped data-access layer

    A shallow embedding of the three copies of the Express server of the
    repository,

      - [Server]  : The_GamePakour/server.js
      - [Part000] : unnamed/part_000 (the copy with the persistent data directory)
      - [Part001] : unnamed/part_001 (the copy with signup, login and profile only)

    over a model of the SQLite file they share (init-db.sql), followed by the
    properties of the specification that concern the handlers.

    Conventions of the model.
      - A JavaScript number is an IEEE 754 binary64 value; the arithmetic is the
        one of [SpecFloat] at precision 53.
      - A handler is a function from the request and the state of the server
        to a reply and a new state.  The state holds the database, the list of
        the SQL statements sent to it, the upload directory and the session
        object of the request.
      - A statement fails (the callback receives [err]) when it violates a
        constraint of the schema, a query when its aggregate raises an error;
        failures of the file system are not part of the model.
      - Body fields are the primitive JSON values; a missing field reads as
        [Undefined].
      - [bcrypt.hash] draws a salt; the hash it returns for a password is
        an argument of the signup handlers. *)

From Stdlib Require Import ZArith List String Ascii Bool Lia SpecFloat.
From Stdlib Require Import Permutation Sorted.
Import ListNotations.

Local Open Scope string_scope.
Local Open Scope Z_scope.

(* ===================================================================== *)
(** * JavaScript numbers and values                                        *)
(* ===================================================================== *)

Module JS.

(** binary64 *)
Definition prec : Z := 53.
Definition emax : Z := 1024.

(** A number.  [Int z] is the double whose value is the integer [z] (a safe
    integer, [|z| <= 2^53]); [Dbl f] is any other double: a fraction, [-0],
    an infinity, [NaN], or an integer beyond the safe range. *)
Inductive number :=
| Int (z : Z)
| Dbl (f : spec_float).

Definition NaN : number := Dbl S754_nan.
Definition safe : Z := 2 ^ 53.

Definition Z2SF (z : Z) : spec_float := binary_normalize prec emax z 0 false.

(** The integer a double is equal to, when it is one ([+0] and [-0] are 0). *)
Definition SF_integer (f : spec_float) : option Z :=
  match f with
  | S754_zero _ => Some 0
  | S754_finite s m e =>
      if 0 <=? e then Some (cond_Zopp s (Zpos m * 2 ^ e))
      else if (Zpos m) mod 2 ^ (- e) =? 0
           then Some (cond_Zopp s (Zpos m / 2 ^ (- e)))
           else None
  | _ => None
  end.

Definition to_double (n : number) : spec_float :=
  match n with
  | Int z => Z2SF z
  | Dbl f => f
  end.

Definition of_double (f : spec_float) : number :=
  match f with
  | S754_zero true => Dbl f
  | _ => match SF_integer f with
         | Some z => if Z.abs z <=? safe then Int z else Dbl f
         | None => Dbl f
         end
  end.

(** The integer a number is equal to, when it is one. *)
Definition integer_of (n : number) : option Z :=
  match n with
  | Int z => Some z
  | Dbl f => SF_integer f
  end.

(** A number in the representation above: an integer within the safe range
    as [Int]. *)
Definition normal (n : number) : number :=
  match n with
  | Int z => if Z.abs z <=? safe then n else of_double (Z2SF z)
  | Dbl f => of_double f
  end.

(** [a + b], [a * b], [a / b] on numbers. *)
Definition add (a b : number) : number :=
  match a, b with
  | Int x, Int y =>
      if Z.abs (x + y) <=? safe then Int (x + y)
      else of_double (SFadd prec emax (Z2SF x) (Z2SF y))
  | _, _ => of_double (SFadd prec emax (to_double a) (to_double b))
  end.

Definition mul (a b : number) : number :=
  of_double (SFmul prec emax (to_double a) (to_double b)).

Definition div (a b : number) : number :=
  of_double (SFdiv prec emax (to_double a) (to_double b)).

(** [a === b] on numbers. *)
Definition num_eqb (a b : number) : bool :=
  match a, b with
  | Int x, Int y => x =? y
  | _, _ => SFeqb (to_double a) (to_double b)
  end.

(** ToBoolean of a number: [0], [-0] and [NaN] are falsy. *)
Definition num_truthy (n : number) : bool :=
  match n with
  | Int z => negb (z =? 0)
  | Dbl (S754_zero _) => false
  | Dbl S754_nan => false
  | Dbl _ => true
  end.

(** [Math.round]: the integer nearest to the argument, a tie going to the
    larger one; computed on the exact value [m * 2^e] of the double. *)
Definition round_number (n : number) : number :=
  match n with
  | Int z => Int z
  | Dbl (S754_finite s m e) =>
      if e <? 0 then
        let r := (2 * cond_Zopp s (Zpos m) + 2 ^ (- e)) / 2 ^ (1 - e) in
        if r =? 0 then (if s then Dbl (S754_zero true) else Int 0) else Int r
      else n
  | Dbl _ => n
  end.

(** [Math.min] of two numbers. *)
Definition min_number (a b : number) : number :=
  match a, b with
  | Int x, Int y => Int (Z.min x y)
  | _, _ =>
      match SFcompare (to_double a) (to_double b) with
      | None => NaN
      | Some Lt => a
      | Some Gt => b
      | Some Eq => match to_double a with S754_zero true => a | _ => b end
      end
  end.

(** The primitive values a request body, a row or a session can hold. *)
Inductive value :=
| Undefined
| Null
| VBool (b : bool)
| VNum (n : number)
| VStr (s : string).

(** ToBoolean. *)
Definition truthy (v : value) : bool :=
  match v with
  | Undefined | Null => false
  | VBool b => b
  | VNum n => num_truthy n
  | VStr s => negb (String.eqb s "")
  end.

(** [a || b] *)
Definition or_else (a b : value) : value := if truthy a then a else b.

(** What [res.json] is given: values, object literals and arrays. *)
#[warnings="-register-all"]
Inductive json :=
| JV (v : value)
| JO (fields : list (string * json))
| JA (items : list json).

Definition is_undefined (j : json) : bool :=
  match j with JV Undefined => true | _ => false end.

(** An object literal as it is serialised: a property whose value is
    [undefined] is left out by JSON.stringify. *)
Definition obj (fields : list (string * json)) : json :=
  JO (filter (fun kv => negb (is_undefined (snd kv))) fields).

Definition jtrue : json := JV (VBool true).
Definition jstr (s : string) : json := JV (VStr s).
Definition jint (z : Z) : json := JV (VNum (Int z)).

(** Property lookup in a serialised object. *)
Fixpoint lookup {A} (k : string) (l : list (string * A)) : option A :=
  match l with
  | [] => None
  | (k', v) :: l' => if String.eqb k' k then Some v else lookup k l'
  end.

Definition field (k : string) (j : json) : option json :=
  match j with JO fs => lookup k fs | _ => None end.

(** [o.k] on a plain record of values: [undefined] when the key is not there. *)
Definition get (k : string) (o : list (string * value)) : value :=
  match lookup k o with Some v => v | None => Undefined end.

End JS.
Import JS.


(* ===================================================================== *)
(** * The platform                                                         *)
(* ===================================================================== *)

(** A value as SQLite stores it: NULL, a signed integer of 64 bits, a double
    or a text. *)
Inductive sqlval :=
| SNull
| SInt (z : Z)
| SReal (n : number)
| SText (s : string).

(** What a call into a library hands back: an error with its message, or a
    value. *)
Inductive result (A : Type) :=
| Raised (message : string)
| Value (a : A).

Arguments Raised {A} message.
Arguments Value {A} a.

(** The library functions the handlers rely on and whose text is not in the
    repository: the conversions between numbers and their text in ECMAScript
    and in SQLite, and bcrypt's comparison of a password with a hash. *)
Record platform := {
  (** ECMAScript StringToNumber, what [Number(s)] is on a string *)
  StringToNumber : string -> number;
  (** ECMAScript Number::toString *)
  NumberToString : number -> string;
  (** SQLite: the number a well-formed numeric text converts to under a
      numeric affinity *)
  numeric_text : string -> option sqlval;
  (** SQLite: the text of a number under TEXT affinity *)
  text_of_numeric : sqlval -> string;
  (** SQLite: the number an aggregate reads in a text (its numeric prefix) *)
  numeric_prefix : string -> sqlval;
  (** SQLite: [SUM] over values of which one is neither an integer nor NULL,
      "a floating point value which is an approximation of the mathematical
      sum" (releases before 3.43 raise "integer overflow" when the integers
      that came first had overflowed); the values are given in the order of
      the rows, NULLs left out *)
  approximate_sum : list sqlval -> result sqlval;
  (** bcrypt: does the password verify against the hash *)
  bcrypt_verify : string -> string -> bool
}.

(* ===================================================================== *)
(** * The SQLite store (init-db.sql)                                       *)
(* ===================================================================== *)

Module SQLite.

Definition int32 (z : Z) : bool := (- 2 ^ 31 <=? z) && (z <? 2 ^ 31).

Definition int64 (z : Z) : bool := (- 2 ^ 63 <=? z) && (z <? 2 ^ 63).

(** How node-sqlite3 binds a parameter: [undefined] leaves it unbound, which
    reads as NULL; a boolean is sent as 0 or 1; a number equal to its
    conversion to a 32-bit integer is sent as an INTEGER ([-0] as 0), any
    other number as a REAL; NaN is stored as NULL. *)
Definition bind (v : value) : sqlval :=
  match v with
  | Undefined | Null => SNull
  | VBool b => SInt (if b then 1 else 0)
  | VNum (Dbl S754_nan) => SNull
  | VNum n =>
      match integer_of n with
      | Some z => if int32 z then SInt z else SReal n
      | None => SReal n
      end
  | VStr s => SText s
  end.

(** A column of a result row as the callback receives it. *)
Definition column (v : sqlval) : value :=
  match v with
  | SNull => Null
  | SInt z => VNum (if Z.abs z <=? safe then Int z else of_double (Z2SF z))
  | SReal n => VNum (normal n)
  | SText s => VStr s
  end.

Definition is_null (v : sqlval) : bool :=
  match v with SNull => true | _ => false end.

(** [COALESCE(a, b)] *)
Definition coalesce (a b : sqlval) : sqlval := if is_null a then b else a.

(** [a = b]: NULL is equal to nothing, an integer and a real compare by
    value, texts compare byte by byte, a number never equals a text. *)
Definition sql_eqb (a b : sqlval) : bool :=
  match a, b with
  | SInt x, SInt y => x =? y
  | SInt x, SReal n | SReal n, SInt x =>
      match integer_of n with Some z => z =? x | None => false end
  | SReal m, SReal n => num_eqb m n
  | SText s, SText t => String.eqb s t
  | _, _ => false
  end.

Section Affinity.
Context (P : platform).

(** INTEGER affinity: a well-formed numeric text becomes a number, a real
    with an integer value strictly within 64 bits becomes that integer (an
    [Int], which is within 2^53, always is). *)
Definition integer_affinity (v : sqlval) : sqlval :=
  match v with
  | SText s => match numeric_text P s with Some n => n | None => v end
  | SReal (Int z) => SInt z
  | SReal (Dbl f) => match SF_integer f with
                     | Some z => if Z.abs z <? 2 ^ 63 then SInt z else v
                     | None => v
                     end
  | _ => v
  end.

(** TEXT affinity: a number is stored as its text. *)
Definition text_affinity (v : sqlval) : sqlval :=
  match v with
  | SInt _ | SReal _ => SText (text_of_numeric P v)
  | _ => v
  end.

(** [col = ?] for a column of INTEGER affinity and for one of TEXT affinity:
    the affinity of the column is applied to the parameter first. *)
Definition int_col_eq (col param : sqlval) : bool :=
  sql_eqb col (integer_affinity param).

Definition text_col_eq (col param : sqlval) : bool :=
  sql_eqb col (text_affinity param).

End Affinity.

(** ** Tables *)

(** Modelled from the spec: the columns [photo] and [bio] of [users], which
    the CREATE TABLE of init-db.sql does not declare and every copy of the
    server reads and writes; they are taken from the persisted schema of the
    specification, [users(..., photo, bio, created_at)], as nullable texts.
    The other columns are those of init-db.sql. *)
Record user := {
  u_id : Z;                     (* INTEGER PRIMARY KEY AUTOINCREMENT *)
  u_name : sqlval;              (* TEXT NOT NULL *)
  u_email : sqlval;             (* TEXT NOT NULL UNIQUE *)
  u_password_hash : sqlval;     (* TEXT NOT NULL *)
  u_favorite_genre : sqlval;    (* TEXT *)
  u_hours_played : sqlval;      (* INTEGER DEFAULT 0 *)
  u_wins : sqlval;              (* INTEGER DEFAULT 0 *)
  u_losses : sqlval;            (* INTEGER DEFAULT 0 *)
  u_level : sqlval;             (* INTEGER DEFAULT 1 *)
  u_photo : sqlval;             (* TEXT *)
  u_bio : sqlval;               (* TEXT *)
  u_created_at : sqlval         (* TIMESTAMP DEFAULT CURRENT_TIMESTAMP *)
}.

Record game := {
  g_id : Z;                     (* INTEGER PRIMARY KEY AUTOINCREMENT *)
  g_user_id : sqlval;           (* INTEGER NOT NULL, REFERENCES users(id) *)
  g_title : sqlval;             (* TEXT NOT NULL *)
  g_genre : sqlval;             (* TEXT *)
  g_hours : sqlval;             (* INTEGER DEFAULT 0 *)
  g_owned : sqlval;             (* INTEGER DEFAULT 1 *)
  g_img_url : sqlval;           (* TEXT *)
  g_created_at : sqlval         (* TIMESTAMP DEFAULT CURRENT_TIMESTAMP *)
}.

(** Modelled from the spec: the table [wishlist], whose declaration the text
    of init-db.sql in the repository breaks off at; its columns are those of
    the persisted schema of the specification, [wishlist(id, user_id
    FK->users CASCADE, title, genre, expected_release, created_at)], with the
    constraints [games] has on the corresponding columns. *)
Record wish := {
  w_id : Z;
  w_user_id : sqlval;
  w_title : sqlval;
  w_genre : sqlval;
  w_expected_release : sqlval;
  w_created_at : sqlval
}.

(** The database file as a connection sees it.  The [_seq] fields are the
    entries of sqlite_sequence (the largest key AUTOINCREMENT has given out);
    [foreign_keys] is the state of the pragma, which init-db.sql turns on for
    the connection that executes it. *)
Record database := {
  users : list user;
  users_seq : Z;
  games : list game;
  games_seq : Z;
  wishlist : list wish;
  wishlist_seq : Z;
  foreign_keys : bool
}.

Definition with_users (l : list user) (d : database) : database :=
  {| users := l; users_seq := users_seq d;
     games := games d; games_seq := games_seq d;
     wishlist := wishlist d; wishlist_seq := wishlist_seq d;
     foreign_keys := foreign_keys d |}.

Definition with_games (l : list game) (seq : Z) (d : database) : database :=
  {| users := users d; users_seq := users_seq d;
     games := l; games_seq := seq;
     wishlist := wishlist d; wishlist_seq := wishlist_seq d;
     foreign_keys := foreign_keys d |}.

Definition with_wishlist (l : list wish) (seq : Z) (d : database) : database :=
  {| users := users d; users_seq := users_seq d;
     games := games d; games_seq := games_seq d;
     wishlist := l; wishlist_seq := seq;
     foreign_keys := foreign_keys d |}.

Definition with_new_user (l : list user) (seq : Z) (d : database) : database :=
  {| users := l; users_seq := seq;
     games := games d; games_seq := games_seq d;
     wishlist := wishlist d; wishlist_seq := wishlist_seq d;
     foreign_keys := foreign_keys d |}.

(** What [db.run] hands to its callback: [err], or [this.lastID] and
    [this.changes] with the database the statement leaves. *)
Inductive run_result :=
| Failed (message : string)
| Done (d : database) (lastID changes : Z).

(** A result row: the object node-sqlite3 builds, column name to value. *)
Definition row := list (string * value).

Definition user_row (u : user) : row :=
  [ ("id", column (SInt (u_id u))); ("name", column (u_name u));
    ("email", column (u_email u));
    ("password_hash", column (u_password_hash u));
    ("favorite_genre", column (u_favorite_genre u));
    ("hours_played", column (u_hours_played u));
    ("wins", column (u_wins u)); ("losses", column (u_losses u));
    ("level", column (u_level u)); ("photo", column (u_photo u));
    ("bio", column (u_bio u)); ("created_at", column (u_created_at u)) ].

Definition game_row (g : game) : row :=
  [ ("id", column (SInt (g_id g))); ("user_id", column (g_user_id g));
    ("title", column (g_title g)); ("genre", column (g_genre g));
    ("hours", column (g_hours g)); ("owned", column (g_owned g));
    ("img_url", column (g_img_url g));
    ("created_at", column (g_created_at g)) ].

Definition wish_row (w : wish) : row :=
  [ ("id", column (SInt (w_id w))); ("user_id", column (w_user_id w));
    ("title", column (w_title w)); ("genre", column (w_genre w));
    ("expected_release", column (w_expected_release w));
    ("created_at", column (w_created_at w)) ].

(** [SELECT c1, c2, ...]: the named columns, in that order. *)
Definition project (cols : list string) (r : row) : row :=
  map (fun c => (c, get c r)) cols.

(** [ORDER BY id DESC] *)
Fixpoint insert_desc {A} (key : A -> Z) (x : A) (l : list A) : list A :=
  match l with
  | [] => [x]
  | y :: l' => if key y <? key x then x :: l else y :: insert_desc key x l'
  end.

Definition order_by_desc {A} (key : A -> Z) (l : list A) : list A :=
  fold_right (insert_desc key) [] l.

(** The key AUTOINCREMENT gives the next row: one more than the largest key
    the table holds or has ever given out. *)
Definition next_id (ids : list Z) (seq : Z) : Z :=
  fold_right Z.max seq ids + 1.

End SQLite.
Import SQLite.

(* ===================================================================== *)
(** * The statements the handlers send                                     *)
(* ===================================================================== *)

Section Statements.
Context (P : platform).

Definition user_has_id (id : sqlval) (u : user) : bool :=
  int_col_eq P (SInt (u_id u)) id.

(** [SELECT * FROM users WHERE email = ?] ([db.get]: the first row) *)
Definition select_user_by_email (email : sqlval) (d : database) : option row :=
  option_map user_row (find (fun u => text_col_eq P (u_email u) email) (users d)).

(** [SELECT * FROM users WHERE id = ?] *)
Definition select_user_by_id (id : sqlval) (d : database) : option row :=
  option_map user_row (find (user_has_id id) (users d)).

(** [SET name = ?, email = ?, bio = ?, photo = COALESCE(?, photo)] *)
Definition set_profile (name email bio photo : sqlval) (u : user) : user :=
  {| u_id := u_id u;
     u_name := text_affinity P name;
     u_email := text_affinity P email;
     u_password_hash := u_password_hash u;
     u_favorite_genre := u_favorite_genre u;
     u_hours_played := u_hours_played u;
     u_wins := u_wins u;
     u_losses := u_losses u;
     u_level := u_level u;
     u_photo := coalesce (text_affinity P photo) (u_photo u);
     u_bio := text_affinity P bio;
     u_created_at := u_created_at u |}.

(** [SET name=?, bio=?, photo=COALESCE(?,photo)] (part_001) *)
Definition set_name_bio (name bio photo : sqlval) (u : user) : user :=
  {| u_id := u_id u;
     u_name := text_affinity P name;
     u_email := u_email u;
     u_password_hash := u_password_hash u;
     u_favorite_genre := u_favorite_genre u;
     u_hours_played := u_hours_played u;
     u_wins := u_wins u;
     u_losses := u_losses u;
     u_level := u_level u;
     u_photo := coalesce (text_affinity P photo) (u_photo u);
     u_bio := text_affinity P bio;
     u_created_at := u_created_at u |}.

(** NOT NULL on [name], [email], [password_hash]. *)
Definition user_has_null (u : user) : bool :=
  is_null (u_name u) || is_null (u_email u) || is_null (u_password_hash u).

(** UNIQUE on [email]: a row the statement wrote has the email of another
    row.  The rows come marked with whether the statement wrote them. *)
Fixpoint email_clash (l : list (bool * user)) : bool :=
  match l with
  | [] => false
  | (b, u) :: r =>
      existsb (fun bv => (b || fst bv) && sql_eqb (u_email u) (u_email (snd bv))) r
      || email_clash r
  end.

(** [UPDATE users SET ... WHERE id = ?]: the rows with that id are rewritten
    by [set]; the statement is rejected as a whole, and nothing is written,
    when a rewritten row breaks NOT NULL or UNIQUE. *)
Definition update_users (set : user -> user) (id : sqlval) (d : database)
  : run_result :=
  let marked :=
    map (fun u => if user_has_id id u then (true, set u) else (false, u)) (users d) in
  if existsb (fun bu => fst bu && user_has_null (snd bu)) marked then
    Failed "SQLITE_CONSTRAINT: NOT NULL constraint failed"
  else if email_clash marked then
    Failed "SQLITE_CONSTRAINT: UNIQUE constraint failed: users.email"
  else
    Done (with_users (map snd marked) d) 0
         (Z.of_nat (List.length (filter fst marked))).

(** [INSERT INTO games (user_id, title, genre, hours, owned, img_url)
     VALUES (?, ?, ?, ?, 1, ?)] *)
Definition insert_game (now : string) (user_id title genre hours img_url : sqlval)
    (d : database) : run_result :=
  let g := {| g_id := next_id (map g_id (games d)) (games_seq d);
              g_user_id := integer_affinity P user_id;
              g_title := text_affinity P title;
              g_genre := text_affinity P genre;
              g_hours := integer_affinity P hours;
              g_owned := SInt 1;
              g_img_url := text_affinity P img_url;
              g_created_at := SText now |} in
  if is_null (g_user_id g) || is_null (g_title g) then
    Failed "SQLITE_CONSTRAINT: NOT NULL constraint failed"
  else if foreign_keys d
          && negb (existsb (fun u => sql_eqb (SInt (u_id u)) (g_user_id g)) (users d)) then
    Failed "SQLITE_CONSTRAINT: FOREIGN KEY constraint failed"
  else Done (with_games (games d ++ [g]) (g_id g) d) (g_id g) 1.

(** [WHERE user_id = ? AND owned = 1] *)
Definition owned_by (user_id : sqlval) (g : game) : bool :=
  int_col_eq P (g_user_id g) user_id && sql_eqb (g_owned g) (SInt 1).

(** [SELECT * FROM games WHERE user_id = ? AND owned = 1 ORDER BY id DESC] *)
Definition select_games (user_id : sqlval) (d : database) : list row :=
  map game_row (order_by_desc g_id (filter (owned_by user_id) (games d))).

(** [WHERE id = ? AND user_id = ?] *)
Definition game_matches (id user_id : sqlval) (g : game) : bool :=
  int_col_eq P (SInt (g_id g)) id && int_col_eq P (g_user_id g) user_id.

(** [DELETE FROM games WHERE id = ? AND user_id = ?] *)
Definition delete_game (id user_id : sqlval) (d : database) : run_result :=
  let kept := filter (fun g => negb (game_matches id user_id g)) (games d) in
  Done (with_games kept (games_seq d) d) 0
       (Z.of_nat (List.length (games d)) - Z.of_nat (List.length kept)).

(** [INSERT INTO wishlist (user_id, title, genre, expected_release)
     VALUES (?, ?, ?, ?)] *)
Definition insert_wish (now : string) (user_id title genre expected_release : sqlval)
    (d : database) : run_result :=
  let w := {| w_id := next_id (map w_id (wishlist d)) (wishlist_seq d);
              w_user_id := integer_affinity P user_id;
              w_title := text_affinity P title;
              w_genre := text_affinity P genre;
              w_expected_release := text_affinity P expected_release;
              w_created_at := SText now |} in
  if is_null (w_user_id w) || is_null (w_title w) then
    Failed "SQLITE_CONSTRAINT: NOT NULL constraint failed"
  else if foreign_keys d
          && negb (existsb (fun u => sql_eqb (SInt (u_id u)) (w_user_id w)) (users d)) then
    Failed "SQLITE_CONSTRAINT: FOREIGN KEY constraint failed"
  else Done (with_wishlist (wishlist d ++ [w]) (w_id w) d) (w_id w) 1.

(** [SELECT * FROM wishlist WHERE user_id = ? ORDER BY id DESC] *)
Definition select_wishlist (user_id : sqlval) (d : database) : list row :=
  map wish_row
      (order_by_desc w_id
         (filter (fun w => int_col_eq P (w_user_id w) user_id) (wishlist d))).

(** [DELETE FROM wishlist WHERE id = ? AND user_id = ?] *)
Definition delete_wish (id user_id : sqlval) (d : database) : run_result :=
  let kept :=
    filter (fun w => negb (int_col_eq P (SInt (w_id w)) id
                           && int_col_eq P (w_user_id w) user_id)) (wishlist d) in
  Done (with_wishlist kept (wishlist_seq d) d) 0
       (Z.of_nat (List.length (wishlist d)) - Z.of_nat (List.length kept)).

(** [SUM(hours)], as the documentation of SQLite has it: NULL over no
    non-NULL value; the integer sum while every value is an integer, and the
    error "integer overflow" when a running sum leaves the 64 bits; from a
    value that is not an integer on, an approximation in floating point.  A
    text counts for the number it starts with. *)
Definition summand (v : sqlval) : sqlval :=
  match v with
  | SText s => match numeric_prefix P s with
               | SInt z => SInt z
               | SReal n => SReal n
               | _ => SReal (Int 0)
               end
  | _ => v
  end.

Inductive total :=
| Empty
| Exact (z : Z)
| Overflow
| Inexact.

Definition sum_step (t : total) (v : sqlval) : total :=
  match summand v with
  | SNull => t
  | SInt z =>
      match t with
      | Empty => if int64 z then Exact z else Overflow
      | Exact a => if int64 (a + z) then Exact (a + z) else Overflow
      | _ => t
      end
  | _ => Inexact
  end.

Definition sum (vs : list sqlval) : result sqlval :=
  match fold_left sum_step vs Empty with
  | Empty => Value SNull
  | Exact z => Value (SInt z)
  | Overflow => Raised "integer overflow"
  | Inexact =>
      approximate_sum P (filter (fun v => negb (is_null v)) (map summand vs))
  end.

(** [SELECT COUNT( * ) AS totalGames, SUM(hours) AS totalHours
     FROM games WHERE user_id = ? AND owned = 1]; with [coalesced], the
    second column is [COALESCE(SUM(hours),0)].  An aggregate query returns
    one row, or the error its aggregate raised. *)
Definition select_game_totals (coalesced : bool) (user_id : sqlval) (d : database)
  : result row :=
  let hours := map g_hours (filter (owned_by user_id) (games d)) in
  match sum hours with
  | Raised message => Raised ("SQLITE_ERROR: " ++ message)%string
  | Value total =>
      Value [ ("totalGames", column (SInt (Z.of_nat (List.length hours))));
              ("totalHours",
               column (if coalesced then coalesce total (SInt 0) else total)) ]
  end.

(** [INSERT INTO users (name, email, password_hash) VALUES (?, ?, ?)]: the
    other columns take their defaults. *)
Definition insert_user (now : string) (name email password_hash : sqlval)
    (d : database) : run_result :=
  let u := {| u_id := next_id (map u_id (users d)) (users_seq d);
              u_name := text_affinity P name;
              u_email := text_affinity P email;
              u_password_hash := text_affinity P password_hash;
              u_favorite_genre := SNull;
              u_hours_played := SInt 0;
              u_wins := SInt 0;
              u_losses := SInt 0;
              u_level := SInt 1;
              u_photo := SNull;
              u_bio := SNull;
              u_created_at := SText now |} in
  if user_has_null u then
    Failed "SQLITE_CONSTRAINT: NOT NULL constraint failed"
  else if existsb (fun v => sql_eqb (u_email v) (u_email u)) (users d) then
    Failed "SQLITE_CONSTRAINT: UNIQUE constraint failed: users.email"
  else Done (with_new_user (users d ++ [u]) (u_id u) d) (u_id u) 1.

End Statements.

(* ===================================================================== *)
(** * Coercions and operators of the language                              *)
(* ===================================================================== *)

Section Operators.
Context (P : platform).

(** ToNumber, that is [Number(v)] *)
Definition ToNumber (v : value) : number :=
  match v with
  | Undefined => NaN
  | Null => Int 0
  | VBool b => Int (if b then 1 else 0)
  | VNum n => n
  | VStr s => StringToNumber P s
  end.

Definition ToString (v : value) : string :=
  (match v with
   | Undefined => "undefined"
   | Null => "null"
   | VBool b => if b then "true" else "false"
   | VNum n => NumberToString P n
   | VStr s => s
   end)%string.

Definition Number (v : value) : value := VNum (ToNumber v).

(** [a + b]: concatenation when an operand is a string, addition otherwise *)
Definition js_add (a b : value) : value :=
  match a, b with
  | VStr _, _ | _, VStr _ => VStr (ToString a ++ ToString b)
  | _, _ => VNum (add (ToNumber a) (ToNumber b))
  end.

Definition js_mul (a b : value) : value := VNum (mul (ToNumber a) (ToNumber b)).
Definition js_div (a b : value) : value := VNum (div (ToNumber a) (ToNumber b)).

(** [Math.round(v)] and [Math.min(a, b)] *)
Definition Math_round (v : value) : value := VNum (round_number (ToNumber v)).
Definition Math_min (a b : value) : value := VNum (min_number (ToNumber a) (ToNumber b)).

(** [bcrypt.compare(data, hash)]: the promise rejects unless both arguments
    are strings. *)
Definition bcrypt_compare (data hash : value) : option bool :=
  match data, hash with
  | VStr d, VStr h => Some (bcrypt_verify P d h)
  | _, _ => None
  end.

End Operators.

(** [a === b] *)
Definition strict_eq (a b : value) : bool :=
  match a, b with
  | Undefined, Undefined | Null, Null => true
  | VBool x, VBool y => Bool.eqb x y
  | VNum x, VNum y => num_eqb x y
  | VStr x, VStr y => String.eqb x y
  | _, _ => false
  end.

Definition num (z : Z) : value := VNum (Int z).

(** A value as [res.json] writes it: NaN and the infinities are written
    [null], [-0] is written [0]. *)
Definition jval (v : value) : json :=
  match v with
  | VNum (Dbl (S754_zero _)) => JV (VNum (Int 0))
  | VNum (Dbl (S754_finite s m e)) => JV v
  | VNum (Dbl _) => JV Null
  | _ => JV v
  end.

Definition json_of_row (r : row) : json :=
  JO (map (fun kv => (fst kv, jval (snd kv))) r).

(** [path.basename]: what follows the last slash *)
Fixpoint has_slash (s : string) : bool :=
  match s with
  | EmptyString => false
  | String c r => Ascii.eqb c "/" || has_slash r
  end.

Fixpoint basename (s : string) : string :=
  match s with
  | EmptyString => EmptyString
  | String c r =>
      if has_slash r then basename r
      else if Ascii.eqb c "/" then r else s
  end.

(* ===================================================================== *)
(** * The server: requests, replies, state and middleware                  *)
(* ===================================================================== *)

(** A request after the body parsers: the fields of the body, the [:id] of
    the path, the original name of the [photo] part of a multipart body when
    there is one, and the clock at the time it is served ([Date.now()] in
    decimal and SQLite's CURRENT_TIMESTAMP). *)
Record request := {
  req_body : list (string * value);
  req_params_id : string;
  req_photo : option string;
  date_now : string;
  current_timestamp : string
}.

(** [res.status(s).json(b)]; [NoReply] when the handler ends on an exception
    nothing catches, so that no response is written. *)
Inductive reply :=
| Sent (status : Z) (body : json)
| NoReply.

(** The state a handler runs in: the database, the statements sent to it so
    far (latest first), the names of the files in the upload directory, and
    [req.session.userId]. *)
Record state := {
  db : database;
  queries : list string;
  uploads : list string;
  session_userId : value
}.

Definition handler := request -> state -> reply * state.

(** [db.get] and [db.all]: a query, which reads the database. *)
Definition db_query {A} (sql : string) (q : database -> A) (st : state)
  : A * state :=
  (q (db st),
   {| db := db st; queries := sql :: queries st;
      uploads := uploads st; session_userId := session_userId st |}).

(** [db.run]: a statement, which leaves the database it returns, or the
    database as it was when it fails. *)
Definition db_run (sql : string) (stmt : database -> run_result) (st : state)
  : run_result * state :=
  let r := stmt (db st) in
  (r,
   {| db := match r with Done d _ _ => d | Failed _ => db st end;
      queries := sql :: queries st;
      uploads := uploads st; session_userId := session_userId st |}).

(** [req.session.userId = v] *)
Definition set_session (v : value) (st : state) : state :=
  {| db := db st; queries := queries st;
     uploads := uploads st; session_userId := v |}.

(** [req.file] as multer's disk storage leaves it. *)
Record file := {
  filename : string;
  path : string
}.

(** [upload.single("photo")] over
    [diskStorage({destination: dir, filename: Date.now() + "-" + originalname})]:
    the part is written under [dir] and described in [req.file]. *)
Definition upload_single (dir : string) (next : option file -> handler) : handler :=
  fun req st =>
    match req_photo req with
    | None => next None req st
    | Some originalname =>
        let name := (date_now req ++ "-" ++ originalname)%string in
        next (Some {| filename := name; path := (dir ++ "/" ++ name)%string |}) req
             {| db := db st; queries := queries st;
                uploads := name :: uploads st;
                session_userId := session_userId st |}
    end.

(** [function requireLogin(req, res, next)] *)
Definition requireLogin (next : handler) : handler :=
  fun req st =>
    if truthy (session_userId st) then next req st
    else (Sent 401 (obj [("error", jstr "Unauthorized")]), st).

Definition db_error : reply := Sent 500 (obj [("error", jstr "DB error")]).

(** [s.includes(sub)] *)
Fixpoint includes (s sub : string) : bool :=
  String.prefix sub s
  || match s with
     | EmptyString => false
     | String _ r => includes r sub
     end.

(** [bcrypt.hash(data, rounds)]: the promise rejects unless [data] is a
    string; [hash] is the hash the library returns for it. *)
Definition bcrypt_hash (hash : string -> Z -> string) (data : value) (rounds : Z)
  : option string :=
  match data with
  | VStr s => Some (hash s rounds)
  | _ => None
  end.

(** [app.post("/api/logout", ...)], the same in the three copies:
    [req.session.destroy(() => res.json({ ok: true }))]. *)
Definition logout : handler := fun req st =>
  (Sent 200 (obj [("ok", jtrue)]), set_session Undefined st).

(** The routes of the API. *)
Inductive route :=
| POST_login
| GET_profile
| POST_profile_update
| POST_collection
| GET_collection
| DELETE_collection
| POST_wishlist
| GET_wishlist
| DELETE_wishlist
| GET_stats.

(** The operations behind a session. *)
Definition protected (r : route) : bool :=
  match r with POST_login => false | _ => true end.

(* ===================================================================== *)
(** * The_GamePakour/server.js                                             *)
(* ===================================================================== *)

Module Server.
Section Handlers.
Context (P : platform).

Definition profile_columns : list string :=
  ["id"; "name"; "email"; "favorite_genre"; "hours_played"; "wins"; "losses";
   "level"; "photo"; "bio"].

Definition SALT_ROUNDS : Z := 10.

(** [app.post("/api/signup", ...)] *)
Definition signup (hash : string -> Z -> string) : handler := fun req st =>
  let name := get "name" (req_body req) in
  let email := get "email" (req_body req) in
  let password := get "password" (req_body req) in
  if negb (truthy name) || negb (truthy email) || negb (truthy password) then
    (Sent 400 (obj [("error", jstr "Missing fields")]), st)
  else
    match bcrypt_hash hash password SALT_ROUNDS with
    | None => (Sent 500 (obj [("error", jstr "Server error")]), st)
    | Some h =>
        let '(r, st) :=
          db_run "INSERT INTO users (name, email, password_hash) VALUES (?, ?, ?)"
                 (insert_user P (current_timestamp req) (bind name) (bind email)
                    (bind (VStr h))) st in
        match r with
        | Failed message =>
            if includes message "UNIQUE" then
              (Sent 409 (obj [("error", jstr "Email already exists")]), st)
            else (db_error, st)
        | Done _ lastID _ =>
            (Sent 200 (obj [("ok", jtrue)]), set_session (num lastID) st)
        end
    end.

(** [app.post("/api/login", ...)] *)
Definition login : handler := fun req st =>
  let email := get "email" (req_body req) in
  let password := get "password" (req_body req) in
  let '(row, st) :=
    db_query "SELECT * FROM users WHERE email = ?"
             (select_user_by_email P (bind email)) st in
  match row with
  | None => (Sent 401 (obj [("error", jstr "Invalid credentials")]), st)
  | Some row =>
      match bcrypt_compare P password (get "password_hash" row) with
      | None => (NoReply, st)
      | Some false => (Sent 401 (obj [("error", jstr "Invalid credentials")]), st)
      | Some true => (Sent 200 (obj [("ok", jtrue)]), set_session (get "id" row) st)
      end
  end.

(** [app.get("/api/profile", requireLogin, ...)] *)
Definition profile : handler := requireLogin (fun req st =>
  let '(row, st) :=
    db_query "SELECT id, name, email, favorite_genre, hours_played, wins, losses, level, photo, bio FROM users WHERE id = ?"
             (select_user_by_id P (bind (session_userId st))) st in
  (Sent 200 (obj [("ok", jtrue);
                  ("profile", match row with
                              | Some r => json_of_row (project profile_columns r)
                              | None => JV Undefined
                              end)]), st)).

(** [app.post("/api/profile/update", requireLogin, upload.single("photo"), ...)] *)
Definition profile_update : handler :=
  requireLogin (upload_single "uploads" (fun file req st =>
    let name := get "name" (req_body req) in
    let email := get "email" (req_body req) in
    let bio := get "bio" (req_body req) in
    let photoPath :=
      match file with
      | Some f => VStr ("/uploads/" ++ filename f)
      | None => Null
      end in
    let '(r, st) :=
      db_run "UPDATE users SET name = ?, email = ?, bio = ?, photo = COALESCE(?, photo) WHERE id = ?"
             (update_users P
                (set_profile P (bind name) (bind email) (bind bio) (bind photoPath))
                (bind (session_userId st))) st in
    match r with
    | Failed _ => (db_error, st)
    | Done _ _ _ => (Sent 200 (obj [("ok", jtrue)]), st)
    end)).

(** [app.post("/api/collection", requireLogin, ...)] *)
Definition collection_add : handler := requireLogin (fun req st =>
  let title := get "title" (req_body req) in
  let genre := get "genre" (req_body req) in
  let hours := get "hours" (req_body req) in
  let img_url := get "img_url" (req_body req) in
  let '(r, st) :=
    db_run "INSERT INTO games (user_id, title, genre, hours, owned, img_url) VALUES (?, ?, ?, ?, 1, ?)"
           (insert_game P (current_timestamp req) (bind (session_userId st))
              (bind title) (bind genre) (bind hours) (bind img_url)) st in
  match r with
  | Failed _ => (db_error, st)
  | Done _ lastID _ => (Sent 200 (obj [("ok", jtrue); ("id", jval (num lastID))]), st)
  end).

(** [app.get("/api/collection", requireLogin, ...)] *)
Definition collection_list : handler := requireLogin (fun req st =>
  let '(rows, st) :=
    db_query "SELECT * FROM games WHERE user_id = ? AND owned = 1 ORDER BY id DESC"
             (select_games P (bind (session_userId st))) st in
  (Sent 200 (obj [("ok", jtrue); ("games", JA (map json_of_row rows))]), st)).

(** [app.delete("/api/collection/:id", requireLogin, ...)] *)
Definition collection_delete : handler := requireLogin (fun req st =>
  let '(r, st) :=
    db_run "DELETE FROM games WHERE id = ? AND user_id = ?"
           (delete_game P (bind (VStr (req_params_id req)))
              (bind (session_userId st))) st in
  match r with
  | Failed _ => (db_error, st)
  | Done _ _ _ => (Sent 200 (obj [("ok", jtrue)]), st)
  end).

(** [app.post("/api/wishlist", requireLogin, ...)] *)
Definition wishlist_add : handler := requireLogin (fun req st =>
  let title := get "title" (req_body req) in
  let genre := get "genre" (req_body req) in
  let expected_release := get "expected_release" (req_body req) in
  let '(r, st) :=
    db_run "INSERT INTO wishlist (user_id, title, genre, expected_release) VALUES (?, ?, ?, ?)"
           (insert_wish P (current_timestamp req) (bind (session_userId st))
              (bind title) (bind genre) (bind expected_release)) st in
  match r with
  | Failed _ => (db_error, st)
  | Done _ lastID _ => (Sent 200 (obj [("ok", jtrue); ("id", jval (num lastID))]), st)
  end).

(** [app.get("/api/wishlist", requireLogin, ...)] *)
Definition wishlist_list : handler := requireLogin (fun req st =>
  let '(rows, st) :=
    db_query "SELECT * FROM wishlist WHERE user_id = ? ORDER BY id DESC"
             (select_wishlist P (bind (session_userId st))) st in
  (Sent 200 (obj [("ok", jtrue); ("wishlist", JA (map json_of_row rows))]), st)).

(** [app.delete("/api/wishlist/:id", requireLogin, ...)] *)
Definition wishlist_delete : handler := requireLogin (fun req st =>
  let '(r, st) :=
    db_run "DELETE FROM wishlist WHERE id = ? AND user_id = ?"
           (delete_wish P (bind (VStr (req_params_id req)))
              (bind (session_userId st))) st in
  match r with
  | Failed _ => (db_error, st)
  | Done _ _ _ => (Sent 200 (obj [("ok", jtrue)]), st)
  end).

(** [wins + losses === 0 ? 0 : Math.round((wins / (wins + losses)) * 100)] *)
Definition winRatio (wins losses : value) : value :=
  if strict_eq (js_add P wins losses) (num 0) then num 0
  else Math_round P (js_mul P (js_div P wins (js_add P wins losses)) (num 100)).

(** [Math.round((userRow.level / 100) * 100)] *)
Definition levelProgress (level : value) : value :=
  Math_round P (js_mul P (js_div P level (num 100)) (num 100)).

(** [app.get("/api/stats", requireLogin, ...)]; when the second query finds
    no row, [userRow.wins] throws inside the callback. *)
Definition stats : handler := requireLogin (fun req st =>
  let userId := session_userId st in
  let '(gameRow, st) :=
    db_query "SELECT COUNT( * ) AS totalGames, SUM(hours) AS totalHours FROM games WHERE user_id = ? AND owned = 1"
             (select_game_totals P false (bind userId)) st in
  match gameRow with
  | Raised _ => (db_error, st)
  | Value gameRow =>
      let '(userRow, st) :=
        db_query "SELECT level, wins, losses FROM users WHERE id = ?"
                 (select_user_by_id P (bind userId)) st in
      match userRow with
      | None => (NoReply, st)
      | Some userRow =>
          let userRow := project ["level"; "wins"; "losses"] userRow in
          let wins := or_else (get "wins" userRow) (num 0) in
          let losses := or_else (get "losses" userRow) (num 0) in
          (Sent 200
             (obj [("ok", jtrue);
                   ("stats",
                    obj [("totalGames", jval (or_else (get "totalGames" gameRow) (num 0)));
                         ("totalHours", jval (or_else (get "totalHours" gameRow) (num 0)));
                         ("level", jval (get "level" userRow));
                         ("levelProgress", jval (levelProgress (get "level" userRow)));
                         ("winRatio", jval (winRatio wins losses))])]), st)
      end
  end).

(** The routes the file registers. *)
Definition app (r : route) : option handler :=
  Some match r with
       | POST_login => login
       | GET_profile => profile
       | POST_profile_update => profile_update
       | POST_collection => collection_add
       | GET_collection => collection_list
       | DELETE_collection => collection_delete
       | POST_wishlist => wishlist_add
       | GET_wishlist => wishlist_list
       | DELETE_wishlist => wishlist_delete
       | GET_stats => stats
       end.

End Handlers.
End Server.

(* ===================================================================== *)
(** * unnamed/part_000                                                     *)
(* ===================================================================== *)

Module Part000.
Section Handlers.
Context (P : platform).

(** [path.join(dbDir, "uploads")] with the default [DB_DIR] *)
Definition uploadsDir : string := "/var/data/uploads".

Definition profile_columns : list string :=
  ["id"; "name"; "email"; "favorite_genre"; "hours_played"; "wins"; "losses";
   "level"; "photo"; "bio"].

Definition SALT_ROUNDS : Z := 10.

(** [app.post("/api/signup", ...)] *)
Definition signup (hash : string -> Z -> string) : handler := fun req st =>
  let name := get "name" (req_body req) in
  let email := get "email" (req_body req) in
  let password := get "password" (req_body req) in
  if negb (truthy name) || negb (truthy email) || negb (truthy password) then
    (Sent 400 (obj [("error", jstr "Missing fields")]), st)
  else
    match bcrypt_hash hash password SALT_ROUNDS with
    | None => (Sent 500 (obj [("error", jstr "Server error")]), st)
    | Some h =>
        let '(r, st) :=
          db_run "INSERT INTO users (name, email, password_hash) VALUES (?, ?, ?)"
                 (insert_user P (current_timestamp req) (bind name) (bind email)
                    (bind (VStr h))) st in
        match r with
        | Failed message =>
            if includes message "UNIQUE" then
              (Sent 409 (obj [("error", jstr "Email already exists")]), st)
            else (db_error, st)
        | Done _ lastID _ =>
            (Sent 200 (obj [("ok", jtrue); ("userId", jval (num lastID))]),
             set_session (num lastID) st)
        end
    end.

(** [app.post("/api/login", ...)] *)
Definition login : handler := fun req st =>
  let email := get "email" (req_body req) in
  let password := get "password" (req_body req) in
  if negb (truthy email) || negb (truthy password) then
    (Sent 400 (obj [("error", jstr "Missing fields")]), st)
  else
    let '(row, st) :=
      db_query "SELECT id, password_hash, name, email FROM users WHERE email = ?"
               (select_user_by_email P (bind email)) st in
    match row with
    | None => (Sent 401 (obj [("error", jstr "Invalid credentials")]), st)
    | Some row =>
        let row := project ["id"; "password_hash"; "name"; "email"] row in
        match bcrypt_compare P password (get "password_hash" row) with
        | None => (Sent 500 (obj [("error", jstr "Server error")]), st)
        | Some false => (Sent 401 (obj [("error", jstr "Invalid credentials")]), st)
        | Some true =>
            (Sent 200 (obj [("ok", jtrue); ("userId", jval (get "id" row));
                            ("name", jval (get "name" row));
                            ("email", jval (get "email" row))]),
             set_session (get "id" row) st)
        end
    end.

(** [app.get("/api/profile", requireLogin, ...)] *)
Definition profile : handler := requireLogin (fun req st =>
  let '(row, st) :=
    db_query "SELECT id, name, email, favorite_genre, hours_played, wins, losses, level, photo, bio FROM users WHERE id = ?"
             (select_user_by_id P (bind (session_userId st))) st in
  (Sent 200 (obj [("ok", jtrue);
                  ("profile", match row with
                              | Some r => json_of_row (project profile_columns r)
                              | None => JO []
                              end)]), st)).

(** [app.post("/api/profile/update", requireLogin, upload.single("photo"), ...)] *)
Definition profile_update : handler :=
  requireLogin (upload_single uploadsDir (fun file req st =>
    let name := get "name" (req_body req) in
    let email := get "email" (req_body req) in
    let bio := get "bio" (req_body req) in
    let photoPath :=
      match file with
      | Some f => VStr ("/uploads/" ++ basename (path f))
      | None => Null
      end in
    let '(r, st) :=
      db_run "UPDATE users SET name = ?, email = ?, bio = ?, photo = COALESCE(?, photo) WHERE id = ?"
             (update_users P
                (set_profile P (bind name) (bind email) (bind bio) (bind photoPath))
                (bind (session_userId st))) st in
    match r with
    | Failed _ => (db_error, st)
    | Done _ _ _ => (Sent 200 (obj [("ok", jtrue)]), st)
    end)).

(** [app.post("/api/collection", requireLogin, ...)] *)
Definition collection_add : handler := requireLogin (fun req st =>
  let title := get "title" (req_body req) in
  let genre := get "genre" (req_body req) in
  let hours := get "hours" (req_body req) in
  let img_url := get "img_url" (req_body req) in
  let hours := or_else (Number P hours) (num 0) in
  let title := or_else title (VStr "Untitled") in
  let '(r, st) :=
    db_run "INSERT INTO games (user_id, title, genre, hours, owned, img_url) VALUES (?, ?, ?, ?, 1, ?)"
           (insert_game P (current_timestamp req) (bind (session_userId st))
              (bind title) (bind (or_else genre (VStr ""))) (bind hours)
              (bind (or_else img_url (VStr "")))) st in
  match r with
  | Failed _ => (db_error, st)
  | Done _ lastID _ => (Sent 200 (obj [("ok", jtrue); ("id", jval (num lastID))]), st)
  end).

(** [app.get("/api/collection", requireLogin, ...)] *)
Definition collection_list : handler := requireLogin (fun req st =>
  let '(rows, st) :=
    db_query "SELECT * FROM games WHERE user_id = ? AND owned = 1 ORDER BY id DESC"
             (select_games P (bind (session_userId st))) st in
  (Sent 200 (obj [("ok", jtrue); ("games", JA (map json_of_row rows))]), st)).

(** [app.delete("/api/collection/:id", requireLogin, ...)] *)
Definition collection_delete : handler := requireLogin (fun req st =>
  let '(r, st) :=
    db_run "DELETE FROM games WHERE id = ? AND user_id = ?"
           (delete_game P (bind (VStr (req_params_id req)))
              (bind (session_userId st))) st in
  match r with
  | Failed _ => (db_error, st)
  | Done _ _ changes =>
      (Sent 200 (obj [("ok", jtrue); ("deleted", jval (num changes))]), st)
  end).

(** [app.post("/api/wishlist", requireLogin, ...)] *)
Definition wishlist_add : handler := requireLogin (fun req st =>
  let title := get "title" (req_body req) in
  let genre := get "genre" (req_body req) in
  let expected_release := get "expected_release" (req_body req) in
  let '(r, st) :=
    db_run "INSERT INTO wishlist (user_id, title, genre, expected_release) VALUES (?, ?, ?, ?)"
           (insert_wish P (current_timestamp req) (bind (session_userId st))
              (bind (or_else title (VStr "Untitled")))
              (bind (or_else genre (VStr "")))
              (bind (or_else expected_release (VStr "")))) st in
  match r with
  | Failed _ => (db_error, st)
  | Done _ lastID _ => (Sent 200 (obj [("ok", jtrue); ("id", jval (num lastID))]), st)
  end).

(** [app.get("/api/wishlist", requireLogin, ...)] *)
Definition wishlist_list : handler := requireLogin (fun req st =>
  let '(rows, st) :=
    db_query "SELECT * FROM wishlist WHERE user_id = ? ORDER BY id DESC"
             (select_wishlist P (bind (session_userId st))) st in
  (Sent 200 (obj [("ok", jtrue); ("wishlist", JA (map json_of_row rows));
                  ("list", JA (map json_of_row rows))]), st)).

(** [app.delete("/api/wishlist/:id", requireLogin, ...)] *)
Definition wishlist_delete : handler := requireLogin (fun req st =>
  let '(r, st) :=
    db_run "DELETE FROM wishlist WHERE id = ? AND user_id = ?"
           (delete_wish P (bind (VStr (req_params_id req)))
              (bind (session_userId st))) st in
  match r with
  | Failed _ => (db_error, st)
  | Done _ _ changes =>
      (Sent 200 (obj [("ok", jtrue); ("deleted", jval (num changes))]), st)
  end).

(** [wins + losses === 0 ? 0 : Math.round((wins / (wins + losses)) * 100)] *)
Definition winRatio (wins losses : value) : value :=
  if strict_eq (js_add P wins losses) (num 0) then num 0
  else Math_round P (js_mul P (js_div P wins (js_add P wins losses)) (num 100)).

(** [Math.min(Math.round((level / 100) * 100), 100)] *)
Definition levelProgress (level : value) : value :=
  Math_min P (Math_round P (js_mul P (js_div P level (num 100)) (num 100))) (num 100).

(** [userRow && userRow.k] *)
Definition row_get (k : string) (r : option row) : value :=
  match r with
  | Some r => get k r
  | None => Undefined
  end.

(** [app.get("/api/stats", requireLogin, ...)] *)
Definition stats : handler := requireLogin (fun req st =>
  let userId := session_userId st in
  let '(gameRow, st) :=
    db_query "SELECT COUNT( * ) AS totalGames, COALESCE(SUM(hours),0) AS totalHours FROM games WHERE user_id = ? AND owned = 1"
             (select_game_totals P true (bind userId)) st in
  match gameRow with
  | Raised _ => (db_error, st)
  | Value gameRow =>
      let '(userRow, st) :=
        db_query "SELECT level, wins, losses FROM users WHERE id = ?"
                 (fun d => option_map (project ["level"; "wins"; "losses"])
                             (select_user_by_id P (bind userId) d)) st in
      let wins := or_else (row_get "wins" userRow) (num 0) in
      let losses := or_else (row_get "losses" userRow) (num 0) in
      let winRatio := winRatio wins losses in
      let level := or_else (row_get "level" userRow) (num 1) in
      let levelProgress := levelProgress level in
      (Sent 200
         (obj [("ok", jtrue);
               ("stats",
                obj [("totalGames", jval (or_else (get "totalGames" gameRow) (num 0)));
                     ("totalHours", jval (or_else (get "totalHours" gameRow) (num 0)));
                     ("level", jval level);
                     ("levelProgress", jval levelProgress);
                     ("winRatio", jval winRatio)])]), st)
  end).

(** The routes the file registers. *)
Definition app (r : route) : option handler :=
  Some match r with
       | POST_login => login
       | GET_profile => profile
       | POST_profile_update => profile_update
       | POST_collection => collection_add
       | GET_collection => collection_list
       | DELETE_collection => collection_delete
       | POST_wishlist => wishlist_add
       | GET_wishlist => wishlist_list
       | DELETE_wishlist => wishlist_delete
       | GET_stats => stats
       end.

End Handlers.
End Part000.

(* ===================================================================== *)
(** * unnamed/part_001                                                     *)
(* ===================================================================== *)

Module Part001.
Section Handlers.
Context (P : platform).

(** [path.join(dbDir, "uploads")] with the default [DB_DIR] *)
Definition uploadsDir : string := "/tmp/uploads".

Definition SALT_ROUNDS : Z := 10.

(** [app.post("/api/signup", ...)]; nothing catches a rejection of
    [bcrypt.hash]. *)
Definition signup (hash : string -> Z -> string) : handler := fun req st =>
  let name := get "name" (req_body req) in
  let email := get "email" (req_body req) in
  let password := get "password" (req_body req) in
  if negb (truthy name) || negb (truthy email) || negb (truthy password) then
    (Sent 400 (obj [("error", jstr "Missing fields")]), st)
  else
    match bcrypt_hash hash password SALT_ROUNDS with
    | None => (NoReply, st)
    | Some h =>
        let '(r, st) :=
          db_run "INSERT INTO users (name, email, password_hash) VALUES (?, ?, ?)"
                 (insert_user P (current_timestamp req) (bind name) (bind email)
                    (bind (VStr h))) st in
        match r with
        | Failed message =>
            if includes message "UNIQUE" then
              (Sent 409 (obj [("error", jstr "Email exists")]), st)
            else (db_error, st)
        | Done _ lastID _ =>
            (Sent 200 (obj [("ok", jtrue)]), set_session (num lastID) st)
        end
    end.

(** [app.post("/api/login", ...)] *)
Definition login : handler := fun req st =>
  let email := get "email" (req_body req) in
  let password := get "password" (req_body req) in
  let '(user, st) :=
    db_query "SELECT * FROM users WHERE email = ?"
             (select_user_by_email P (bind email)) st in
  match user with
  | None => (Sent 401 (obj [("error", jstr "Invalid login")]), st)
  | Some user =>
      match bcrypt_compare P password (get "password_hash" user) with
      | None => (NoReply, st)
      | Some false => (Sent 401 (obj [("error", jstr "Invalid login")]), st)
      | Some true => (Sent 200 (obj [("ok", jtrue)]), set_session (get "id" user) st)
      end
  end.

(** [app.get("/api/profile", requireLogin, ...)] *)
Definition profile : handler := requireLogin (fun req st =>
  let '(row, st) :=
    db_query "SELECT id, name, email, bio, photo FROM users WHERE id = ?"
             (select_user_by_id P (bind (session_userId st))) st in
  (Sent 200 (obj [("ok", jtrue);
                  ("profile", match row with
                              | Some r => json_of_row
                                            (project ["id"; "name"; "email"; "bio"; "photo"] r)
                              | None => JV Undefined
                              end)]), st)).

(** [app.post("/api/profile/update", requireLogin, upload.single("photo"), ...)];
    the callback of [db.run] does not look at [err]. *)
Definition profile_update : handler :=
  requireLogin (upload_single uploadsDir (fun file req st =>
    let name := get "name" (req_body req) in
    let bio := get "bio" (req_body req) in
    let photo :=
      match file with
      | Some f => VStr ("/uploads/" ++ filename f)
      | None => Null
      end in
    let '(_, st) :=
      db_run "UPDATE users SET name=?, bio=?, photo=COALESCE(?,photo) WHERE id=?"
             (update_users P (set_name_bio P (bind name) (bind bio) (bind photo))
                (bind (session_userId st))) st in
    (Sent 200 (obj [("ok", jtrue)]), st))).

(** The routes the file registers. *)
Definition app (r : route) : option handler :=
  match r with
  | POST_login => Some login
  | GET_profile => Some profile
  | POST_profile_update => Some profile_update
  | _ => None
  end.

End Handlers.
End Part001.

(* ===================================================================== *)
(** * A platform to run the handlers on                                    *)
(* ===================================================================== *)

(** The statements below hold for every platform.  The runs on concrete
    requests need one: [reference] reads and writes integers in decimal, as
    ECMAScript and SQLite both do, sums as SQLite does from release 3.43 on,
    and stands in for bcrypt with a hash that is the password behind a fixed
    prefix.  Texts of other shapes (fractions, exponents, surrounding blanks)
    do not occur in the runs; [reference] reads them as not numeric. *)
Module Reference.

Definition digit (c : ascii) : option Z :=
  let n := Z.of_nat (nat_of_ascii c) in
  if (48 <=? n) && (n <=? 57) then Some (n - 48) else None.

(** The value of a run of decimal digits, [None] when another character occurs. *)
Fixpoint digits (s : string) (acc : Z) : option Z :=
  match s with
  | EmptyString => Some acc
  | String c r =>
      match digit c with
      | Some k => digits r (10 * acc + k)
      | None => None
      end
  end.

(** An optionally signed decimal integer: its sign and magnitude. *)
Definition signed_integer (s : string) : option (bool * Z) :=
  match s with
  | EmptyString => None
  | String "-" (String c r) => option_map (pair true) (digits (String c r) 0)
  | String "+" (String c r) => option_map (pair false) (digits (String c r) 0)
  | _ => option_map (pair false) (digits s 0)
  end.

Definition string_to_number (s : string) : number :=
  match s with
  | EmptyString => Int 0
  | _ =>
      match signed_integer s with
      | Some (true, 0) => Dbl (S754_zero true)
      | Some (neg, z) => of_double (Z2SF (if neg then - z else z))
      | None => NaN
      end
  end.

Fixpoint decimal (fuel : nat) (z : Z) (acc : string) : string :=
  match fuel with
  | O => acc
  | S fuel' =>
      let acc' := String (ascii_of_nat (Z.to_nat (48 + z mod 10))) acc in
      if z <? 10 then acc' else decimal fuel' (z / 10) acc'
  end.

Definition integer_text (z : Z) : string :=
  if z <? 0 then String "-" (decimal (Z.to_nat (Z.log2 (- z)) + 1) (- z) "")
  else decimal (Z.to_nat (Z.log2 z) + 1) z "".

Definition number_to_string (n : number) : string :=
  (match n with
   | Int z => integer_text z
   | Dbl S754_nan => "NaN"
   | Dbl (S754_infinity s) => if s then "-Infinity" else "Infinity"
   | Dbl (S754_zero _) => "0"
   | Dbl f => match SF_integer f with Some z => integer_text z | None => "" end
   end)%string.

(** The running sum of [SUM] (func.c, [SumCtx]): the sum and the error term
    of the Kahan-Babuska-Neumaier summation, the integer sum, whether a value
    that is not an integer or an overflow was met, whether an overflow was. *)
Record sum_ctx := {
  rSum : spec_float;
  rErr : spec_float;
  iSum : Z;
  approx : bool;
  ovrfl : bool
}.

Definition kbn_step (c : sum_ctx) (r : spec_float) : sum_ctx :=
  let s := rSum c in
  let t := SFadd prec emax s r in
  let e := if SFltb (SFabs r) (SFabs s)
           then SFadd prec emax (SFsub prec emax s t) r
           else SFadd prec emax (SFsub prec emax r t) s in
  {| rSum := t; rErr := SFadd prec emax (rErr c) e;
     iSum := iSum c; approx := approx c; ovrfl := ovrfl c |}.

(** An integer of 2^52 or more is added in two parts. *)
Definition large (z : Z) : bool := (z <=? - 2 ^ 52) || (2 ^ 52 <=? z).

Definition kbn_step_int (c : sum_ctx) (z : Z) : sum_ctx :=
  if large z then
    let small := Z.rem z 16384 in
    kbn_step (kbn_step c (Z2SF (z - small))) (Z2SF small)
  else kbn_step c (Z2SF z).

(** The summation starts from the integer sum; [ov] is what [ovrfl] becomes. *)
Definition kbn_init (c : sum_ctx) (ov : bool) : sum_ctx :=
  let z := iSum c in
  let small := if large z then Z.rem z 16384 else 0 in
  {| rSum := Z2SF (z - small); rErr := Z2SF small;
     iSum := z; approx := true; ovrfl := ov |}.

Definition sum_ctx_step (c : sum_ctx) (v : sqlval) : sum_ctx :=
  match v with
  | SInt z =>
      if approx c then kbn_step_int c z
      else if int64 (iSum c + z) then
        {| rSum := rSum c; rErr := rErr c; iSum := iSum c + z;
           approx := false; ovrfl := ovrfl c |}
      else kbn_step_int (kbn_init c true) z
  | SReal n =>
      if approx c then
        kbn_step {| rSum := rSum c; rErr := rErr c; iSum := iSum c;
                    approx := true; ovrfl := false |} (to_double n)
      else kbn_step (kbn_init c false) (to_double n)
  | _ => c
  end.

Definition sum_ctx_result (c : sum_ctx) : result sqlval :=
  if ovrfl c then Raised "integer overflow"
  else match rErr c with
       | S754_nan => Value (SReal (of_double (rSum c)))
       | _ => Value (SReal (of_double (SFadd prec emax (rSum c) (rErr c))))
       end.

Definition kbn_sum (vs : list sqlval) : result sqlval :=
  sum_ctx_result
    (fold_left sum_ctx_step vs
       {| rSum := S754_zero false; rErr := S754_zero false; iSum := 0;
          approx := false; ovrfl := false |}).

Definition reference : platform := {|
  StringToNumber := string_to_number;
  NumberToString := number_to_string;
  numeric_text := fun s =>
    match signed_integer s with
    | Some (neg, z) => Some (SInt (if neg then - z else z))
    | None => None
    end;
  text_of_numeric := fun v =>
    match v with
    | SInt z => integer_text z
    | SReal n => match integer_of n with
                 | Some z => (integer_text z ++ ".0")%string
                 | None => number_to_string n
                 end
    | _ => ""%string
    end;
  numeric_prefix := fun s =>
    match signed_integer s with
    | Some (neg, z) => SInt (if neg then - z else z)
    | None => SReal (Int 0)
    end;
  approximate_sum := kbn_sum;
  bcrypt_verify := fun password hash => String.eqb hash ("$2b$10$" ++ password)
|}.

End Reference.
Import Reference.


(* ===================================================================== *)
(** * The three copies side by side                                        *)
(* ===================================================================== *)

Inductive variant :=
| server_js
| part_000
| part_001.

Definition app (v : variant) (P : platform) (r : route) : option handler :=
  match v with
  | server_js => Server.app P r
  | part_000 => Part000.app P r
  | part_001 => Part001.app P r
  end.

Definition login (v : variant) (P : platform) : handler :=
  match v with
  | server_js => Server.login P
  | part_000 => Part000.login P
  | part_001 => Part001.login P
  end.

Definition profile_update (v : variant) (P : platform) : handler :=
  match v with
  | server_js => Server.profile_update P
  | part_000 => Part000.profile_update P
  | part_001 => Part001.profile_update P
  end.

(** The reference to the stored photo each copy writes for an upload. *)
Definition photo_reference (v : variant) (req : request) (originalname : string)
  : string :=
  let name := (date_now req ++ "-" ++ originalname)%string in
  match v with
  | part_000 => ("/uploads/" ++ basename (Part000.uploadsDir ++ "/" ++ name))%string
  | _ => ("/uploads/" ++ name)%string
  end.

Definition unauthorized : reply := Sent 401 (JO [("error", jstr "Unauthorized")]).

(** The reply of a failed login, in the words of each copy. *)
Definition invalid_credentials (v : variant) : reply :=
  match v with
  | part_001 => Sent 401 (JO [("error", jstr "Invalid login")])
  | _ => Sent 401 (JO [("error", jstr "Invalid credentials")])
  end.

(** The two ways a login fails on the credentials: the query on the email
    finds no row; it finds one and bcrypt says the password does not verify
    against its hash. *)
Definition no_such_user (P : platform) (req : request) (st : state) : Prop :=
  select_user_by_email P (bind (get "email" (req_body req))) (db st) = None.

Definition wrong_password (P : platform) (req : request) (st : state) : Prop :=
  exists r,
    select_user_by_email P (bind (get "email" (req_body req))) (db st) = Some r
    /\ bcrypt_compare P (get "password" (req_body req)) (get "password_hash" r)
       = Some false.

(** part_000 turns a request away before any query when a field is missing;
    the other copies have no such check. *)
Definition passes_validation (v : variant) (req : request) : Prop :=
  match v with
  | part_000 =>
      truthy (get "email" (req_body req)) = true
      /\ truthy (get "password" (req_body req)) = true
  | _ => True
  end.

(* ===================================================================== *)
(** * Sample data                                                          *)
(* ===================================================================== *)

Module Sample.

Definition mk_user (id : Z) (name email password : string)
    (wins losses level : sqlval) : user :=
  {| u_id := id; u_name := SText name; u_email := SText email;
     u_password_hash := SText ("$2b$10$" ++ password);
     u_favorite_genre := SNull; u_hours_played := SInt 0;
     u_wins := wins; u_losses := losses; u_level := level;
     u_photo := SText "/uploads/1700000000000-old.png"; u_bio := SText "hello";
     u_created_at := SText "2024-01-01 00:00:00" |}.

Definition alice := mk_user 1 "Alice" "alice@example.com" "wonderland" (SInt 3) (SInt 1) (SInt 40).
Definition bob := mk_user 2 "Bob" "bob@example.com" "builder" (SInt 0) (SInt 0) (SInt 150).
Definition carol := mk_user 3 "Carol" "carol@example.com" "singer" SNull SNull SNull.
Definition dave := mk_user 4 "Dave" "dave@example.com" "diver" (SInt 23) (SInt 17) (SInt 7).

Definition chess : game :=
  {| g_id := 1; g_user_id := SInt 2; g_title := SText "Chess";
     g_genre := SText "Board"; g_hours := SInt 12; g_owned := SInt 1;
     g_img_url := SText ""; g_created_at := SText "2024-01-02 00:00:00" |}.

Definition database0 : database :=
  {| users := [alice; bob; carol; dave]; users_seq := 4;
     games := [chess]; games_seq := 1;
     wishlist := []; wishlist_seq := 0;
     foreign_keys := true |}.

(** The server with that database, before any statement; the request has no
    session. *)
Definition anonymous : state :=
  {| db := database0; queries := []; uploads := []; session_userId := Undefined |}.

(** The same with the session of the user [id]. *)
Definition as_user (id : Z) : state := set_session (num id) anonymous.

Definition request0 (fields : list (string * value)) : request :=
  {| req_body := fields; req_params_id := ""; req_photo := None;
     date_now := "1700000000001"; current_timestamp := "2024-02-01 00:00:00" |}.

Definition with_id (id : string) (req : request) : request :=
  {| req_body := req_body req; req_params_id := id; req_photo := req_photo req;
     date_now := date_now req; current_timestamp := current_timestamp req |}.

Definition with_photo (originalname : string) (req : request) : request :=
  {| req_body := req_body req; req_params_id := req_params_id req;
     req_photo := Some originalname;
     date_now := date_now req; current_timestamp := current_timestamp req |}.

End Sample.
Import Sample.

(* ===================================================================== *)
(** * The vocabulary of the properties                                    *)
(* ===================================================================== *)

(** Two logins that fail: an email no row has, and Alice's email with a
    password that is not hers. *)
Definition unknown_email : request :=
  request0 [("email", VStr "mallory@example.com"); ("password", VStr "guess")].

Definition bad_password : request :=
  request0 [("email", VStr "alice@example.com"); ("password", VStr "guess")].

(** A property of the [stats] object of a reply. *)
Definition stats_field (k : string) (r : reply) : option json :=
  match r with
  | Sent _ b => match field "stats" b with
                | Some s => field k s
                | None => None
                end
  | NoReply => None
  end.

(** The win ratio in the words of the specification: 0 when
    [wins + losses = 0], else [100 * wins / (wins + losses)] rounded to the
    nearest integer, a half going up. *)
Definition round_half_up (p q : Z) : Z := (2 * p + q) / (2 * q).

Definition spec_winRatio (wins losses : Z) : Z :=
  if wins + losses =? 0 then 0
  else round_half_up (100 * wins) (wins + losses).

(** The two ties, among the results with at most 100 games, that the
    handlers round down. *)
Definition is_lost_tie (wins losses : Z) : bool :=
  ((wins =? 23) && (losses =? 17)) || ((wins =? 46) && (losses =? 34)).

(** The handlers' ratio on [w] wins and [l] losses is the specification's,
    one less at the two ties; asked of the results with at most 100 games. *)
Definition winRatio_agrees (w l : nat) : bool :=
  let wins := Z.of_nat w in
  let losses := Z.of_nat l in
  if wins + losses <=? 100 then
    match Part000.winRatio reference (num wins) (num losses) with
    | VNum (Int z) =>
        z =? (if is_lost_tie wins losses then spec_winRatio wins losses - 1
              else spec_winRatio wins losses)
    | _ => false
    end
  else true.

(** The level progress in the words of the specification. *)
Definition spec_levelProgress (level : Z) : Z := Z.min level 100.

(** The progress part_000 computes for the level [n] is the specification's. *)
Definition levelProgress_agrees (n : nat) : bool :=
  match Part000.levelProgress reference (num (Z.of_nat n)) with
  | VNum (Int z) => z =? spec_levelProgress (Z.of_nat n)
  | _ => false
  end.

(** "A non-negative integer", as the specification describes the hours. *)
Definition nonnegative_integer (v : sqlval) : Prop :=
  exists n, v = SInt n /\ 0 <= n.

(** The hours part_000 stores for the number [Number(hours)] is: the number
    itself when it is an integer, 0 when it is [NaN] or a zero, and the
    double as it is when it has a fraction, is infinite or is an integer
    that does not fit 64 bits. *)
Definition hours_of_number (n : number) : sqlval :=
  match n with
  | Int z => SInt z
  | Dbl S754_nan | Dbl (S754_zero _) => SInt 0
  | Dbl f => match SF_integer f with
             | Some z => if Z.abs z <? 2 ^ 63 then SInt z else SReal n
             | None => SReal n
             end
  end.

(** The title part_000 stores. *)
Definition title_of (P : platform) (title : value) : sqlval :=
  if truthy title then text_affinity P (bind title) else SText "Untitled".

(** 2.5, as the body parser reads it. *)
Definition two_and_a_half : value := VNum (div (Int 5) (Int 2)).

(** The hours of the row added last. *)
Definition last_hours (st : state) : sqlval :=
  last (map g_hours (games (db st))) SNull.

(** A game with a blank title and the given hours. *)
Definition add_untitled (hours : value) : request :=
  request0 [("title", VStr ""); ("hours", hours)].

Definition ok_reply : reply := Sent 200 (JO [("ok", jtrue)]).


(** The parameters of the UPDATE of a copy, and the assignment it makes. *)
Definition photo_param (v : variant) (req : request) : sqlval :=
  match req_photo req with
  | Some originalname => SText (photo_reference v req originalname)
  | None => SNull
  end.

Definition assignment (v : variant) (P : platform) (req : request) : user -> user :=
  let name := bind (get "name" (req_body req)) in
  let email := bind (get "email" (req_body req)) in
  let bio := bind (get "bio" (req_body req)) in
  match v with
  | part_001 => set_name_bio P name bio (photo_param v req)
  | _ => set_profile P name email bio (photo_param v req)
  end.

Definition update_text (v : variant) : string :=
  match v with
  | part_001 => "UPDATE users SET name=?, bio=?, photo=COALESCE(?,photo) WHERE id=?"
  | _ => "UPDATE users SET name = ?, email = ?, bio = ?, photo = COALESCE(?, photo) WHERE id = ?"
  end.


(** Alice's updates: a new name with her own email and no bio; the same with
    a photo; a photo with the email of Bob; a photo and a bio, without a
    name. *)
Definition photo_and_bio : request :=
  with_photo "new.png" (request0 [("bio", VStr "hi")]).

Definition photo_and_name : request :=
  with_photo "new.png" (request0 [("name", VStr "Al")]).

Definition rename_only : request :=
  request0 [("name", VStr "Al"); ("email", VStr "alice@example.com")].

Definition new_photo : request := with_photo "new.png" rename_only.

Definition taken_email : request :=
  with_photo "new.png"
    (request0 [("name", VStr "Al"); ("email", VStr "bob@example.com")]).

(** The signup of each copy. *)
Definition signup (v : variant) (P : platform) (hash : string -> Z -> string)
  : handler :=
  match v with
  | server_js => Server.signup P hash
  | part_000 => Part000.signup P hash
  | part_001 => Part001.signup P hash
  end.

(** The reply of each copy to a signup with an email a row has already. *)
Definition email_exists (v : variant) : reply :=
  match v with
  | part_001 => Sent 409 (JO [("error", jstr "Email exists")])
  | _ => Sent 409 (JO [("error", jstr "Email already exists")])
  end.

(** The reply of each copy to a signup that went through. *)
Definition signed_up (v : variant) (id : Z) : reply :=
  match v with
  | part_000 => Sent 200 (JO [("ok", jtrue); ("userId", jint id)])
  | _ => Sent 200 (JO [("ok", jtrue)])
  end.

(** The hash [reference] verifies. *)
Definition reference_hash (password : string) (rounds : Z) : string :=
  ("$2b$10$" ++ password)%string.

(** A signup with three texts, none empty. *)
Definition signup_request (name email password : string) : request :=
  request0 [("name", VStr name); ("email", VStr email); ("password", VStr password)].

(** The keys of a table: no key twice, none above the sequence of the table. *)
Definition keys_ok (ids : list Z) (seq : Z) : Prop :=
  NoDup ids /\ Forall (fun i => i <= seq) ids.

Definition well_formed (d : database) : Prop :=
  keys_ok (map u_id (users d)) (users_seq d)
  /\ keys_ok (map g_id (games d)) (games_seq d)
  /\ keys_ok (map w_id (wishlist d)) (wishlist_seq d).

(** Bob wishes for a game: the sample database with one entry in his
    wishlist, and the server with it under the session of the user [id]. *)
Definition portal : wish :=
  {| w_id := 1; w_user_id := SInt 2; w_title := SText "Portal 3";
     w_genre := SText "Puzzle"; w_expected_release := SText "2030";
     w_created_at := SText "2024-01-03 00:00:00" |}.

Definition database1 : database := with_wishlist [portal] 1 database0.

Definition wishing (id : Z) : state :=
  {| db := database1; queries := []; uploads := []; session_userId := num id |}.

(** The sum of a list of integers. *)
Definition total_of (hs : list Z) : Z := fold_right Z.add 0 hs.

(** Every running sum of [a] and the integers of [hs], taken in order, is
    within 64 bits. *)
Fixpoint sums_fit (a : Z) (hs : list Z) : bool :=
  match hs with
  | [] => true
  | h :: hs' => int64 (a + h) && sums_fit (a + h) hs'
  end.

(** Bob plays a lot: three games of his whose hours are the largest integer
    of 64 bits, 1 and the opposite of the first. *)
Definition played (id hours : Z) : game :=
  {| g_id := id; g_user_id := SInt 2; g_title := SText "Tetris";
     g_genre := SText "Puzzle"; g_hours := SInt hours; g_owned := SInt 1;
     g_img_url := SText ""; g_created_at := SText "2024-01-04 00:00:00" |}.

Definition marathon : state :=
  {| db := with_games [played 1 (2 ^ 63 - 1); played 2 1; played 3 (- (2 ^ 63 - 1))]
             3 database0;
     queries := []; uploads := []; session_userId := num 2 |}.

(** The routes that only read. *)
Definition reads_only (r : route) : bool :=
  match r with
  | GET_profile | GET_collection | GET_wishlist | GET_stats => true
  | _ => false
  end.

(** [a] does not come after [b] in [ORDER BY id DESC]. *)
Definition above {A} (key : A -> Z) (a b : A) : Prop := key b <= key a.

(** The keys of an object. *)
Definition keys (j : json) : list string :=
  match j with
  | JO fs => map fst fs
  | _ => []
  end.

(* ===================================================================== *)
(** * Integers as parameters                                               *)
(* ===================================================================== *)

(** A user id reaches the statements as the number the session holds.
    node-sqlite3 sends it as an INTEGER or, beyond 32 bits, as a REAL; the
    columns it is compared with and stored in have INTEGER affinity, under
    which the two are the same integer. *)
Section Parameters.
Context (P : platform).

Lemma integer_affinity_bind_int (z : Z) :
  integer_affinity P (bind (VNum (Int z))) = SInt z.
Proof. cbn. destruct (int32 z); reflexivity. Qed.

Lemma int_col_eq_bind_int (col : sqlval) (z : Z) :
  int_col_eq P col (bind (num z)) = int_col_eq P col (SInt z).
Proof. unfold int_col_eq, num. rewrite integer_affinity_bind_int. reflexivity. Qed.

Ltac as_integer :=
  unfold num, select_user_by_id, update_users, user_has_id, insert_game,
    select_games, select_game_totals, owned_by, delete_game, game_matches,
    insert_wish, select_wishlist, delete_wish, int_col_eq;
  rewrite ?integer_affinity_bind_int; reflexivity.

Lemma integer_affinity_bind_num (z : Z) :
  integer_affinity P (bind (num z)) = SInt z.
Proof. apply integer_affinity_bind_int. Qed.

Lemma user_has_id_num (z : Z) :
  user_has_id P (bind (num z)) = user_has_id P (SInt z).
Proof. as_integer. Qed.

Lemma select_user_by_id_num (z : Z) (d : database) :
  select_user_by_id P (bind (num z)) d = select_user_by_id P (SInt z) d.
Proof. as_integer. Qed.

Lemma update_users_num (set : user -> user) (z : Z) (d : database) :
  update_users P set (bind (num z)) d = update_users P set (SInt z) d.
Proof. as_integer. Qed.

Lemma insert_game_num (now : string) (z : Z) (title genre hours img_url : sqlval)
    (d : database) :
  insert_game P now (bind (num z)) title genre hours img_url d
  = insert_game P now (SInt z) title genre hours img_url d.
Proof. as_integer. Qed.

Lemma owned_by_num (z : Z) :
  owned_by P (bind (num z)) = owned_by P (SInt z).
Proof. as_integer. Qed.

Lemma select_games_num (z : Z) (d : database) :
  select_games P (bind (num z)) d = select_games P (SInt z) d.
Proof. as_integer. Qed.

Lemma select_game_totals_num (coalesced : bool) (z : Z) (d : database) :
  select_game_totals P coalesced (bind (num z)) d
  = select_game_totals P coalesced (SInt z) d.
Proof. as_integer. Qed.

Lemma game_matches_num (id : sqlval) (z : Z) :
  game_matches P id (bind (num z)) = game_matches P id (SInt z).
Proof. as_integer. Qed.

Lemma delete_game_num (id : sqlval) (z : Z) (d : database) :
  delete_game P id (bind (num z)) d = delete_game P id (SInt z) d.
Proof. as_integer. Qed.

Lemma insert_wish_num (now : string) (z : Z) (title genre expected_release : sqlval)
    (d : database) :
  insert_wish P now (bind (num z)) title genre expected_release d
  = insert_wish P now (SInt z) title genre expected_release d.
Proof. as_integer. Qed.

Lemma select_wishlist_num (z : Z) (d : database) :
  select_wishlist P (bind (num z)) d = select_wishlist P (SInt z) d.
Proof. as_integer. Qed.

Lemma delete_wish_num (id : sqlval) (z : Z) (d : database) :
  delete_wish P id (bind (num z)) d = delete_wish P id (SInt z) d.
Proof. as_integer. Qed.

End Parameters.

(** Under TEXT affinity the two differ: a name sent as the number 2^31 is
    stored as the text of a real. *)
Example number_beyond_32_bits_as_text :
  text_affinity reference (bind (num (2 ^ 31 - 1))) = SText "2147483647"
  /\ text_affinity reference (bind (num (2 ^ 31))) = SText "2147483648.0"
  /\ integer_affinity reference (bind (num (2 ^ 31))) = SInt (2 ^ 31).
Proof. repeat split; reflexivity. Qed.

(* ===================================================================== *)
(** * Access control                                                       *)
(* ===================================================================== *)

(** Every operation behind a session is registered by server.js and by
    part_000; part_001 registers the two profile operations. *)
Lemma protected_routes_registered (P : platform) (r : route) :
  app server_js P r <> None /\ app part_000 P r <> None.
Proof. split; destruct r; discriminate. Qed.

(** C1. In each copy, a protected operation called without a session bound to
    a user id (more generally with a falsy [req.session.userId]) answers 401
    with [{error: "Unauthorized"}] and leaves the state as it was: the
    database is the same and no statement was sent to it, no file was
    written. *)
Theorem protected_routes_require_login
    (P : platform) (v : variant) (r : route) (h : handler)
    (req : request) (st : state) :
  protected r = true ->
  app v P r = Some h ->
  truthy (session_userId st) = false ->
  h req st = (unauthorized, st).
Proof.
  intros Hprot Happ Hsession.
  destruct v, r; try discriminate Hprot; try discriminate Happ;
    injection Happ as <-;
    match goal with
    | |- ?f P req st = _ => unfold f
    end;
    unfold requireLogin; rewrite Hsession; reflexivity.
Qed.

Lemma protected_routes_require_login_witness :
  Server.stats reference (request0 []) anonymous = (unauthorized, anonymous)
  /\ Part000.collection_delete reference (with_id "1" (request0 [])) anonymous
     = (unauthorized, anonymous).
Proof.
  split.
  - apply (protected_routes_require_login reference server_js GET_stats);
      reflexivity.
  - apply (protected_routes_require_login reference part_000 DELETE_collection);
      reflexivity.
Defined.

(** With a session the same operations do reach the database. *)
Example stats_with_session_queries :
  queries (snd (Part000.stats reference (request0 []) (as_user 1)))
  = ["SELECT level, wins, losses FROM users WHERE id = ?";
     "SELECT COUNT( * ) AS totalGames, COALESCE(SUM(hours),0) AS totalHours FROM games WHERE user_id = ? AND owned = 1"].
Proof. reflexivity. Qed.

(* ===================================================================== *)
(** * Login                                                                *)
(* ===================================================================== *)

Lemma get_projected_hash (r : row) :
  get "password_hash" (project ["id"; "password_hash"; "name"; "email"] r)
  = get "password_hash" r.
Proof. reflexivity. Qed.

(** C2. In each copy, a login that fails because no row matches the email and
    a login that fails because the hash does not verify get the same reply,
    status and body, and neither binds the session. *)
Theorem login_failures_indistinguishable
    (P : platform) (v : variant) (req1 req2 : request) (st1 st2 : state) :
  passes_validation v req1 ->
  passes_validation v req2 ->
  no_such_user P req1 st1 ->
  wrong_password P req2 st2 ->
  fst (login v P req1 st1) = fst (login v P req2 st2)
  /\ fst (login v P req1 st1) = invalid_credentials v
  /\ session_userId (snd (login v P req1 st1)) = session_userId st1
  /\ session_userId (snd (login v P req2 st2)) = session_userId st2.
Proof.
  intros Hv1 Hv2 Hnone (r & Hsome & Hcmp).
  unfold no_such_user in Hnone.
  destruct v; cbn [login passes_validation] in *.
  - unfold Server.login, db_query; cbn [db].
    rewrite Hnone, Hsome, Hcmp. repeat split; reflexivity.
  - destruct Hv1 as [He1 Hp1], Hv2 as [He2 Hp2].
    unfold Part000.login, db_query; cbn [db].
    rewrite He1, Hp1, He2, Hp2; cbn [negb orb].
    rewrite Hnone, Hsome, get_projected_hash, Hcmp. repeat split; reflexivity.
  - unfold Part001.login, db_query; cbn [db].
    rewrite Hnone, Hsome, Hcmp. repeat split; reflexivity.
Qed.

Lemma login_failures_indistinguishable_witness :
  fst (Part000.login reference unknown_email anonymous)
  = fst (Part000.login reference bad_password anonymous).
Proof.
  refine (proj1 (login_failures_indistinguishable reference part_000
                   unknown_email bad_password anonymous anonymous _ _ _ _)).
  - split; reflexivity.
  - split; reflexivity.
  - reflexivity.
  - exists (user_row alice). split; reflexivity.
Defined.

(** The check of part_000 on the fields comes first and has a reply of its
    own; a password that is not a string makes bcrypt reject in the copies
    that pass it on unchecked. *)
Example login_missing_field :
  fst (Part000.login reference (request0 [("email", VStr "alice@example.com")]) anonymous)
  = Sent 400 (JO [("error", jstr "Missing fields")]).
Proof. reflexivity. Qed.

(* ===================================================================== *)
(** * Removing a game                                                      *)
(* ===================================================================== *)

Section Lists.
Context {A : Type}.

Lemma filter_keeps_all (f : A -> bool) (l : list A) :
  (forall x, In x l -> f x = true) -> filter f l = l.
Proof.
  induction l as [| a l IH]; intros H; cbn; [reflexivity |].
  rewrite (H a (or_introl eq_refl)), IH; [reflexivity |].
  intros x Hx. apply H. right. exact Hx.
Qed.

Lemma filter_shorter (f : A -> bool) (l : list A) :
  (List.length (filter f l) <= List.length l)%nat.
Proof.
  induction l as [| a l IH]; cbn; [lia |].
  destruct (f a); cbn; lia.
Qed.

(** When the rows a filter drops all carry one key and keys are unique, the
    filter drops at most one row. *)
Lemma filter_drops_at_most_one (key : A -> Z) (f : A -> bool) (l : list A) :
  NoDup (map key l) ->
  (forall x y, In x l -> In y l -> f x = false -> f y = false -> key x = key y) ->
  (List.length l - List.length (filter f l) <= 1)%nat.
Proof.
  induction l as [| a l IH]; intros Hnd Hkey; cbn [filter]; [cbn; lia |].
  inversion Hnd as [| ? ? Hnotin Hnd']; subst.
  destruct (f a) eqn:Hfa; cbn [List.length].
  - change (List.length l - List.length (filter f l) <= 1)%nat.
    apply IH; [exact Hnd' |].
    intros x y Hx Hy. apply Hkey; right; assumption.
  - rewrite filter_keeps_all; [lia |].
    intros x Hx. destruct (f x) eqn:Hfx; [reflexivity |].
    exfalso. apply Hnotin.
    rewrite (Hkey a x (or_introl eq_refl) (or_intror Hx) Hfa Hfx).
    apply in_map. exact Hx.
Qed.

Lemma unique_key (key : A -> Z) (l : list A) (x y : A) :
  NoDup (map key l) -> In x l -> In y l -> key x = key y -> x = y.
Proof.
  induction l as [| a l IH]; intros Hnd Hx Hy Hk; [contradiction |].
  inversion Hnd as [| ? ? Hnotin Hnd']; subst.
  destruct Hx as [-> | Hx], Hy as [-> | Hy].
  - reflexivity.
  - exfalso. apply Hnotin. rewrite Hk. apply in_map. exact Hy.
  - exfalso. apply Hnotin. rewrite <- Hk. apply in_map. exact Hx.
  - apply IH; assumption.
Qed.

End Lists.

(** An integer key equals at most one integer, whatever it is compared with. *)
Lemma sql_eqb_int_same (a b : Z) (v : sqlval) :
  sql_eqb (SInt a) v = true -> sql_eqb (SInt b) v = true -> a = b.
Proof.
  destruct v as [| z | f | s]; cbn; try discriminate.
  - intros Ha Hb. apply Z.eqb_eq in Ha, Hb. congruence.
  - destruct (integer_of f) as [z |]; [| discriminate].
    intros Ha Hb. apply Z.eqb_eq in Ha, Hb. congruence.
Qed.

Lemma with_games_same (d : database) : with_games (games d) (games_seq d) d = d.
Proof. destruct d; reflexivity. Qed.

(** The rows [DELETE FROM games WHERE id = ? AND user_id = ?] removes, counted. *)
Lemma delete_game_changes (P : platform) (id user_id : sqlval) (d : database) :
  NoDup (map g_id (games d)) ->
  exists d' n,
    delete_game P id user_id d = Done d' 0 n
    /\ (n = 0 \/ n = 1)
    /\ games d' = filter (fun g => negb (game_matches P id user_id g)) (games d)
    /\ n = Z.of_nat (List.length (games d)) - Z.of_nat (List.length (games d')).
Proof.
  intros Hnd. unfold delete_game.
  set (keep := fun g => negb (game_matches P id user_id g)).
  exists (with_games (filter keep (games d)) (games_seq d) d).
  exists (Z.of_nat (List.length (games d)) - Z.of_nat (List.length (filter keep (games d)))).
  repeat split.
  pose proof (filter_shorter keep (games d)) as Hle.
  assert (Hone : (List.length (games d) - List.length (filter keep (games d)) <= 1)%nat).
  { apply (filter_drops_at_most_one g_id); [exact Hnd |].
    intros x y _ _ Hx Hy. unfold keep, game_matches, int_col_eq in Hx, Hy.
    apply negb_false_iff, andb_true_iff in Hx, Hy.
    destruct Hx as [Hx _], Hy as [Hy _].
    exact (sql_eqb_int_same _ _ _ Hx Hy). }
  lia.
Qed.

(** In part_000 the reply to a removal is always the success reply with the
    number of rows removed, 0 or 1; the rows removed are those with the
    given id whose [user_id] is the one of the session; nothing else in the
    database changes. *)
Lemma part000_delete_reports_count (P : platform) (req : request) (st : state) :
  truthy (session_userId st) = true ->
  NoDup (map g_id (games (db st))) ->
  exists n,
    (n = 0 \/ n = 1)
    /\ fst (Part000.collection_delete P req st)
       = Sent 200 (JO [("ok", jtrue); ("deleted", jint n)])
    /\ games (db (snd (Part000.collection_delete P req st)))
       = filter (fun g => negb (game_matches P (SText (req_params_id req))
                                  (bind (session_userId st)) g))
                (games (db st))
    /\ n = Z.of_nat (List.length (games (db st)))
           - Z.of_nat (List.length (games (db (snd (Part000.collection_delete P req st)))))
    /\ users (db (snd (Part000.collection_delete P req st))) = users (db st)
    /\ wishlist (db (snd (Part000.collection_delete P req st))) = wishlist (db st).
Proof.
  intros Hs Hnd.
  destruct (delete_game_changes P (SText (req_params_id req))
              (bind (session_userId st)) (db st) Hnd)
    as (d' & n & Hrun & Hn & Hgames & Hcount).
  exists n.
  unfold Part000.collection_delete, requireLogin, db_run. rewrite Hs.
  cbn [bind db]. rewrite Hrun. cbn [fst snd db].
  assert (Hd' : d' = with_games (games d') (games_seq (db st)) (db st)).
  { unfold delete_game in Hrun. injection Hrun as <- _. reflexivity. }
  repeat split; try assumption; rewrite Hd'; reflexivity.
Qed.

(** An id no row carries, and the id of a row of another user, get the same
    reply from part_000: success, 0 deleted. *)
Lemma part000_delete_nothing (P : platform) (req : request) (st : state) :
  truthy (session_userId st) = true ->
  (forall g, In g (games (db st)) ->
     game_matches P (SText (req_params_id req)) (bind (session_userId st)) g = false) ->
  Part000.collection_delete P req st
  = (Sent 200 (JO [("ok", jtrue); ("deleted", jint 0)]),
     {| db := db st;
        queries := "DELETE FROM games WHERE id = ? AND user_id = ?" :: queries st;
        uploads := uploads st; session_userId := session_userId st |}).
Proof.
  intros Hs Hno.
  unfold Part000.collection_delete, requireLogin, db_run, delete_game. rewrite Hs.
  cbn [bind db].
  rewrite filter_keeps_all.
  - rewrite with_games_same, Z.sub_diag. reflexivity.
  - intros g Hg. rewrite (Hno g Hg). reflexivity.
Qed.

(** server.js answers a removal with [{ok: true}] whatever was removed. *)
Lemma server_delete_reply (P : platform) (req : request) (st : state) :
  truthy (session_userId st) = true ->
  fst (Server.collection_delete P req st) = Sent 200 (JO [("ok", jtrue)]).
Proof.
  intros Hs. unfold Server.collection_delete, requireLogin, db_run, delete_game.
  rewrite Hs. reflexivity.
Qed.

(** C3, at the requests where server.js departs from it.  Alice removes a
    game that does not exist (id 99), then Bob removes his own game (id 1):
    part_000 replies with the count of rows removed, 0 and 1; server.js
    removes the same rows and replies [{ok: true}] both times, a body with no
    [deleted] property. *)
Theorem server_delete_omits_count :
  let missing := with_id "99" (request0 []) in
  let own := with_id "1" (request0 []) in
  fst (Part000.collection_delete reference missing (as_user 1))
    = Sent 200 (JO [("ok", jtrue); ("deleted", jint 0)])
  /\ fst (Part000.collection_delete reference own (as_user 2))
    = Sent 200 (JO [("ok", jtrue); ("deleted", jint 1)])
  /\ fst (Server.collection_delete reference missing (as_user 1))
    = Sent 200 (JO [("ok", jtrue)])
  /\ fst (Server.collection_delete reference own (as_user 2))
    = Sent 200 (JO [("ok", jtrue)])
  /\ games (db (snd (Server.collection_delete reference own (as_user 2)))) = []
  /\ field "deleted" (JO [("ok", jtrue)]) = None.
Proof. repeat split; reflexivity. Qed.

(** Let [g] be a game of user B and let the session be the one of another
    user A.  Removing the id of [g], in server.js and in part_000, removes no
    row: the statement reports 0 changes and the database afterwards is the
    database before, the row of B and every other row included.  part_000
    returns the count as [deleted: 0]; the reply of server.js has no such
    property. *)
Lemma delete_of_others_game
    (P : platform) (v : variant) (h : handler) (req : request) (st : state)
    (A B : Z) (g : game) :
  app v P DELETE_collection = Some h ->
  session_userId st = num A ->
  A <> 0 ->
  A <> B ->
  NoDup (map g_id (games (db st))) ->
  In g (games (db st)) ->
  g_user_id g = SInt B ->
  integer_affinity P (SText (req_params_id req)) = SInt (g_id g) ->
  db (snd (h req st)) = db st
  /\ delete_game P (bind (VStr (req_params_id req))) (bind (session_userId st)) (db st)
     = Done (db st) 0 0
  /\ fst (h req st)
     = Sent 200 (JO (("ok", jtrue)
                     :: match v with
                        | part_000 => [("deleted", jint 0)]
                        | _ => []
                        end)).
Proof.
  intros Happ Hs HA HAB Hnd Hin Howner Hid.
  assert (Hno : forall g', In g' (games (db st)) ->
            game_matches P (SText (req_params_id req)) (SInt A) g' = false).
  { intros g' Hg'. unfold game_matches, int_col_eq. rewrite Hid.
    destruct (sql_eqb (SInt (g_id g')) (SInt (g_id g))) eqn:Heq; [| reflexivity].
    cbn in Heq. apply Z.eqb_eq in Heq.
    rewrite (unique_key g_id _ g' g Hnd Hg' Hin Heq), Howner.
    cbn. apply Z.eqb_neq. congruence. }
  assert (Hrun : delete_game P (bind (VStr (req_params_id req)))
                   (bind (session_userId st)) (db st)
                 = Done (db st) 0 0).
  { rewrite Hs, delete_game_num. cbn [bind]. unfold delete_game.
    rewrite filter_keeps_all.
    - rewrite with_games_same, Z.sub_diag. reflexivity.
    - intros g' Hg'. rewrite (Hno g' Hg'). reflexivity. }
  assert (Htruthy : truthy (session_userId st) = true).
  { rewrite Hs. cbn. apply negb_true_iff, Z.eqb_neq. exact HA. }
  destruct v; cbn [app Server.app Part000.app Part001.app] in Happ;
    try discriminate Happ; injection Happ as <-.
  - unfold Server.collection_delete, requireLogin, db_run. rewrite Htruthy.
    rewrite Hrun. repeat split; reflexivity.
  - unfold Part000.collection_delete, requireLogin, db_run. rewrite Htruthy.
    rewrite Hrun. repeat split; reflexivity.
Qed.

(** C4, at the request where server.js departs from it.  Chess (id 1) is a
    game of Bob (user 2); Alice (user 1) asks for its removal.  In both
    copies the statement removes nothing and the table is as before.
    part_000 returns [deleted: 0]; server.js returns [{ok: true}], a body
    with no [deleted] property. *)
Theorem server_delete_of_others_game_omits_count :
  let req := with_id "1" (request0 []) in
  In chess (games database0)
  /\ g_user_id chess = SInt 2
  /\ session_userId (as_user 1) = num 1
  /\ db (snd (Part000.collection_delete reference req (as_user 1))) = database0
  /\ fst (Part000.collection_delete reference req (as_user 1))
     = Sent 200 (JO [("ok", jtrue); ("deleted", jint 0)])
  /\ db (snd (Server.collection_delete reference req (as_user 1))) = database0
  /\ fst (Server.collection_delete reference req (as_user 1))
     = Sent 200 (JO [("ok", jtrue)])
  /\ field "deleted" (JO [("ok", jtrue)]) = None.
Proof.
  cbv zeta.
  destruct (delete_of_others_game reference part_000
              (Part000.collection_delete reference)
              (with_id "1" (request0 [])) (as_user 1) 1 2 chess)
    as (Hdb0 & _ & Hreply0);
    try reflexivity; try discriminate;
    [repeat constructor; intros [] | left; reflexivity |].
  destruct (delete_of_others_game reference server_js
              (Server.collection_delete reference)
              (with_id "1" (request0 [])) (as_user 1) 1 2 chess)
    as (Hdb1 & _ & Hreply1);
    try reflexivity; try discriminate;
    [repeat constructor; intros [] | left; reflexivity |].
  repeat split; try assumption; left; reflexivity.
Qed.

(* ===================================================================== *)
(** * Statistics                                                           *)
(* ===================================================================== *)

(** ** The ratio of wins *)

Lemma winRatio_same (P : platform) (wins losses : value) :
  Server.winRatio P wins losses = Part000.winRatio P wins losses.
Proof. reflexivity. Qed.

(** The two examples of the specification. *)
Lemma winRatio_3_1 (P : platform) :
  Part000.winRatio P (num 3) (num 1) = num (spec_winRatio 3 1)
  /\ spec_winRatio 3 1 = 75.
Proof. split; vm_compute; reflexivity. Qed.

Lemma winRatio_no_games (P : platform) (wins losses : Z) :
  wins + losses = 0 ->
  Part000.winRatio P (num wins) (num losses) = num 0.
Proof.
  intros H. unfold Part000.winRatio, js_add, num, ToNumber, add.
  rewrite H. reflexivity.
Qed.

(** C9, at a request where the code departs from it.  Dave has 23 wins and
    17 losses: [100 * 23 / 40] is 57.5, which rounds half up to 58.  The
    handlers divide first: [23 / 40] is the double nearest to 0.575, which
    lies below it, its product with 100 is 57.49999999999999, and
    [Math.round] gives 57.  Both copies that serve the statistics compute
    the ratio this way. *)
Theorem winRatio_rounds_half_down :
  spec_winRatio 23 17 = 58
  /\ stats_field "winRatio" (fst (Part000.stats reference (request0 []) (as_user 4)))
     = Some (jint 57)
  /\ stats_field "winRatio" (fst (Server.stats reference (request0 []) (as_user 4)))
     = Some (jint 57)
  /\ js_mul reference (js_div reference (num 23) (num 40)) (num 100)
     = VNum (Dbl (S754_finite false 8092405580431359 (-47)))
  /\ (8092405580431359 < 115 * 2 ^ 46)%Z.
Proof. repeat split; vm_compute; reflexivity. Qed.

(** Up to 100 games played, the handlers' ratio is the specification's but
    for the two ties they round down; checked by running the expression on
    every pair. *)
Lemma winRatio_up_to_100 (P : platform) (wins losses : Z) :
  0 <= wins -> 0 <= losses -> wins + losses <= 100 ->
  Part000.winRatio P (num wins) (num losses)
  = num (if is_lost_tie wins losses then spec_winRatio wins losses - 1
         else spec_winRatio wins losses).
Proof.
  intros Hw Hl Hsum.
  assert (Hall : forallb (fun w => forallb (winRatio_agrees w) (seq 0 (Z.to_nat 101)))
                         (seq 0 (Z.to_nat 101)) = true)
    by (vm_compute; reflexivity).
  rewrite forallb_forall in Hall.
  assert (Hinw : In (Z.to_nat wins) (seq 0 (Z.to_nat 101))) by (apply in_seq; lia).
  assert (Hinl : In (Z.to_nat losses) (seq 0 (Z.to_nat 101))) by (apply in_seq; lia).
  specialize (Hall _ Hinw). rewrite forallb_forall in Hall.
  specialize (Hall _ Hinl). unfold winRatio_agrees in Hall.
  rewrite !Z2Nat.id in Hall by lia.
  apply Z.leb_le in Hsum. rewrite Hsum in Hall.
  change (Part000.winRatio P (num wins) (num losses))
    with (Part000.winRatio reference (num wins) (num losses)).
  destruct (Part000.winRatio reference (num wins) (num losses)) as [| | | [z | f] |];
    try discriminate Hall.
  apply Z.eqb_eq in Hall. rewrite Hall. reflexivity.
Qed.

(** Multiplying before dividing, as the specification writes the formula,
    gives 58 on the same numbers. *)
Example winRatio_multiplying_first :
  Math_round reference (js_div reference (js_mul reference (num 100) (num 23)) (num 40))
  = num 58.
Proof. vm_compute. reflexivity. Qed.

(** ** The progress of the level *)

Lemma levelProgress_of_num (P : platform) (level : Z) :
  Part000.levelProgress P (num level) = Part000.levelProgress reference (num level).
Proof. reflexivity. Qed.

(** In part_000 the progress is [min(level, 100)]; checked here on every
    level from 0 to 5000 by running the handler's expression. *)
Lemma part000_levelProgress (P : platform) (level : Z) :
  0 <= level <= 5000 ->
  Part000.levelProgress P (num level) = num (spec_levelProgress level).
Proof.
  intros Hrange.
  assert (Hall : forallb levelProgress_agrees (seq 0 (Z.to_nat 5001)) = true)
    by (vm_compute; reflexivity).
  rewrite forallb_forall in Hall.
  assert (Hin : In (Z.to_nat level) (seq 0 (Z.to_nat 5001))) by (apply in_seq; lia).
  specialize (Hall _ Hin).
  rewrite levelProgress_of_num.
  unfold levelProgress_agrees in Hall.
  rewrite Z2Nat.id in Hall by lia.
  destruct (Part000.levelProgress reference (num level)) as [| | | [z | f] |];
    try discriminate Hall.
  apply Z.eqb_eq in Hall. rewrite Hall. reflexivity.
Qed.

(** C5, at a request where server.js departs from it.  Bob's level is 150:
    part_000 clamps the progress to 100, server.js has no [Math.min] and
    returns 150.  At level 40 both return 40. *)
Theorem server_levelProgress_not_clamped :
  spec_levelProgress 150 = 100
  /\ stats_field "levelProgress" (fst (Part000.stats reference (request0 []) (as_user 2)))
     = Some (jint 100)
  /\ stats_field "levelProgress" (fst (Server.stats reference (request0 []) (as_user 2)))
     = Some (jint 150)
  /\ stats_field "levelProgress" (fst (Part000.stats reference (request0 []) (as_user 1)))
     = Some (jint 40)
  /\ stats_field "levelProgress" (fst (Server.stats reference (request0 []) (as_user 1)))
     = Some (jint 40).
Proof. repeat split; vm_compute; reflexivity. Qed.

(** ** Columns that hold NULL *)

(** In part_000, a user whose [wins], [losses] and [level] are NULL and who
    owns no game gets the statistics of the defaults 0, 0 and 1: every field
    is there and is an integer. *)
Lemma part000_stats_null_defaults (P : platform) (req : request) (st : state)
    (u : user) :
  truthy (session_userId st) = true ->
  find (user_has_id P (bind (session_userId st))) (users (db st)) = Some u ->
  u_wins u = SNull -> u_losses u = SNull -> u_level u = SNull ->
  filter (owned_by P (bind (session_userId st))) (games (db st)) = [] ->
  fst (Part000.stats P req st)
  = Sent 200
      (JO [("ok", jtrue);
           ("stats", JO [("totalGames", jint 0); ("totalHours", jint 0);
                         ("level", jint 1); ("levelProgress", jint 1);
                         ("winRatio", jint 0)])]).
Proof.
  intros Hs Hfind Hw Hl Hlv Hgames.
  unfold Part000.stats, requireLogin, db_query, select_game_totals,
    select_user_by_id.
  rewrite Hs. cbn [db].
  rewrite Hfind, Hgames. cbn [option_map Part000.row_get].
  unfold user_row, project. cbn [map get lookup String.eqb Ascii.eqb Bool.eqb].
  rewrite Hw, Hl, Hlv. reflexivity.
Qed.

(** The same when the session names a user with no row at all. *)
Lemma part000_stats_no_row (P : platform) (req : request) (st : state) :
  truthy (session_userId st) = true ->
  find (user_has_id P (bind (session_userId st))) (users (db st)) = None ->
  filter (owned_by P (bind (session_userId st))) (games (db st)) = [] ->
  fst (Part000.stats P req st)
  = Sent 200
      (JO [("ok", jtrue);
           ("stats", JO [("totalGames", jint 0); ("totalHours", jint 0);
                         ("level", jint 1); ("levelProgress", jint 1);
                         ("winRatio", jint 0)])]).
Proof.
  intros Hs Hfind Hgames.
  unfold Part000.stats, requireLogin, db_query, select_game_totals,
    select_user_by_id.
  rewrite Hs. cbn [db].
  rewrite Hfind, Hgames. reflexivity.
Qed.

(** server.js puts 0 for [wins], [losses] and the sum of the hours, and
    passes [level] on as it is stored. *)
Lemma server_stats_null (P : platform) (req : request) (st : state) (u : user) :
  truthy (session_userId st) = true ->
  find (user_has_id P (bind (session_userId st))) (users (db st)) = Some u ->
  u_wins u = SNull -> u_losses u = SNull -> u_level u = SNull ->
  filter (owned_by P (bind (session_userId st))) (games (db st)) = [] ->
  fst (Server.stats P req st)
  = Sent 200
      (JO [("ok", jtrue);
           ("stats", JO [("totalGames", jint 0); ("totalHours", jint 0);
                         ("level", JV Null); ("levelProgress", jint 0);
                         ("winRatio", jint 0)])]).
Proof.
  intros Hs Hfind Hw Hl Hlv Hgames.
  unfold Server.stats, requireLogin, db_query, select_game_totals,
    select_user_by_id.
  rewrite Hs. cbn [db].
  rewrite Hfind, Hgames. cbn [option_map].
  unfold user_row, project. cbn [map get lookup String.eqb Ascii.eqb Bool.eqb].
  rewrite Hw, Hl, Hlv. reflexivity.
Qed.

(** C10, at the requests where server.js departs from it.  Carol's [wins],
    [losses] and [level] are NULL and she owns no game.  part_000 answers
    with the defaults, level 1 included.  server.js answers with
    [level: null]; and for a session whose user has no row (id 9) it sends
    no reply at all, where part_000 sends the defaults. *)
Theorem server_stats_returns_null_level :
  fst (Part000.stats reference (request0 []) (as_user 3))
  = Sent 200
      (JO [("ok", jtrue);
           ("stats", JO [("totalGames", jint 0); ("totalHours", jint 0);
                         ("level", jint 1); ("levelProgress", jint 1);
                         ("winRatio", jint 0)])])
  /\ fst (Server.stats reference (request0 []) (as_user 3))
  = Sent 200
      (JO [("ok", jtrue);
           ("stats", JO [("totalGames", jint 0); ("totalHours", jint 0);
                         ("level", JV Null); ("levelProgress", jint 0);
                         ("winRatio", jint 0)])])
  /\ stats_field "level" (fst (Server.stats reference (request0 []) (as_user 3)))
     = Some (JV Null)
  /\ fst (Server.stats reference (request0 []) (as_user 9)) = NoReply
  /\ stats_field "level" (fst (Part000.stats reference (request0 []) (as_user 9)))
     = Some (jint 1).
Proof. repeat split; vm_compute; reflexivity. Qed.

(* ===================================================================== *)
(** * Adding a game                                                        *)
(* ===================================================================== *)

Lemma session_truthy (st : state) (A : Z) :
  session_userId st = num A -> A <> 0 -> truthy (session_userId st) = true.
Proof.
  intros -> HA. cbn. apply negb_true_iff, Z.eqb_neq. exact HA.
Qed.

Lemma text_affinity_not_null (P : platform) (v : sqlval) :
  is_null v = false -> is_null (text_affinity P v) = false.
Proof. destruct v; intros H; try discriminate H; reflexivity. Qed.

Lemma bind_truthy_not_null (v : value) :
  truthy v = true -> is_null (bind v) = false.
Proof.
  destruct v as [| | b | [z | f] | s]; intros H; try discriminate H;
    try reflexivity.
  - cbn. destruct (int32 z); reflexivity.
  - destruct f as [sg | sg | | sg m e]; try discriminate H; cbn [bind integer_of].
    + reflexivity.
    + destruct (SF_integer _) as [z |]; [destruct (int32 z) |]; reflexivity.
Qed.

(** The row part_000 inserts for a request of the user [A]. *)
Lemma part000_add_run (P : platform) (req : request) (st : state) (A : Z) (u : user) :
  session_userId st = num A -> A <> 0 ->
  In u (users (db st)) -> u_id u = A ->
  let id := next_id (map g_id (games (db st))) (games_seq (db st)) in
  let g := {| g_id := id;
              g_user_id := SInt A;
              g_title := text_affinity P
                           (bind (or_else (get "title" (req_body req)) (VStr "Untitled")));
              g_genre := text_affinity P
                           (bind (or_else (get "genre" (req_body req)) (VStr "")));
              g_hours := integer_affinity P
                           (bind (or_else (Number P (get "hours" (req_body req))) (num 0)));
              g_owned := SInt 1;
              g_img_url := text_affinity P
                             (bind (or_else (get "img_url" (req_body req)) (VStr "")));
              g_created_at := SText (current_timestamp req) |} in
  Part000.collection_add P req st
  = (Sent 200 (JO [("ok", jtrue); ("id", jint id)]),
     {| db := with_games (games (db st) ++ [g]) id (db st);
        queries := "INSERT INTO games (user_id, title, genre, hours, owned, img_url) VALUES (?, ?, ?, ?, 1, ?)"
                   :: queries st;
        uploads := uploads st; session_userId := session_userId st |}).
Proof.
  intros Hs HA Hu Hid id g.
  pose proof (session_truthy st A Hs HA) as Htruthy.
  unfold Part000.collection_add, requireLogin, db_run.
  rewrite Htruthy. rewrite Hs, insert_game_num. unfold insert_game.
  cbn [integer_affinity db g_user_id g_title is_null orb].
  assert (Htitle : is_null (text_affinity P
                              (bind (or_else (get "title" (req_body req))
                                       (VStr "Untitled")))) = false).
  { apply text_affinity_not_null, bind_truthy_not_null.
    unfold or_else. destruct (truthy (get "title" (req_body req))) eqn:Ht;
      [exact Ht | reflexivity]. }
  rewrite Htitle.
  assert (Hfk : existsb (fun u0 => sql_eqb (SInt (u_id u0)) (SInt A)) (users (db st)) = true).
  { apply existsb_exists. exists u. split; [exact Hu |].
    cbn. apply Z.eqb_eq. exact Hid. }
  rewrite Hfk, andb_false_r. reflexivity.
Qed.

(** What an INTEGER column holds of the number [n || 0]. *)
Lemma stored_hours (P : platform) (n : number) :
  integer_affinity P (bind (or_else (VNum n) (num 0))) = hours_of_number n.
Proof.
  destruct n as [z | f].
  - unfold or_else. cbn [truthy num_truthy].
    destruct (z =? 0) eqn:Hz; cbn [negb].
    + apply Z.eqb_eq in Hz. subst z. reflexivity.
    + apply integer_affinity_bind_int.
  - destruct f as [sg | sg | | sg m e]; try reflexivity.
    unfold or_else. cbn [truthy num_truthy bind integer_of hours_of_number].
    destruct (SF_integer (S754_finite sg m e)) as [z |] eqn:Hz.
    + destruct (int32 z) eqn:H32; cbn [integer_affinity]; [| rewrite Hz; reflexivity].
      unfold int32 in H32. apply andb_true_iff in H32. destruct H32 as [Hlo Hhi].
      apply Z.leb_le in Hlo. apply Z.ltb_lt in Hhi.
      assert (Hfit : (Z.abs z <? 2 ^ 63) = true) by (apply Z.ltb_lt; lia).
      rewrite Hfit. reflexivity.
    + cbn [integer_affinity]. rewrite Hz. reflexivity.
Qed.

(** C6, as the code has it (part_000).  A logged-in user whose row exists
    adds a game: the reply carries the new id and exactly the row [g] below
    is appended, with [owned = 1].  Its hours are [Number(hours) || 0] as an
    INTEGER column holds it: 0 when the field is absent, null, [false], a
    zero or not numeric; 1 for [true]; the integer [n] when it is the number
    [n] or a text that reads as [n], negative ones included; the double
    itself when it has a fraction.  Its title is the one sent, "Untitled"
    when the field is absent or empty. *)
Theorem part000_addGame_coerces
    (P : platform) (req : request) (st : state) (A : Z) (u : user) :
  session_userId st = num A ->
  A <> 0 ->
  In u (users (db st)) ->
  u_id u = A ->
  let hours := get "hours" (req_body req) in
  let title := get "title" (req_body req) in
  let stored := hours_of_number (ToNumber P hours) in
  let g := {| g_id := next_id (map g_id (games (db st))) (games_seq (db st));
              g_user_id := SInt A;
              g_title := title_of P title;
              g_genre := text_affinity P
                           (bind (or_else (get "genre" (req_body req)) (VStr "")));
              g_hours := stored;
              g_owned := SInt 1;
              g_img_url := text_affinity P
                             (bind (or_else (get "img_url" (req_body req)) (VStr "")));
              g_created_at := SText (current_timestamp req) |} in
  Part000.collection_add P req st
  = (Sent 200 (JO [("ok", jtrue); ("id", jint (g_id g))]),
     {| db := with_games (games (db st) ++ [g]) (g_id g) (db st);
        queries := "INSERT INTO games (user_id, title, genre, hours, owned, img_url) VALUES (?, ?, ?, ?, 1, ?)"
                   :: queries st;
        uploads := uploads st; session_userId := session_userId st |})
  /\ (truthy title = false -> g_title g = SText "Untitled")
  /\ (hours = Undefined \/ hours = Null \/ hours = VBool false
      \/ (exists s, hours = VStr s /\ StringToNumber P s = NaN) ->
      stored = SInt 0)
  /\ (hours = VBool true -> stored = SInt 1)
  /\ (forall s n, hours = VStr s -> StringToNumber P s = Int n -> stored = SInt n)
  /\ (forall n, hours = num n -> stored = SInt n)
  /\ (forall f, hours = VNum (Dbl f) -> f <> S754_nan -> SF_integer f = None ->
      stored = SReal (Dbl f)).
Proof.
  intros Hs HA Hu Hid hours title stored g.
  split.
  - rewrite (part000_add_run P req st A u Hs HA Hu Hid).
    subst g stored. fold hours title.
    assert (Hhours : integer_affinity P (bind (or_else (Number P hours) (num 0)))
                     = hours_of_number (ToNumber P hours))
      by apply stored_hours.
    assert (Htitle : text_affinity P (bind (or_else title (VStr "Untitled")))
                     = title_of P title).
    { unfold title_of, or_else. destruct (truthy title); reflexivity. }
    rewrite Hhours, Htitle. reflexivity.
  - subst g stored. cbn [g_title]. repeat split.
    + intros Ht. unfold title_of. rewrite Ht. reflexivity.
    + intros [-> | [-> | [-> | (s & -> & Hnan)]]]; cbn [ToNumber]; rewrite ?Hnan;
        reflexivity.
    + intros ->. reflexivity.
    + intros s n -> Hn. cbn [ToNumber]. rewrite Hn. reflexivity.
    + intros n ->. reflexivity.
    + intros f -> Hnan Hfrac. cbn [ToNumber hours_of_number].
      destruct f as [sg | sg | | sg m e]; try reflexivity; try discriminate Hfrac.
      * congruence.
      * rewrite Hfrac. reflexivity.
Qed.

(** The examples of the specification: "abc" is stored as 0 and "5" as 5; a
    blank title is stored as "Untitled". *)
Lemma part000_addGame_coerces_witness :
  last_hours (snd (Part000.collection_add reference (add_untitled (VStr "abc")) (as_user 1)))
  = SInt 0
  /\ last_hours (snd (Part000.collection_add reference (add_untitled (VStr "5")) (as_user 1)))
     = SInt 5
  /\ map g_title (games (db (snd (Part000.collection_add reference
                                    (add_untitled (VStr "5")) (as_user 1)))))
     = [SText "Chess"; SText "Untitled"].
Proof.
  destruct (part000_addGame_coerces reference (add_untitled (VStr "abc")) (as_user 1)
              1 alice eq_refl ltac:(discriminate) (or_introl eq_refl) eq_refl)
    as (Hrun1 & _ & Hzero & _).
  destruct (part000_addGame_coerces reference (add_untitled (VStr "5")) (as_user 1)
              1 alice eq_refl ltac:(discriminate) (or_introl eq_refl) eq_refl)
    as (Hrun2 & Htitle & _ & _ & Hint & _).
  unfold last_hours. rewrite Hrun1, Hrun2.
  cbn [snd db games with_games database0 as_user anonymous set_session
       List.app map last g_hours g_title].
  cbn [g_title] in Htitle.
  rewrite (Htitle eq_refl), (Hint "5" 5 eq_refl eq_refl).
  rewrite Hzero by (right; right; right; exists "abc"; split; reflexivity).
  repeat split; reflexivity.
Defined.

(** C6 as stated fails on the same handler.  Hours of -5, sent as a number or
    as the text of a form field, are stored as -5, which is not
    non-negative; hours of 2.5 are stored as the double 2.5, which is not an
    integer. *)
Lemma part000_addGame_stores_negative_hours :
  last_hours (snd (Part000.collection_add reference (add_untitled (num (-5))) (as_user 1)))
  = SInt (-5)
  /\ last_hours (snd (Part000.collection_add reference (add_untitled (VStr "-5")) (as_user 1)))
  = SInt (-5)
  /\ ~ nonnegative_integer
       (last_hours (snd (Part000.collection_add reference
                           (add_untitled (VStr "-5")) (as_user 1))))
  /\ two_and_a_half = VNum (Dbl (S754_finite false 5629499534213120 (-51)))
  /\ last_hours (snd (Part000.collection_add reference
                        (add_untitled two_and_a_half) (as_user 1)))
     = SReal (Dbl (S754_finite false 5629499534213120 (-51)))
  /\ ~ nonnegative_integer
       (last_hours (snd (Part000.collection_add reference
                           (add_untitled two_and_a_half) (as_user 1)))).
Proof.
  repeat split; try reflexivity.
  - intros (n & Hn & Hpos). vm_compute in Hn. injection Hn as <-. lia.
  - intros (n & Hn & _). vm_compute in Hn. discriminate Hn.
Qed.

(* ===================================================================== *)
(** * Updating the profile                                                 *)
(* ===================================================================== *)

(** A logged-in update of the profile, in each copy: the upload is stored,
    the UPDATE is run with the parameters above, and the reply is "DB error"
    when the statement fails, except in part_001 whose callback ignores the
    failure. *)
Lemma profile_update_run (P : platform) (v : variant) (req : request) (st : state) :
  truthy (session_userId st) = true ->
  let res := update_users P (assignment v P req) (bind (session_userId st)) (db st) in
  profile_update v P req st
  = (match res, v with
     | Failed _, part_001 => ok_reply
     | Failed _, _ => db_error
     | Done _ _ _, _ => ok_reply
     end,
     {| db := match res with Done d _ _ => d | Failed _ => db st end;
        queries := update_text v :: queries st;
        uploads := match req_photo req with
                   | Some o => (date_now req ++ "-" ++ o)%string :: uploads st
                   | None => uploads st
                   end;
        session_userId := session_userId st |}).
Proof.
  intros Hs res. subst res.
  destruct v; cbn [profile_update];
    [unfold Server.profile_update | unfold Part000.profile_update
     | unfold Part001.profile_update];
    unfold requireLogin, upload_single, assignment, photo_param, photo_reference;
    rewrite Hs; destruct (req_photo req) as [o |];
    unfold db_run; cbn [db session_userId queries uploads filename path bind];
    match goal with
    | |- context [update_users P ?f ?i ?d] => destruct (update_users P f i d)
    end; reflexivity.
Qed.

Lemma Forall2_map_self {A} (R : A -> A -> Prop) (f : A -> A) (l : list A) :
  (forall x, R x (f x)) -> Forall2 R l (map f l).
Proof. intros H. induction l; cbn; constructor; auto. Qed.

(** The UPDATE either is rejected or rewrites exactly the rows of the id. *)
Lemma update_users_cases (P : platform) (set : user -> user) (id : sqlval)
    (d : database) :
  (exists m, update_users P set id d = Failed m)
  \/ (exists n,
        update_users P set id d
        = Done (with_users (map (fun u => if user_has_id P id u then set u else u)
                              (users d)) d) 0 n).
Proof.
  unfold update_users.
  destruct (existsb _ _); [left; eexists; reflexivity |].
  destruct (email_clash _); [left; eexists; reflexivity |].
  right. eexists. rewrite map_map. f_equal. f_equal.
  apply map_ext. intros u. destruct (user_has_id P id u); reflexivity.
Qed.










(** The photo, in the copies that look at [err] (server.js and part_000).  A
    logged-in update is answered [{ok: true}] or "DB error", the latter with
    the database as it was.  When it is answered [{ok: true}]: without a
    photo the stored photo of every row is as it was; with a photo the rows
    of the session's id hold the reference of the new file and the other
    rows are as they were. *)
Lemma checked_update_photo
    (P : platform) (v : variant) (req : request) (st : state) :
  v <> part_001 ->
  truthy (session_userId st) = true ->
  let id := bind (session_userId st) in
  let r := profile_update v P req st in
  (fst r = ok_reply \/ (fst r = db_error /\ db (snd r) = db st))
  /\ (fst r = ok_reply ->
      Forall2 (fun u u' =>
                 match req_photo req with
                 | None => u_photo u' = u_photo u
                 | Some originalname =>
                     if user_has_id P id u then
                       u_photo u' = SText (photo_reference v req originalname)
                     else u' = u
                 end)
              (users (db st)) (users (db (snd r)))).
Proof.
  intros Hv Hs id r. subst r.
  rewrite (profile_update_run P v req st Hs). cbn [fst snd db]. fold id.
  destruct (update_users_cases P (assignment v P req) id (db st))
    as [[m Hm] | [n Hn]].
  - rewrite Hm. destruct v; [| | congruence];
      (split; [right; split; reflexivity | intros Hok; discriminate Hok]).
  - rewrite Hn. cbn [users with_users].
    split; [left; destruct v; reflexivity |]. intros _.
    apply Forall2_map_self. intros u.
    unfold assignment, photo_param.
    destruct (req_photo req) as [o |], (user_has_id P id u), v;
      try reflexivity; congruence.
Qed.

(** The same in every copy when the UPDATE is applied or there is no photo;
    a rejected UPDATE leaves the database as it was. *)
Lemma profile_update_photo
    (P : platform) (v : variant) (req : request) (st : state) :
  truthy (session_userId st) = true ->
  let id := bind (session_userId st) in
  let r := profile_update v P req st in
  match req_photo req with
  | None =>
      Forall2 (fun u u' => u_photo u' = u_photo u)
              (users (db st)) (users (db (snd r)))
  | Some originalname =>
      (db (snd r) = db st
       /\ fst r = match v with part_001 => ok_reply | _ => db_error end)
      \/ (fst r = ok_reply
          /\ Forall2 (fun u u' =>
                        if user_has_id P id u then
                          u_photo u' = SText (photo_reference v req originalname)
                        else u' = u)
                     (users (db st)) (users (db (snd r))))
  end.
Proof.
  intros Hs id r. subst r.
  rewrite (profile_update_run P v req st Hs). cbn [fst snd db]. fold id.
  destruct (update_users_cases P (assignment v P req) id (db st))
    as [[m Hm] | [n Hn]].
  - rewrite Hm. destruct (req_photo req) as [o |].
    + left. destruct v; split; reflexivity.
    + rewrite <- (map_id (users (db st))) at 2.
      apply Forall2_map_self. reflexivity.
  - rewrite Hn. cbn [users with_users].
    unfold assignment, photo_param.
    destruct (req_photo req) as [o |].
    + right. split; [destruct v; reflexivity |].
      apply Forall2_map_self. intros u.
      destruct (user_has_id P id u); [| reflexivity].
      destruct v; reflexivity.
    + apply Forall2_map_self. intros u.
      destruct (user_has_id P id u); [| reflexivity].
      destruct v; reflexivity.
Qed.

Lemma Forall2_same_photo (l l' : list user) :
  Forall2 (fun u u' => u_photo u' = u_photo u) l l' ->
  map u_photo l' = map u_photo l.
Proof.
  intros H. induction H as [| u u' l l' Hu _ IH]; cbn; [reflexivity |].
  rewrite Hu, IH. reflexivity.
Qed.

Lemma Forall2_hd {A B} (R : A -> B -> Prop) (l : list A) (l' : list B) (a : A) :
  Forall2 R l l' -> hd_error l = Some a ->
  exists b, hd_error l' = Some b /\ R a b.
Proof.
  intros [| x y l0 l1 Hxy _] Hhd; [discriminate Hhd |].
  injection Hhd as <-. exists y. split; [reflexivity | exact Hxy].
Qed.

Lemma hd_error_map {A B} (f : A -> B) (l : list A) :
  hd_error (map f l) = option_map f (hd_error l).
Proof. destruct l; reflexivity. Qed.

(** The examples of the specification, on part_000: without a photo the
    reference is kept, with one it is replaced. *)
Example profile_update_photo_examples :
  map u_photo (users (db (snd (Part000.profile_update reference rename_only (as_user 1)))))
  = map u_photo (users database0)
  /\ hd_error (map u_photo (users (db (snd (Part000.profile_update reference
                                              new_photo (as_user 1))))))
     = Some (SText "/uploads/1700000000001-new.png").
Proof.
  pose proof (profile_update_photo reference part_000 rename_only (as_user 1) eq_refl)
    as Hkeep.
  pose proof (profile_update_photo reference part_000 new_photo (as_user 1) eq_refl)
    as Hnew.
  cbv zeta in Hkeep, Hnew. cbn [req_photo rename_only new_photo with_photo request0]
    in Hkeep, Hnew.
  split.
  - exact (Forall2_same_photo _ _ Hkeep).
  - clear Hkeep. destruct Hnew as [[_ Hrej] | [_ Hall]].
    + vm_compute in Hrej. discriminate Hrej.
    + destruct (Forall2_hd _ _ _ alice Hall eq_refl) as (u' & Hhd & Hu).
      cbn [profile_update] in Hhd.
      rewrite hd_error_map, Hhd. cbn [option_map].
      change (u_photo u' = SText "/uploads/1700000000001-new.png") in Hu.
      rewrite Hu. reflexivity.
Qed.

(** An update the copies that look at [err] turn down: Alice uploads a photo
    and asks for Bob's email.  The file is stored, the UPDATE breaks UNIQUE
    on [users.email], the reply is "DB error", and the stored photo is the
    old reference. *)
Example profile_update_rejected_keeps_photo :
  let r := Part000.profile_update reference taken_email (as_user 1) in
  fst r = db_error
  /\ uploads (snd r) = ["1700000000001-new.png"]
  /\ photo_reference part_000 taken_email "new.png" = "/uploads/1700000000001-new.png"
  /\ hd_error (map u_photo (users (db (snd r))))
     = Some (SText "/uploads/1700000000000-old.png").
Proof. repeat split; reflexivity. Qed.

(** C8, at the request where part_001 departs from it.  Alice sends a photo
    and a bio and no name.  In the three copies the file is stored and the
    UPDATE fails on NOT NULL, so that the stored photo stays the old
    reference.  server.js and part_000 look at [err] and answer "DB error";
    the callback of part_001 does not, and answers [{ok: true}] to a call
    with a photo after which the stored photo is not the new reference.
    With a name, the update of part_001 is applied and the reference is the
    new one. *)
Theorem part001_update_ok_keeps_old_photo :
  let old := SText "/uploads/1700000000000-old.png" in
  let new := SText "/uploads/1700000000001-new.png" in
  let r := Part001.profile_update reference photo_and_bio (as_user 1) in
  req_photo photo_and_bio = Some "new.png"
  /\ photo_reference part_001 photo_and_bio "new.png" = "/uploads/1700000000001-new.png"
  /\ hd_error (map u_photo (users database0)) = Some old
  /\ fst r = ok_reply
  /\ uploads (snd r) = ["1700000000001-new.png"]
  /\ hd_error (map u_photo (users (db (snd r)))) = Some old
  /\ db (snd r) = database0
  /\ fst (Server.profile_update reference photo_and_bio (as_user 1)) = db_error
  /\ fst (Part000.profile_update reference photo_and_bio (as_user 1)) = db_error
  /\ fst (Part001.profile_update reference photo_and_name (as_user 1)) = ok_reply
  /\ hd_error (map u_photo (users (db (snd (Part001.profile_update reference
                                              photo_and_name (as_user 1))))))
     = Some new.
Proof. repeat split; reflexivity. Qed.

(* ===================================================================== *)
(** * Signup, login and logout                                             *)
(* ===================================================================== *)

(** X1. A signup with a field missing or empty is turned away with 400 before
    the password is hashed or any statement is sent. *)
Lemma signup_missing_fields
    (P : platform) (v : variant) (hash : string -> Z -> string)
    (req : request) (st : state) :
  truthy (get "name" (req_body req)) = false
  \/ truthy (get "email" (req_body req)) = false
  \/ truthy (get "password" (req_body req)) = false ->
  signup v P hash req st = (Sent 400 (JO [("error", jstr "Missing fields")]), st).
Proof.
  intros H.
  assert (Hc : negb (truthy (get "name" (req_body req)))
               || negb (truthy (get "email" (req_body req)))
               || negb (truthy (get "password" (req_body req))) = true).
  { destruct H as [-> | [-> | ->]]; cbn; rewrite ?orb_true_r; reflexivity. }
  destruct v; cbn [signup];
    [unfold Server.signup | unfold Part000.signup | unfold Part001.signup];
    rewrite Hc; reflexivity.
Qed.

Lemma signup_missing_fields_witness :
  signup part_000 reference reference_hash
         (request0 [("name", VStr "Eve"); ("email", VStr ""); ("password", VStr "pw")])
         anonymous
  = (Sent 400 (JO [("error", jstr "Missing fields")]), anonymous).
Proof.
  apply signup_missing_fields. right. left. reflexivity.
Defined.

(** What a signup runs once its fields are there and the password is a text. *)
Lemma signup_run (P : platform) (v : variant) (hash : string -> Z -> string)
    (req : request) (st : state) (p : string) :
  truthy (get "name" (req_body req)) = true ->
  truthy (get "email" (req_body req)) = true ->
  get "password" (req_body req) = VStr p ->
  p <> ""%string ->
  let res :=
    insert_user P (current_timestamp req) (bind (get "name" (req_body req)))
      (bind (get "email" (req_body req))) (SText (hash p 10)) (db st) in
  signup v P hash req st
  = match res with
    | Failed m =>
        ((if includes m "UNIQUE" then email_exists v else db_error),
         {| db := db st;
            queries := "INSERT INTO users (name, email, password_hash) VALUES (?, ?, ?)"
                       :: queries st;
            uploads := uploads st; session_userId := session_userId st |})
    | Done d id _ =>
        (signed_up v id,
         {| db := d;
            queries := "INSERT INTO users (name, email, password_hash) VALUES (?, ?, ?)"
                       :: queries st;
            uploads := uploads st; session_userId := num id |})
    end.
Proof.
  intros Hn He Hp Hne res. subst res.
  assert (Htp : truthy (VStr p) = true).
  { cbn. destruct p; [congruence | reflexivity]. }
  destruct v; cbn [signup];
    [unfold Server.signup | unfold Part000.signup | unfold Part001.signup];
    rewrite Hn, He, Hp, Htp; cbn [negb orb bcrypt_hash];
    unfold db_run, Server.SALT_ROUNDS, Part000.SALT_ROUNDS, Part001.SALT_ROUNDS;
    cbn [bind];
    match goal with
    | |- context [insert_user P ?a ?b ?c ?d ?e] => destruct (insert_user P a b c d e)
    end; cbn [fst snd]; try reflexivity;
    destruct (includes message "UNIQUE"); reflexivity.
Qed.

Lemma nonempty_truthy (s : string) : s <> ""%string -> truthy (VStr s) = true.
Proof. intros H. cbn. destruct s; [congruence | reflexivity]. Qed.

Lemma new_user_not_null (P : platform) (name : value) (e h : string) :
  truthy name = true ->
  is_null (text_affinity P (bind name)) || is_null (text_affinity P (bind (VStr e)))
  || is_null (text_affinity P (SText h)) = false.
Proof.
  intros Hn.
  rewrite (text_affinity_not_null P _ (bind_truthy_not_null _ Hn)). reflexivity.
Qed.

Lemma signup_conflict
    (P : platform) (v : variant) (hash : string -> Z -> string)
    (req : request) (st : state) (e p : string) (u : user) :
  truthy (get "name" (req_body req)) = true ->
  get "email" (req_body req) = VStr e -> e <> ""%string ->
  get "password" (req_body req) = VStr p -> p <> ""%string ->
  In u (users (db st)) ->
  u_email u = SText e ->
  fst (signup v P hash req st) = email_exists v
  /\ db (snd (signup v P hash req st)) = db st
  /\ session_userId (snd (signup v P hash req st)) = session_userId st.
Proof.
  intros Hn He Hne Hp Hnp Hin Hu.
  rewrite (signup_run P v hash req st p Hn
             ltac:(rewrite He; apply nonempty_truthy; exact Hne) Hp Hnp).
  unfold insert_user, user_has_null. cbn [u_name u_email u_password_hash].
  rewrite He. rewrite (new_user_not_null P _ e _ Hn).
  assert (Hex : existsb (fun v0 => sql_eqb (u_email v0) (text_affinity P (bind (VStr e))))
                        (users (db st)) = true).
  { apply existsb_exists. exists u. split; [exact Hin |].
    rewrite Hu. cbn. apply String.eqb_refl. }
  rewrite Hex. repeat split; reflexivity.
Qed.

(** X2. A signup with the email of an existing row is answered 409; the table is
    as it was and the session is not bound. *)
Theorem signup_duplicate_email
    (P : platform) (v : variant) (hash : string -> Z -> string)
    (req : request) (st : state) (e p : string) (u : user) :
  truthy (get "name" (req_body req)) = true ->
  get "email" (req_body req) = VStr e -> e <> ""%string ->
  get "password" (req_body req) = VStr p -> p <> ""%string ->
  In u (users (db st)) ->
  u_email u = SText e ->
  fst (signup v P hash req st) = email_exists v
  /\ db (snd (signup v P hash req st)) = db st
  /\ session_userId (snd (signup v P hash req st)) = session_userId st.
Proof. exact (signup_conflict P v hash req st e p u). Qed.

Lemma signup_duplicate_email_witness :
  fst (signup server_js reference reference_hash
         (signup_request "Alice II" "alice@example.com" "pw") anonymous)
  = email_exists server_js
  /\ db (snd (signup server_js reference reference_hash
                (signup_request "Alice II" "alice@example.com" "pw") anonymous))
     = database0.
Proof.
  destruct (signup_duplicate_email reference server_js reference_hash
              (signup_request "Alice II" "alice@example.com" "pw") anonymous
              "alice@example.com" "pw" alice eq_refl eq_refl ltac:(discriminate)
              eq_refl ltac:(discriminate) (or_introl eq_refl) eq_refl)
    as (H1 & H2 & _).
  split; [exact H1 | exact H2].
Defined.

(** The key AUTOINCREMENT gives is above the sequence and above every key
    of the table. *)
Lemma next_id_above (ids : list Z) (seq : Z) :
  seq < next_id ids seq /\ Forall (fun i => i < next_id ids seq) ids.
Proof.
  unfold next_id. induction ids as [| a ids [IHs IHf]]; cbn.
  - split; [lia | constructor].
  - split; [lia |]. constructor; [lia |].
    eapply Forall_impl; [| exact IHf]. cbn. intros; lia.
Qed.

Lemma signup_appends
    (P : platform) (v : variant) (hash : string -> Z -> string)
    (req : request) (st : state) (e p : string) :
  truthy (get "name" (req_body req)) = true ->
  get "email" (req_body req) = VStr e -> e <> ""%string ->
  get "password" (req_body req) = VStr p -> p <> ""%string ->
  (forall u, In u (users (db st)) -> sql_eqb (u_email u) (SText e) = false) ->
  let r := signup v P hash req st in
  exists u,
    users (db (snd r)) = (users (db st) ++ [u])%list
    /\ fst r = signed_up v (u_id u)
    /\ session_userId (snd r) = num (u_id u)
    /\ users_seq (db st) < u_id u
    /\ Forall (fun u0 => u_id u0 < u_id u) (users (db st))
    /\ users_seq (db (snd r)) = u_id u
    /\ u_name u = text_affinity P (bind (get "name" (req_body req)))
    /\ u_email u = SText e
    /\ u_password_hash u = SText (hash p 10)
    /\ (u_wins u, u_losses u, u_level u) = (SInt 0, SInt 0, SInt 1)
    /\ (u_photo u, u_bio u, u_favorite_genre u) = (SNull, SNull, SNull)
    /\ games (db (snd r)) = games (db st)
    /\ wishlist (db (snd r)) = wishlist (db st).
Proof.
  intros Hn He Hne Hp Hnp Hfresh r. subst r.
  rewrite (signup_run P v hash req st p Hn
             ltac:(rewrite He; apply nonempty_truthy; exact Hne) Hp Hnp).
  unfold insert_user, user_has_null. cbn [u_name u_email u_password_hash].
  rewrite He. rewrite (new_user_not_null P _ e _ Hn).
  assert (Hex : existsb (fun v0 => sql_eqb (u_email v0) (text_affinity P (bind (VStr e))))
                        (users (db st)) = false).
  { destruct (existsb _ _) eqn:Hx; [| reflexivity].
    apply existsb_exists in Hx. destruct Hx as (u & Hin & Heq).
    cbn in Heq. rewrite (Hfresh u Hin) in Heq. discriminate Heq. }
  rewrite Hex. cbn [fst snd db users users_seq games wishlist with_new_user u_id].
  destruct (next_id_above (map u_id (users (db st))) (users_seq (db st)))
    as [Hseq Hall].
  eexists. split; [reflexivity |]. cbn [u_id u_name u_email u_password_hash
    u_wins u_losses u_level u_photo u_bio u_favorite_genre].
  repeat split; try reflexivity; try assumption.
  rewrite Forall_map in Hall. exact Hall.
Qed.

(** X3. A signup with an email no row has appends one row: the name and email of
    the request, the hash bcrypt returned (not the password), no photo or
    bio, 0 wins and losses, level 1, under a key above every key given so
    far.  The session is bound to that key; the other tables are as before. *)
Theorem signup_creates_user
    (P : platform) (v : variant) (hash : string -> Z -> string)
    (req : request) (st : state) (e p : string) :
  truthy (get "name" (req_body req)) = true ->
  get "email" (req_body req) = VStr e -> e <> ""%string ->
  get "password" (req_body req) = VStr p -> p <> ""%string ->
  (forall u, In u (users (db st)) -> sql_eqb (u_email u) (SText e) = false) ->
  let r := signup v P hash req st in
  exists u,
    users (db (snd r)) = (users (db st) ++ [u])%list
    /\ fst r = signed_up v (u_id u)
    /\ session_userId (snd r) = num (u_id u)
    /\ users_seq (db st) < u_id u
    /\ Forall (fun u0 => u_id u0 < u_id u) (users (db st))
    /\ users_seq (db (snd r)) = u_id u
    /\ u_name u = text_affinity P (bind (get "name" (req_body req)))
    /\ u_email u = SText e
    /\ u_password_hash u = SText (hash p 10)
    /\ (u_wins u, u_losses u, u_level u) = (SInt 0, SInt 0, SInt 1)
    /\ (u_photo u, u_bio u, u_favorite_genre u) = (SNull, SNull, SNull)
    /\ games (db (snd r)) = games (db st)
    /\ wishlist (db (snd r)) = wishlist (db st).
Proof. exact (signup_appends P v hash req st e p). Qed.

Lemma signup_creates_user_witness :
  map u_email (users (db (snd (signup part_000 reference reference_hash
                                 (signup_request "Eve" "eve@example.com" "apple")
                                 anonymous))))
  = (map u_email (users database0) ++ [SText "eve@example.com"])%list.
Proof.
  destruct (signup_creates_user reference part_000 reference_hash
              (signup_request "Eve" "eve@example.com" "apple") anonymous
              "eve@example.com" "apple" eq_refl eq_refl ltac:(discriminate)
              eq_refl ltac:(discriminate))
    as (u & Husers & _ & _ & _ & _ & _ & _ & Hemail & _).
  - intros u [<- | [<- | [<- | [<- | []]]]]; reflexivity.
  - rewrite Husers, map_app. cbn [map]. rewrite Hemail. reflexivity.
Defined.

Lemma find_last {A} (f : A -> bool) (l : list A) (y : A) :
  (forall x, In x l -> f x = false) -> f y = true -> find f (l ++ [y]) = Some y.
Proof.
  intros Hl Hy. induction l as [| a l IH]; cbn.
  - rewrite Hy. reflexivity.
  - rewrite (Hl a (or_introl eq_refl)). apply IH.
    intros x Hx. apply Hl. right. exact Hx.
Qed.

(** X4. Signup, then login.  When bcrypt verifies a password against the hash it
    made of it, the email and password of a signup that went through log in
    on the state the signup left, and the session is bound to the key of the
    row the signup made. *)
Theorem signup_then_login
    (P : platform) (v : variant) (hash : string -> Z -> string)
    (req req' : request) (st : state) (e p : string) :
  truthy (get "name" (req_body req)) = true ->
  get "email" (req_body req) = VStr e -> e <> ""%string ->
  get "password" (req_body req) = VStr p -> p <> ""%string ->
  (forall u, In u (users (db st)) -> sql_eqb (u_email u) (SText e) = false) ->
  bcrypt_verify P p (hash p 10) = true ->
  get "email" (req_body req') = VStr e ->
  get "password" (req_body req') = VStr p ->
  let st1 := snd (signup v P hash req st) in
  exists id body,
    session_userId st1 = num id
    /\ fst (login v P req' st1) = Sent 200 body
    /\ field "ok" body = Some jtrue
    /\ session_userId (snd (login v P req' st1)) = column (SInt id)
    /\ db (snd (login v P req' st1)) = db st1.
Proof.
  intros Hn He Hne Hp Hnp Hfresh Hverify He' Hp' st1. subst st1.
  destruct (signup_appends P v hash req st e p Hn He Hne Hp Hnp Hfresh)
    as (u & Husers & _ & Hsession & _ & _ & _ & _ & Hemail & Hhash & _).
  set (st1 := snd (signup v P hash req st)) in *.
  assert (Hfind : find (fun x => text_col_eq P (u_email x) (bind (VStr e)))
                       (users (db st1)) = Some u).
  { rewrite Husers. apply find_last.
    - intros x Hx. exact (Hfresh x Hx).
    - rewrite Hemail. cbn. apply String.eqb_refl. }
  exists (u_id u).
  destruct v; cbn [login];
    [unfold Server.login | unfold Part000.login | unfold Part001.login];
    rewrite He', Hp'; rewrite ?(nonempty_truthy e Hne), ?(nonempty_truthy p Hnp);
    cbn [negb orb]; unfold db_query, select_user_by_email; cbn [db];
    rewrite Hfind; cbn [option_map]; unfold user_row, project;
    cbn [map get lookup String.eqb Ascii.eqb Bool.eqb];
    rewrite Hhash; cbn [column bcrypt_compare]; rewrite Hverify;
    eexists; (split; [exact Hsession |]); (split; [reflexivity |]);
    repeat split; reflexivity.
Qed.

Lemma signup_then_login_witness :
  let eve := signup_request "Eve" "eve@example.com" "apple" in
  let st1 := snd (signup part_000 reference reference_hash eve anonymous) in
  session_userId (snd (login part_000 reference eve st1)) = num 5.
Proof.
  destruct (signup_then_login reference part_000 reference_hash
              (signup_request "Eve" "eve@example.com" "apple")
              (signup_request "Eve" "eve@example.com" "apple") anonymous
              "eve@example.com" "apple" eq_refl eq_refl ltac:(discriminate)
              eq_refl ltac:(discriminate))
    as (id & body & Hid & _ & _ & Hlogin & _).
  - intros u [<- | [<- | [<- | [<- | []]]]]; reflexivity.
  - reflexivity.
  - reflexivity.
  - reflexivity.
  - cbv zeta. rewrite Hlogin.
    assert (Hfive : id = 5) by (vm_compute in Hid; injection Hid as <-; reflexivity).
    rewrite Hfive. reflexivity.
Defined.

Lemma login_frame (P : platform) (v : variant) (req : request) (st : state) :
  db (snd (login v P req st)) = db st.
Proof.
  destruct v; cbn [login];
    [unfold Server.login | unfold Part000.login | unfold Part001.login];
    try (destruct (negb (truthy (get "email" (req_body req)))
                   || negb (truthy (get "password" (req_body req))));
         [reflexivity |]);
    unfold db_query; cbn [db];
    (destruct (select_user_by_email P _ (db st)); [| reflexivity]);
    destruct (bcrypt_compare P _ _) as [[|] |]; reflexivity.
Qed.

(** X6. A login never writes the database or the upload directory.  It answers
    200 only when a row has the email of the request and bcrypt verifies the
    password of the request against the hash of that row, and then the
    session is bound to the key of that row; in every other case the session
    is as it was. *)
Theorem login_success_only_verified
    (P : platform) (v : variant) (req : request) (st : state) :
  db (snd (login v P req st)) = db st
  /\ uploads (snd (login v P req st)) = uploads st
  /\ ((exists body u pw h,
         fst (login v P req st) = Sent 200 body
         /\ In u (users (db st))
         /\ text_col_eq P (u_email u) (bind (get "email" (req_body req))) = true
         /\ get "password" (req_body req) = VStr pw
         /\ u_password_hash u = SText h
         /\ bcrypt_verify P pw h = true
         /\ session_userId (snd (login v P req st)) = column (SInt (u_id u)))
      \/ ((forall body, fst (login v P req st) <> Sent 200 body)
          /\ session_userId (snd (login v P req st)) = session_userId st)).
Proof.
  destruct v; cbn [login];
    [unfold Server.login | unfold Part000.login | unfold Part001.login];
    try (destruct (negb (truthy (get "email" (req_body req)))
                   || negb (truthy (get "password" (req_body req))));
         [repeat split; right; split; [intros body; discriminate | reflexivity] |]);
    unfold db_query, select_user_by_email; cbn [db];
    (destruct (find _ (users (db st))) as [u |] eqn:Hfind; cbn [option_map];
     [| repeat split; right; split; [intros body; discriminate | reflexivity]]);
    apply find_some in Hfind; destruct Hfind as [Hin Hmatch];
    unfold user_row, project; cbn [map get lookup String.eqb Ascii.eqb Bool.eqb];
    (destruct (get "password" (req_body req)) as [| | b | n | pw] eqn:Hpw;
     cbn [bcrypt_compare];
     try (repeat split; right; split; [intros body; discriminate | reflexivity]));
    (destruct (u_password_hash u) as [| z | f | h] eqn:Hh; cbn [column bcrypt_compare];
     try (repeat split; right; split; [intros body; discriminate | reflexivity]));
    (destruct (bcrypt_verify P pw h) eqn:Hverify;
     [| repeat split; right; split; [intros body; discriminate | reflexivity]]);
    repeat split; left; eexists; exists u, pw, h;
    (split; [reflexivity |]); repeat split; assumption.
Qed.

(** X8. Logout answers [{ok: true}] whether or not a session was bound, leaves
    the database as it was, and on the state it leaves every protected
    operation of every copy answers 401. *)
Theorem logout_ends_session
    (P : platform) (v : variant) (r : route) (h : handler)
    (req req' : request) (st : state) :
  protected r = true ->
  app v P r = Some h ->
  fst (logout req st) = Sent 200 (JO [("ok", jtrue)])
  /\ db (snd (logout req st)) = db st
  /\ logout req (snd (logout req st)) = logout req st
  /\ h req' (snd (logout req st)) = (unauthorized, snd (logout req st)).
Proof.
  intros Hprot Happ. repeat split.
  destruct v, r; try discriminate Hprot; try discriminate Happ;
    injection Happ as <-;
    match goal with
    | |- ?f P req' _ = _ => unfold f
    end; reflexivity.
Qed.

Lemma logout_ends_session_witness :
  Part000.stats reference (request0 []) (snd (logout (request0 []) (as_user 1)))
  = (unauthorized, anonymous).
Proof.
  exact (proj2 (proj2 (proj2 (logout_ends_session reference part_000 GET_stats
                                (Part000.stats reference) (request0 []) (request0 [])
                                (as_user 1) eq_refl eq_refl)))).
Defined.

(* ===================================================================== *)
(** * Reading: profile and listings                                        *)
(* ===================================================================== *)

Lemma reads_frame
    (P : platform) (v : variant) (r : route) (h : handler)
    (req : request) (st : state) :
  reads_only r = true ->
  app v P r = Some h ->
  db (snd (h req st)) = db st
  /\ uploads (snd (h req st)) = uploads st
  /\ session_userId (snd (h req st)) = session_userId st.
Proof.
  intros Hread Happ.
  destruct v, r; try discriminate Hread; try discriminate Happ;
    injection Happ as <-;
    match goal with
    | |- context [?f P req st] => unfold f
    end;
    unfold requireLogin; destruct (truthy (session_userId st));
    try (repeat split; reflexivity);
    unfold db_query; cbn [db];
    try (destruct (select_game_totals P _ _ (db st)); cbn [db]);
    try (destruct (select_user_by_id P _ (db st)));
    repeat split; reflexivity.
Qed.

(** X9. The routes that read leave the database, the upload directory and the
    session as they were, in every copy and whatever the request. *)
Theorem reads_do_not_write
    (P : platform) (v : variant) (r : route) (h : handler)
    (req : request) (st : state) :
  reads_only r = true ->
  app v P r = Some h ->
  db (snd (h req st)) = db st
  /\ uploads (snd (h req st)) = uploads st
  /\ session_userId (snd (h req st)) = session_userId st.
Proof. exact (reads_frame P v r h req st). Qed.

Lemma reads_do_not_write_witness :
  db (snd (Part000.collection_list reference (request0 []) (as_user 2))) = database0.
Proof.
  exact (proj1 (reads_do_not_write reference part_000 GET_collection
                  (Part000.collection_list reference) (request0 []) (as_user 2)
                  eq_refl eq_refl)).
Defined.

Lemma keys_json_of_row (cols : list string) (r : row) :
  keys (json_of_row (project cols r)) = cols.
Proof.
  unfold json_of_row, project, keys. rewrite !map_map. cbn [fst].
  apply map_id.
Qed.

(** X10. The profile a logged-in user reads is made of the columns its copy
    selects from the row of the session's id, the hash of the password not
    among them: id, name and email are those of that row.  When no row has
    that id, server.js and part_001 send no profile and part_000 an empty
    one. *)
Theorem profile_shows_own_row_without_hash
    (P : platform) (v : variant) (h : handler) (req : request) (st : state) :
  app v P GET_profile = Some h ->
  truthy (session_userId st) = true ->
  exists body,
    fst (h req st) = Sent 200 body
    /\ (forall p, field "profile" body = Some p -> field "password_hash" p = None)
    /\ match find (user_has_id P (bind (session_userId st))) (users (db st)) with
       | Some u =>
           exists p,
             field "profile" body = Some p
             /\ keys p = match v with
                         | part_001 => ["id"; "name"; "email"; "bio"; "photo"]
                         | _ => ["id"; "name"; "email"; "favorite_genre";
                                 "hours_played"; "wins"; "losses"; "level";
                                 "photo"; "bio"]
                         end
             /\ field "id" p = Some (jval (column (SInt (u_id u))))
             /\ field "name" p = Some (jval (column (u_name u)))
             /\ field "email" p = Some (jval (column (u_email u)))
       | None =>
           field "profile" body
           = match v with part_000 => Some (JO []) | _ => None end
       end.
Proof.
  intros Happ Hs.
  destruct v; cbn [app Server.app Part000.app Part001.app] in Happ;
    injection Happ as <-;
    [unfold Server.profile | unfold Part000.profile | unfold Part001.profile];
    unfold requireLogin, db_query, select_user_by_id; rewrite Hs; cbn [db];
    (destruct (find (user_has_id P (bind (session_userId st))) (users (db st)))
       as [u |]; cbn [option_map fst];
     [ eexists; split; [reflexivity |]; split;
       [ intros p Hp; cbn in Hp; injection Hp as <-; reflexivity
       | eexists; split; [reflexivity |]; repeat split; reflexivity ]
     | eexists; split; [reflexivity |]; split;
       [ intros p Hp; cbn in Hp; try discriminate Hp; injection Hp as <-; reflexivity
       | reflexivity ] ]).
Qed.

Lemma profile_shows_own_row_without_hash_witness :
  exists body,
    fst (Part000.profile reference (request0 []) (as_user 1)) = Sent 200 body
    /\ (forall p, field "profile" body = Some p -> field "password_hash" p = None).
Proof.
  destruct (profile_shows_own_row_without_hash reference part_000
              (Part000.profile reference) (request0 []) (as_user 1) eq_refl eq_refl)
    as (body & Hbody & Hhash & _).
  exists body. split; [exact Hbody | exact Hhash].
Defined.

(** ** [ORDER BY id DESC] *)

Section Ordering.
Context {A : Type} (key : A -> Z).

Lemma insert_desc_perm (x : A) (l : list A) :
  Permutation (insert_desc key x l) (x :: l).
Proof.
  induction l as [| y l IH]; cbn; [reflexivity |].
  destruct (key y <? key x); [reflexivity |].
  rewrite IH. apply perm_swap.
Qed.

Lemma order_by_desc_perm (l : list A) : Permutation (order_by_desc key l) l.
Proof.
  unfold order_by_desc. induction l as [| x l IH]; cbn; [reflexivity |].
  rewrite insert_desc_perm. constructor. exact IH.
Qed.

Lemma insert_desc_sorted (x : A) (l : list A) :
  StronglySorted (above key) l -> StronglySorted (above key) (insert_desc key x l).
Proof.
  induction l as [| y l IH]; intros Hs; cbn.
  - repeat constructor.
  - inversion Hs as [| ? ? Hl Hy]; subst.
    destruct (key y <? key x) eqn:Hc.
    + apply Z.ltb_lt in Hc. constructor; [exact Hs |].
      constructor; [unfold above; lia |].
      eapply Forall_impl; [| exact Hy]. unfold above. intros; lia.
    + apply Z.ltb_ge in Hc. constructor; [apply IH; exact Hl |].
      eapply Permutation_Forall; [symmetry; apply insert_desc_perm |].
      constructor; [exact Hc | exact Hy].
Qed.

Lemma order_by_desc_sorted (l : list A) : StronglySorted (above key) (order_by_desc key l).
Proof.
  unfold order_by_desc. induction l as [| x l IH]; cbn; [constructor |].
  apply insert_desc_sorted. exact IH.
Qed.

(** A row whose key is above all the others comes first. *)
Lemma order_by_desc_newest (x : A) (l : list A) :
  Forall (fun y => key y < key x) l ->
  order_by_desc key (l ++ [x]) = x :: order_by_desc key l.
Proof.
  unfold order_by_desc. intros Hall. rewrite fold_right_app. cbn [fold_right insert_desc].
  induction Hall as [| y l Hy _ IH]; cbn [fold_right]; [reflexivity |].
  rewrite IH. cbn [insert_desc].
  replace (key x <? key y) with false by (symmetry; apply Z.ltb_ge; lia).
  reflexivity.
Qed.

End Ordering.

(** X11. The listing of the collection gives a logged-in user the rows of [games]
    whose [user_id] is the session's id and whose [owned] is 1, each once,
    the larger ids first, and no other row. *)
Theorem collection_list_scoped_sorted
    (P : platform) (v : variant) (h : handler) (req : request) (st : state) :
  app v P GET_collection = Some h ->
  truthy (session_userId st) = true ->
  exists rows,
    fst (h req st)
    = Sent 200 (JO [("ok", jtrue);
                    ("games", JA (map (fun g => json_of_row (game_row g)) rows))])
    /\ Permutation rows (filter (owned_by P (bind (session_userId st))) (games (db st)))
    /\ StronglySorted (above g_id) rows
    /\ (forall g, In g rows ->
          In g (games (db st))
          /\ int_col_eq P (g_user_id g) (bind (session_userId st)) = true
          /\ sql_eqb (g_owned g) (SInt 1) = true).
Proof.
  intros Happ Hs.
  exists (order_by_desc g_id
            (filter (owned_by P (bind (session_userId st))) (games (db st)))).
  split; [| split; [apply order_by_desc_perm | split; [apply order_by_desc_sorted |]]].
  - destruct v; cbn [app Server.app Part000.app Part001.app] in Happ;
      try discriminate Happ; injection Happ as <-;
      [unfold Server.collection_list | unfold Part000.collection_list];
      unfold requireLogin, db_query, select_games; rewrite Hs; cbn [db fst];
      rewrite map_map; reflexivity.
  - intros g Hg.
    apply (Permutation_in _ (order_by_desc_perm g_id _)) in Hg.
    apply filter_In in Hg. destruct Hg as [Hin Howned].
    unfold owned_by in Howned. apply andb_true_iff in Howned.
    destruct Howned as [Hu Ho]. repeat split; assumption.
Qed.

Lemma collection_list_scoped_sorted_witness :
  exists rows,
    fst (Part000.collection_list reference (request0 []) (as_user 2))
    = Sent 200 (JO [("ok", jtrue);
                    ("games", JA (map (fun g => json_of_row (game_row g)) rows))])
    /\ Permutation rows [chess].
Proof.
  destruct (collection_list_scoped_sorted reference part_000
              (Part000.collection_list reference) (request0 []) (as_user 2)
              eq_refl eq_refl) as (rows & Hreply & Hperm & _).
  exists rows. split; [exact Hreply | exact Hperm].
Defined.

(* ===================================================================== *)
(** * Keys                                                                 *)
(* ===================================================================== *)

Lemma keys_ok_append (ids : list Z) (seq : Z) :
  keys_ok ids seq -> keys_ok (ids ++ [next_id ids seq]) (next_id ids seq).
Proof.
  intros [Hnd Hle].
  destruct (next_id_above ids seq) as [Hseq Hall].
  split.
  - apply NoDup_app; [exact Hnd | repeat constructor; intros [] |].
    intros x Hx [<- | []].
    rewrite Forall_forall in Hall. specialize (Hall _ Hx). lia.
  - apply Forall_app. split.
    + eapply Forall_impl; [| exact Hall]. cbn. intros; lia.
    + repeat constructor. lia.
Qed.

Lemma keys_ok_filter {A} (key : A -> Z) (f : A -> bool) (l : list A) (seq : Z) :
  keys_ok (map key l) seq -> keys_ok (map key (filter f l)) seq.
Proof.
  intros [Hnd Hle]. induction l as [| a l IH]; cbn; [split; constructor |].
  inversion Hnd as [| ? ? Hnotin Hnd']; subst.
  inversion Hle as [| ? ? Ha Hle']; subst.
  destruct (IH Hnd' Hle') as [IHnd IHle].
  destruct (f a); cbn; [| split; assumption].
  split; constructor; try assumption.
  intros Hin. apply Hnotin.
  apply in_map_iff in Hin. destruct Hin as (x & Hx & Hin).
  apply filter_In in Hin. rewrite <- Hx. apply in_map. apply Hin.
Qed.

Lemma insert_game_wf (P : platform) (now : string) (a b c e f : sqlval)
    (d d' : database) (l n : Z) :
  insert_game P now a b c e f d = Done d' l n -> well_formed d -> well_formed d'.
Proof.
  unfold insert_game. intros H (Hu & Hg & Hw).
  destruct (_ || _); [discriminate H |].
  destruct (_ && _); [discriminate H |].
  injection H as <- _ _.
  split; [exact Hu | split; [| exact Hw]]. cbn [games games_seq with_games g_id].
  rewrite map_app. apply keys_ok_append. exact Hg.
Qed.

Lemma insert_wish_wf (P : platform) (now : string) (a b c e : sqlval)
    (d d' : database) (l n : Z) :
  insert_wish P now a b c e d = Done d' l n -> well_formed d -> well_formed d'.
Proof.
  unfold insert_wish. intros H (Hu & Hg & Hw).
  destruct (_ || _); [discriminate H |].
  destruct (_ && _); [discriminate H |].
  injection H as <- _ _.
  split; [exact Hu | split; [exact Hg |]]. cbn [wishlist wishlist_seq with_wishlist w_id].
  rewrite map_app. apply keys_ok_append. exact Hw.
Qed.

Lemma insert_user_wf (P : platform) (now : string) (a b c : sqlval)
    (d d' : database) (l n : Z) :
  insert_user P now a b c d = Done d' l n -> well_formed d -> well_formed d'.
Proof.
  unfold insert_user. intros H (Hu & Hg & Hw).
  destruct (user_has_null _); [discriminate H |].
  destruct (existsb _ _); [discriminate H |].
  injection H as <- _ _.
  split; [| split; [exact Hg | exact Hw]]. cbn [users users_seq with_new_user u_id].
  rewrite map_app. apply keys_ok_append. exact Hu.
Qed.

Lemma delete_game_wf (P : platform) (a b : sqlval) (d d' : database) (l n : Z) :
  delete_game P a b d = Done d' l n -> well_formed d -> well_formed d'.
Proof.
  unfold delete_game. intros H (Hu & Hg & Hw). injection H as <- _ _.
  split; [exact Hu | split; [| exact Hw]]. cbn [games games_seq with_games].
  apply keys_ok_filter. exact Hg.
Qed.

Lemma delete_wish_wf (P : platform) (a b : sqlval) (d d' : database) (l n : Z) :
  delete_wish P a b d = Done d' l n -> well_formed d -> well_formed d'.
Proof.
  unfold delete_wish. intros H (Hu & Hg & Hw). injection H as <- _ _.
  split; [exact Hu | split; [exact Hg |]]. cbn [wishlist wishlist_seq with_wishlist].
  apply keys_ok_filter. exact Hw.
Qed.

Lemma update_users_wf (P : platform) (set : user -> user) (id : sqlval)
    (d d' : database) (l n : Z) :
  (forall u, u_id (set u) = u_id u) ->
  update_users P set id d = Done d' l n -> well_formed d -> well_formed d'.
Proof.
  intros Hset H (Hu & Hg & Hw).
  destruct (update_users_cases P set id d) as [[m Hm] | [k Hk]];
    rewrite H in *; [discriminate Hm |].
  injection Hk as -> _.
  split; [| split; [exact Hg | exact Hw]]. cbn [users users_seq with_users].
  replace (map u_id (map (fun u => if user_has_id P id u then set u else u) (users d)))
    with (map u_id (users d)); [exact Hu |].
  rewrite map_map. apply map_ext. intros u.
  destruct (user_has_id P id u); [rewrite Hset |]; reflexivity.
Qed.

(** The database a statement leaves, through [db.run]. *)
Lemma db_run_wf (sql : string) (stmt : database -> run_result) (st : state) :
  (forall d' l n, stmt (db st) = Done d' l n -> well_formed (db st) -> well_formed d') ->
  well_formed (db st) ->
  well_formed (db (snd (db_run sql stmt st))).
Proof.
  intros Hstmt Hwf. unfold db_run. cbn [snd db].
  destruct (stmt (db st)) eqn:E; [exact Hwf |].
  exact (Hstmt _ _ _ eq_refl Hwf).
Qed.

Ltac through_run lemma :=
  match goal with
  | Hwf : well_formed (db ?st) |- context [db_run ?sql ?stmt ?st] =>
      let H := fresh "Hrun" in
      assert (H : well_formed (db (snd (db_run sql stmt st))))
        by (apply db_run_wf; [intros ? ? ? ? ?; eapply lemma; eassumption | exact Hwf]);
      destruct (db_run sql stmt st) as [[? | ? ? ?] ?]; cbn [snd] in H;
      repeat match goal with
             | |- context [if ?c then _ else _] => destruct c
             end; cbn [snd set_session db]; exact H
  end.

(** X15. Every handler of every copy keeps the keys of the three tables in
    order: no key occurs twice in a table and none is above the sequence
    AUTOINCREMENT continues from. *)
Theorem handlers_keep_keys
    (P : platform) (v : variant) (hash : string -> Z -> string)
    (req : request) (st : state) :
  well_formed (db st) ->
  (forall r h, app v P r = Some h -> well_formed (db (snd (h req st))))
  /\ well_formed (db (snd (signup v P hash req st)))
  /\ well_formed (db (snd (logout req st))).
Proof.
  intros Hwf. split; [| split; [| exact Hwf]].
  - intros r h Happ.
    destruct (reads_only r) eqn:Hread.
    { rewrite (proj1 (reads_frame P v r h req st Hread Happ)). exact Hwf. }
    destruct r; try discriminate Hread.
    + destruct v; cbn [app Server.app Part000.app Part001.app] in Happ;
        injection Happ as <-.
      * rewrite (login_frame P server_js req st
                 : db (snd (Server.login P req st)) = db st). exact Hwf.
      * rewrite (login_frame P part_000 req st
                 : db (snd (Part000.login P req st)) = db st). exact Hwf.
      * rewrite (login_frame P part_001 req st
                 : db (snd (Part001.login P req st)) = db st). exact Hwf.
    + assert (Hh : h = profile_update v P).
      { destruct v; cbn in Happ; injection Happ as <-; reflexivity. }
      subst h. destruct (truthy (session_userId st)) eqn:Hs.
      * rewrite (profile_update_run P v req st Hs). cbn [snd db].
        destruct (update_users P (assignment v P req) (bind (session_userId st)) (db st))
          eqn:E; [exact Hwf |].
        refine (update_users_wf P _ _ _ _ _ _ _ E Hwf).
        intros u. destruct v; reflexivity.
      * destruct v; cbn [profile_update];
          [unfold Server.profile_update | unfold Part000.profile_update
           | unfold Part001.profile_update];
          unfold requireLogin; rewrite Hs; exact Hwf.
    + destruct v; cbn [app Server.app Part000.app Part001.app] in Happ;
        try discriminate Happ; injection Happ as <-;
        [unfold Server.collection_add | unfold Part000.collection_add];
        unfold requireLogin; (destruct (truthy (session_userId st)); [| exact Hwf]);
        through_run insert_game_wf.
    + destruct v; cbn [app Server.app Part000.app Part001.app] in Happ;
        try discriminate Happ; injection Happ as <-;
        [unfold Server.collection_delete | unfold Part000.collection_delete];
        unfold requireLogin; (destruct (truthy (session_userId st)); [| exact Hwf]);
        through_run delete_game_wf.
    + destruct v; cbn [app Server.app Part000.app Part001.app] in Happ;
        try discriminate Happ; injection Happ as <-;
        [unfold Server.wishlist_add | unfold Part000.wishlist_add];
        unfold requireLogin; (destruct (truthy (session_userId st)); [| exact Hwf]);
        through_run insert_wish_wf.
    + destruct v; cbn [app Server.app Part000.app Part001.app] in Happ;
        try discriminate Happ; injection Happ as <-;
        [unfold Server.wishlist_delete | unfold Part000.wishlist_delete];
        unfold requireLogin; (destruct (truthy (session_userId st)); [| exact Hwf]);
        through_run delete_wish_wf.
  - destruct v; cbn [signup];
      [unfold Server.signup | unfold Part000.signup | unfold Part001.signup];
      (destruct (_ || _); [exact Hwf |]);
      (destruct (bcrypt_hash _ _ _); [| exact Hwf]);
      through_run insert_user_wf.
Qed.

Lemma database0_well_formed : well_formed database0.
Proof.
  repeat split; cbn; repeat constructor; cbn; try lia; intuition discriminate.
Qed.

Lemma handlers_keep_keys_witness :
  well_formed (db (snd (Part000.collection_add reference
                          (add_untitled (VStr "5")) (as_user 1))))
  /\ well_formed (db (snd (signup server_js reference reference_hash
                             (signup_request "Eve" "eve@example.com" "apple")
                             anonymous))).
Proof.
  destruct (handlers_keep_keys reference part_000 reference_hash
              (add_untitled (VStr "5")) (as_user 1) database0_well_formed)
    as (Hroutes & _ & _).
  destruct (handlers_keep_keys reference server_js reference_hash
              (signup_request "Eve" "eve@example.com" "apple") anonymous
              database0_well_formed)
    as (_ & Hsignup & _).
  split; [exact (Hroutes POST_collection _ eq_refl) | exact Hsignup].
Defined.

(* ===================================================================== *)
(** * The collection: adding, listing, removing                            *)
(* ===================================================================== *)

Lemma Forall_filter {A} (Q : A -> Prop) (f : A -> bool) (l : list A) :
  Forall Q l -> Forall Q (filter f l).
Proof.
  rewrite !Forall_forall. intros H x Hx. apply H.
  apply filter_In in Hx. apply Hx.
Qed.

Lemma owned_by_self (P : platform) (A : Z) (g : game) :
  g_user_id g = SInt A -> g_owned g = SInt 1 -> owned_by P (SInt A) g = true.
Proof.
  intros Hu Ho. unfold owned_by, int_col_eq. rewrite Hu, Ho. cbn.
  rewrite Z.eqb_refl. reflexivity.
Qed.

Lemma owned_by_other (P : platform) (A B : Z) (g : game) :
  g_user_id g = SInt B -> A <> B -> owned_by P (SInt A) g = false.
Proof.
  intros Hu HAB. unfold owned_by, int_col_eq. rewrite Hu. cbn.
  replace (B =? A) with false by (symmetry; apply Z.eqb_neq; congruence).
  reflexivity.
Qed.

(** X12. Add, then list (part_000).  The game a user adds is the first row of the
    listing that follows, with the id the reply to the addition gave; the
    rows after it are the listing as it was before. *)
Theorem part000_add_then_list
    (P : platform) (req req' : request) (st : state) (A : Z) (u : user) :
  session_userId st = num A -> A <> 0 ->
  In u (users (db st)) -> u_id u = A ->
  let st1 := snd (Part000.collection_add P req st) in
  exists g older,
    fst (Part000.collection_add P req st)
    = Sent 200 (JO [("ok", jtrue); ("id", jint (g_id g))])
    /\ fst (Part000.collection_list P req' st)
       = Sent 200 (JO [("ok", jtrue); ("games", JA older)])
    /\ fst (Part000.collection_list P req' st1)
       = Sent 200 (JO [("ok", jtrue); ("games", JA (json_of_row (game_row g) :: older))])
    /\ field "id" (json_of_row (game_row g)) = Some (jval (column (SInt (g_id g)))).
Proof.
  intros Hs HA Hu Hid st1. subst st1.
  rewrite (part000_add_run P req st A u Hs HA Hu Hid). cbn [fst snd].
  pose proof (session_truthy st A Hs HA) as Htruthy.
  match goal with
  | |- context [with_games (_ ++ [?g]) _ _] => exists g
  end.
  eexists. split; [reflexivity |].
  unfold Part000.collection_list, requireLogin, db_query, select_games.
  cbn [session_userId db games with_games]. rewrite Htruthy, Hs, owned_by_num.
  cbn [fst].
  split; [reflexivity |]. split; [| reflexivity].
  rewrite filter_app. cbn [filter].
  rewrite owned_by_self by reflexivity.
  rewrite order_by_desc_newest.
  - cbn [map]. reflexivity.
  - apply Forall_filter. cbn [g_id].
    destruct (next_id_above (map g_id (games (db st))) (games_seq (db st))) as [_ Hall].
    rewrite Forall_map in Hall. exact Hall.
Qed.

Lemma part000_add_then_list_witness :
  exists g,
    fst (Part000.collection_list reference (request0 [])
           (snd (Part000.collection_add reference (add_untitled (VStr "5")) (as_user 2))))
    = Sent 200 (JO [("ok", jtrue);
                    ("games", JA [json_of_row (game_row g);
                                  json_of_row (game_row chess)])]).
Proof.
  destruct (part000_add_then_list reference (add_untitled (VStr "5")) (request0 [])
              (as_user 2) 2 bob eq_refl ltac:(discriminate)
              (or_intror (or_introl eq_refl)) eq_refl)
    as (g & older & _ & Hbefore & Hafter & _).
  exists g. rewrite Hafter.
  assert (Holder : older = [json_of_row (game_row chess)]).
  { vm_compute in Hbefore. injection Hbefore as <-. reflexivity. }
  rewrite Holder. reflexivity.
Defined.

Lemma filter_ext_if {A} (f g : A -> bool) (l : list A) :
  (forall x, In x l -> f x = g x) -> filter f l = filter g l.
Proof.
  induction l as [| a l IH]; intros H; cbn; [reflexivity |].
  rewrite (H a (or_introl eq_refl)), IH; [reflexivity |].
  intros x Hx. apply H. right. exact Hx.
Qed.

Lemma filter_out_one {A} (key : A -> Z) (l : list A) (x : A) :
  NoDup (map key l) -> In x l ->
  S (List.length (filter (fun y => negb (key y =? key x)) l)) = List.length l.
Proof.
  induction l as [| a l IH]; intros Hnd Hin; [contradiction |].
  inversion Hnd as [| ? ? Hnotin Hnd']; subst. cbn [filter].
  destruct Hin as [-> | Hin].
  - rewrite Z.eqb_refl. cbn [negb List.length]. f_equal.
    rewrite filter_keeps_all; [reflexivity |].
    intros y Hy. apply negb_true_iff, Z.eqb_neq. intros Heq.
    apply Hnotin. rewrite <- Heq. apply in_map. exact Hy.
  - replace (key a =? key x) with false.
    + cbn [negb List.length]. f_equal. apply IH; assumption.
    + symmetry. apply Z.eqb_neq. intros Heq. apply Hnotin.
      rewrite Heq. apply in_map. exact Hin.
Qed.

(** X13. Removing one's own game.  When the path names the id of a row of the
    session's user, server.js and part_000 remove that row and no other;
    part_000 reports [deleted: 1].  The other tables are as before. *)
Theorem delete_own_game
    (P : platform) (v : variant) (h : handler) (req : request) (st : state)
    (A : Z) (g : game) :
  app v P DELETE_collection = Some h ->
  session_userId st = num A ->
  A <> 0 ->
  NoDup (map g_id (games (db st))) ->
  In g (games (db st)) ->
  g_user_id g = SInt A ->
  integer_affinity P (SText (req_params_id req)) = SInt (g_id g) ->
  games (db (snd (h req st)))
  = filter (fun g' => negb (g_id g' =? g_id g)) (games (db st))
  /\ ~ In g (games (db (snd (h req st))))
  /\ (forall g', In g' (games (db st)) -> g' <> g -> In g' (games (db (snd (h req st)))))
  /\ users (db (snd (h req st))) = users (db st)
  /\ wishlist (db (snd (h req st))) = wishlist (db st)
  /\ fst (h req st)
     = Sent 200 (JO (("ok", jtrue)
                     :: match v with
                        | part_000 => [("deleted", jint 1)]
                        | _ => []
                        end)).
Proof.
  intros Happ Hs HA Hnd Hin Howner Hid.
  pose proof (session_truthy st A Hs HA) as Htruthy.
  assert (Hfilter :
    filter (fun g' => negb (game_matches P (SText (req_params_id req)) (SInt A) g'))
           (games (db st))
    = filter (fun g' => negb (g_id g' =? g_id g)) (games (db st))).
  { apply filter_ext_if. intros g' Hg'. f_equal.
    unfold game_matches, int_col_eq. rewrite Hid. cbn [sql_eqb integer_affinity].
    destruct (g_id g' =? g_id g) eqn:Heq; [| reflexivity].
    apply Z.eqb_eq in Heq.
    rewrite (unique_key g_id _ g' g Hnd Hg' Hin Heq), Howner. cbn.
    rewrite Z.eqb_refl. reflexivity. }
  assert (Hcount : Z.of_nat (List.length (games (db st)))
                   - Z.of_nat (List.length
                                 (filter (fun g' => negb (g_id g' =? g_id g))
                                    (games (db st)))) = 1).
  { pose proof (filter_out_one g_id _ g Hnd Hin). lia. }
  assert (Hgone : ~ In g (filter (fun g' => negb (g_id g' =? g_id g)) (games (db st)))).
  { intros Hg. apply filter_In in Hg. destruct Hg as [_ Hg].
    rewrite Z.eqb_refl in Hg. discriminate Hg. }
  assert (Hkept : forall g', In g' (games (db st)) -> g' <> g ->
            In g' (filter (fun g' => negb (g_id g' =? g_id g)) (games (db st)))).
  { intros g' Hg' Hneq. apply filter_In. split; [exact Hg' |].
    apply negb_true_iff, Z.eqb_neq. intros Heq. apply Hneq.
    exact (unique_key g_id _ g' g Hnd Hg' Hin Heq). }
  destruct v; cbn [app Server.app Part000.app Part001.app] in Happ;
    try discriminate Happ; injection Happ as <-;
    [unfold Server.collection_delete | unfold Part000.collection_delete];
    unfold requireLogin, db_run; rewrite Htruthy, Hs, delete_game_num;
    unfold delete_game; cbn [bind db]; rewrite Hfilter;
    cbn [fst snd db games users wishlist with_games];
    rewrite ?Hcount; repeat split; assumption.
Qed.

Lemma delete_own_game_witness :
  games (db (snd (Part000.collection_delete reference (with_id "1" (request0 []))
                    (as_user 2)))) = []
  /\ fst (Part000.collection_delete reference (with_id "1" (request0 [])) (as_user 2))
     = Sent 200 (JO [("ok", jtrue); ("deleted", jint 1)]).
Proof.
  destruct (delete_own_game reference part_000 (Part000.collection_delete reference)
              (with_id "1" (request0 [])) (as_user 2) 2 chess eq_refl eq_refl
              ltac:(discriminate) ltac:(repeat constructor; intros [])
              (or_introl eq_refl) eq_refl eq_refl)
    as (Hgames & _ & _ & _ & _ & Hreply).
  split; [rewrite Hgames; reflexivity | exact Hreply].
Defined.

Lemma remove_newest (P : platform) (l : list game) (g : game) (A : Z)
    (param : sqlval) :
  integer_affinity P param = SInt (g_id g) ->
  g_user_id g = SInt A ->
  Forall (fun g' => g_id g' < g_id g) l ->
  filter (fun g' => negb (game_matches P param (SInt A) g')) (l ++ [g]) = l.
Proof.
  intros Hparam Howner Hall. rewrite filter_app. cbn [filter].
  unfold game_matches at 2. unfold int_col_eq. rewrite Hparam, Howner.
  cbn [integer_affinity sql_eqb]. rewrite !Z.eqb_refl. cbn [andb negb].
  rewrite app_nil_r. apply filter_keeps_all.
  intros g' Hg'. apply negb_true_iff. unfold game_matches, int_col_eq.
  rewrite Hparam. cbn [sql_eqb].
  rewrite Forall_forall in Hall. specialize (Hall g' Hg').
  replace (g_id g' =? g_id g) with false by (symmetry; apply Z.eqb_neq; lia).
  reflexivity.
Qed.

(** X14. Add, then remove (part_000).  Removing the id an addition returned takes
    exactly that row out again: the rows of [games] are those before the
    addition, the reply is [deleted: 1], and the sequence keeps the id, so
    that it is not given again. *)
Theorem part000_add_then_delete
    (P : platform) (req req' : request) (st : state) (A : Z) (u : user) :
  session_userId st = num A -> A <> 0 ->
  In u (users (db st)) -> u_id u = A ->
  let id := next_id (map g_id (games (db st))) (games_seq (db st)) in
  let st1 := snd (Part000.collection_add P req st) in
  let st2 := snd (Part000.collection_delete P req' st1) in
  integer_affinity P (SText (req_params_id req')) = SInt id ->
  fst (Part000.collection_add P req st) = Sent 200 (JO [("ok", jtrue); ("id", jint id)])
  /\ fst (Part000.collection_delete P req' st1)
     = Sent 200 (JO [("ok", jtrue); ("deleted", jint 1)])
  /\ games (db st2) = games (db st)
  /\ games_seq (db st2) = id
  /\ games_seq (db st) < id.
Proof.
  intros Hs HA Hu Hid id st1 st2 Hparam. subst st2 st1.
  rewrite (part000_add_run P req st A u Hs HA Hu Hid). cbn [fst snd].
  pose proof (session_truthy st A Hs HA) as Htruthy.
  destruct (next_id_above (map g_id (games (db st))) (games_seq (db st)))
    as [Hseq Hall].
  fold id in Hseq, Hall |- *.
  split; [reflexivity |].
  unfold Part000.collection_delete, requireLogin, db_run.
  cbn [session_userId db games games_seq with_games].
  rewrite Htruthy, Hs, delete_game_num. unfold delete_game.
  cbn [bind games games_seq with_games].
  rewrite remove_newest with (A := A);
    [| exact Hparam | reflexivity | rewrite Forall_map in Hall; exact Hall].
  cbn [fst snd db games games_seq with_games].
  rewrite length_app. cbn [List.length].
  replace (Z.of_nat (List.length (games (db st)) + 1)
           - Z.of_nat (List.length (games (db st)))) with 1 by lia.
  repeat split; try reflexivity. exact Hseq.
Qed.

Lemma part000_add_then_delete_witness :
  games (db (snd (Part000.collection_delete reference (with_id "2" (request0 []))
                    (snd (Part000.collection_add reference (add_untitled (VStr "5"))
                            (as_user 1))))))
  = [chess].
Proof.
  destruct (part000_add_then_delete reference (add_untitled (VStr "5"))
              (with_id "2" (request0 [])) (as_user 1) 1 alice eq_refl
              ltac:(discriminate) (or_introl eq_refl) eq_refl eq_refl)
    as (_ & _ & Hgames & _).
  exact Hgames.
Defined.

(* ===================================================================== *)
(** * One user's writes and another user's reads                           *)
(* ===================================================================== *)

(** What an addition to the collection does to the tables, whether it goes
    through or not. *)
Lemma add_effect (P : platform) (v : variant) (h : handler) (req : request)
    (st : state) (B : Z) :
  app v P POST_collection = Some h ->
  session_userId st = num B ->
  users (db (snd (h req st))) = users (db st)
  /\ (games (db (snd (h req st))) = games (db st)
      \/ exists g, games (db (snd (h req st))) = (games (db st) ++ [g])%list
                   /\ g_user_id g = SInt B).
Proof.
  intros Happ Hs.
  destruct v; cbn [app Server.app Part000.app Part001.app] in Happ;
    try discriminate Happ; injection Happ as <-;
    [unfold Server.collection_add | unfold Part000.collection_add];
    unfold requireLogin; (destruct (truthy (session_userId st)); [| split; [| left]; reflexivity]);
    unfold db_run; rewrite Hs, insert_game_num; unfold insert_game;
    cbn [integer_affinity db];
    (destruct (_ || _); [split; [| left]; reflexivity |]);
    (destruct (_ && _); [split; [| left]; reflexivity |]);
    (split; [reflexivity | right; eexists; split; reflexivity]).
Qed.

Lemma list_reply_depends (P : platform) (v : variant) (h : handler) (req : request)
    (st st' : state) :
  app v P GET_collection = Some h ->
  session_userId st = session_userId st' ->
  filter (owned_by P (bind (session_userId st))) (games (db st))
  = filter (owned_by P (bind (session_userId st))) (games (db st')) ->
  fst (h req st) = fst (h req st').
Proof.
  intros Happ Hs Hf.
  destruct v; cbn [app Server.app Part000.app Part001.app] in Happ;
    try discriminate Happ; injection Happ as <-;
    [unfold Server.collection_list | unfold Part000.collection_list];
    unfold requireLogin; rewrite <- Hs;
    (destruct (truthy (session_userId st)); [| reflexivity]);
    unfold db_query, select_games; cbn [db fst]; rewrite Hf; reflexivity.
Qed.

Lemma stats_reply_depends (P : platform) (v : variant) (h : handler) (req : request)
    (st st' : state) :
  app v P GET_stats = Some h ->
  session_userId st = session_userId st' ->
  users (db st) = users (db st') ->
  filter (owned_by P (bind (session_userId st))) (games (db st))
  = filter (owned_by P (bind (session_userId st))) (games (db st')) ->
  fst (h req st) = fst (h req st').
Proof.
  intros Happ Hs Hu Hf.
  destruct v; cbn [app Server.app Part000.app Part001.app] in Happ;
    try discriminate Happ; injection Happ as <-;
    [unfold Server.stats | unfold Part000.stats];
    unfold requireLogin; rewrite <- Hs;
    (destruct (truthy (session_userId st)); [| reflexivity]);
    unfold db_query, select_game_totals, select_user_by_id; cbn [db fst];
    rewrite <- Hu, <- Hf;
    (destruct (sum P _); [reflexivity |]); cbn [db fst];
    try (destruct (find _ (users (db st))); reflexivity); reflexivity.
Qed.

(** X16. A user's addition to the collection, whether it goes through or not,
    changes neither the listing nor the statistics another user reads, in
    server.js and in part_000. *)
Theorem others_add_invisible
    (P : platform) (v : variant) (hadd hlist hstats : handler)
    (reqB reqA : request) (st : state) (A B : Z) :
  app v P POST_collection = Some hadd ->
  app v P GET_collection = Some hlist ->
  app v P GET_stats = Some hstats ->
  session_userId st = num B ->
  A <> B ->
  let st1 := snd (hadd reqB st) in
  fst (hlist reqA (set_session (num A) st1)) = fst (hlist reqA (set_session (num A) st))
  /\ fst (hstats reqA (set_session (num A) st1))
     = fst (hstats reqA (set_session (num A) st)).
Proof.
  intros Hadd Hlist Hstats Hs HAB st1. subst st1.
  destruct (add_effect P v hadd reqB st B Hadd Hs) as [Hu Hg].
  assert (Hf : filter (owned_by P (SInt A)) (games (db (snd (hadd reqB st))))
               = filter (owned_by P (SInt A)) (games (db st))).
  { destruct Hg as [-> | (g & -> & Howner)]; [reflexivity |].
    rewrite filter_app. cbn [filter].
    rewrite (owned_by_other P A B g Howner HAB). apply app_nil_r. }
  split.
  - apply (list_reply_depends P v hlist reqA); [exact Hlist | reflexivity |].
    cbn [set_session session_userId db]. rewrite owned_by_num. exact Hf.
  - apply (stats_reply_depends P v hstats reqA); [exact Hstats | reflexivity | |].
    + cbn [set_session db]. exact Hu.
    + cbn [set_session session_userId db]. rewrite owned_by_num. exact Hf.
Qed.

Lemma others_add_invisible_witness :
  fst (Part000.collection_list reference (request0 [])
         (set_session (num 2)
            (snd (Part000.collection_add reference (add_untitled (VStr "5")) (as_user 1)))))
  = fst (Part000.collection_list reference (request0 []) (as_user 2)).
Proof.
  exact (proj1 (others_add_invisible reference part_000
                  (Part000.collection_add reference) (Part000.collection_list reference)
                  (Part000.stats reference) (add_untitled (VStr "5")) (request0 [])
                  (as_user 1) 2 1 eq_refl eq_refl eq_refl eq_refl ltac:(discriminate))).
Defined.

(* ===================================================================== *)
(** * The wishlist                                                         *)
(* ===================================================================== *)

Lemma with_wishlist_same (d : database) :
  with_wishlist (wishlist d) (wishlist_seq d) d = d.
Proof. destruct d; reflexivity. Qed.

(** X17. Removing from the wishlist is scoped like removing from the collection:
    with the session of A and the id of an entry of another user B, server.js
    and part_000 remove nothing and leave the database as it was; part_000
    reports [deleted: 0]. *)
Theorem wishlist_delete_leaves_other_users_rows
    (P : platform) (v : variant) (h : handler) (req : request) (st : state)
    (A B : Z) (w : wish) :
  app v P DELETE_wishlist = Some h ->
  session_userId st = num A ->
  A <> 0 ->
  A <> B ->
  NoDup (map w_id (wishlist (db st))) ->
  In w (wishlist (db st)) ->
  w_user_id w = SInt B ->
  integer_affinity P (SText (req_params_id req)) = SInt (w_id w) ->
  db (snd (h req st)) = db st
  /\ fst (h req st)
     = Sent 200 (JO (("ok", jtrue)
                     :: match v with
                        | part_000 => [("deleted", jint 0)]
                        | _ => []
                        end)).
Proof.
  intros Happ Hs HA HAB Hnd Hin Howner Hid.
  pose proof (session_truthy st A Hs HA) as Htruthy.
  assert (Hkeep :
    filter (fun w' => negb (int_col_eq P (SInt (w_id w')) (SText (req_params_id req))
                            && int_col_eq P (w_user_id w') (SInt A)))
           (wishlist (db st)) = wishlist (db st)).
  { apply filter_keeps_all. intros w' Hw'. apply negb_true_iff.
    unfold int_col_eq. rewrite Hid. cbn [sql_eqb integer_affinity].
    destruct (w_id w' =? w_id w) eqn:Heq; [| reflexivity].
    apply Z.eqb_eq in Heq.
    rewrite (unique_key w_id _ w' w Hnd Hw' Hin Heq), Howner. cbn.
    apply Z.eqb_neq. congruence. }
  destruct v; cbn [app Server.app Part000.app Part001.app] in Happ;
    try discriminate Happ; injection Happ as <-;
    [unfold Server.wishlist_delete | unfold Part000.wishlist_delete];
    unfold requireLogin, db_run; rewrite Htruthy, Hs, delete_wish_num;
    unfold delete_wish; cbn [bind db];
    rewrite Hkeep, with_wishlist_same, ?Z.sub_diag;
    split; reflexivity.
Qed.

Lemma wishlist_delete_leaves_other_users_rows_witness :
  db (snd (Part000.wishlist_delete reference (with_id "1" (request0 [])) (wishing 1)))
  = database1
  /\ fst (Part000.wishlist_delete reference (with_id "1" (request0 [])) (wishing 1))
     = Sent 200 (JO [("ok", jtrue); ("deleted", jint 0)]).
Proof.
  exact (wishlist_delete_leaves_other_users_rows reference part_000
           (Part000.wishlist_delete reference) (with_id "1" (request0 [])) (wishing 1)
           1 2 portal eq_refl eq_refl ltac:(discriminate) ltac:(discriminate)
           ltac:(repeat constructor; intros []) (or_introl eq_refl) eq_refl eq_refl).
Defined.

(** The row part_000 inserts in the wishlist for a request of the user [A]. *)
Lemma part000_wish_add_run (P : platform) (req : request) (st : state) (A : Z)
    (u : user) :
  session_userId st = num A -> A <> 0 ->
  In u (users (db st)) -> u_id u = A ->
  let id := next_id (map w_id (wishlist (db st))) (wishlist_seq (db st)) in
  let w := {| w_id := id;
              w_user_id := SInt A;
              w_title := text_affinity P
                           (bind (or_else (get "title" (req_body req)) (VStr "Untitled")));
              w_genre := text_affinity P
                           (bind (or_else (get "genre" (req_body req)) (VStr "")));
              w_expected_release :=
                text_affinity P
                  (bind (or_else (get "expected_release" (req_body req)) (VStr "")));
              w_created_at := SText (current_timestamp req) |} in
  Part000.wishlist_add P req st
  = (Sent 200 (JO [("ok", jtrue); ("id", jint id)]),
     {| db := with_wishlist (wishlist (db st) ++ [w]) id (db st);
        queries := "INSERT INTO wishlist (user_id, title, genre, expected_release) VALUES (?, ?, ?, ?)"
                   :: queries st;
        uploads := uploads st; session_userId := session_userId st |}).
Proof.
  intros Hs HA Hu Hid id w.
  pose proof (session_truthy st A Hs HA) as Htruthy.
  unfold Part000.wishlist_add, requireLogin, db_run.
  rewrite Htruthy. rewrite Hs, insert_wish_num. unfold insert_wish.
  cbn [integer_affinity db w_user_id w_title is_null orb].
  assert (Htitle : is_null (text_affinity P
                              (bind (or_else (get "title" (req_body req))
                                       (VStr "Untitled")))) = false).
  { apply text_affinity_not_null, bind_truthy_not_null.
    unfold or_else. destruct (truthy (get "title" (req_body req))) eqn:Ht;
      [exact Ht | reflexivity]. }
  rewrite Htitle.
  assert (Hfk : existsb (fun u0 => sql_eqb (SInt (u_id u0)) (SInt A)) (users (db st)) = true).
  { apply existsb_exists. exists u. split; [exact Hu |].
    cbn. apply Z.eqb_eq. exact Hid. }
  rewrite Hfk, andb_false_r. reflexivity.
Qed.

(** X18. Wish, then list (part_000).  The entry a user adds to the wishlist is the
    first of the listing that follows, under both keys of the reply, before
    the entries listed until then; a title, a genre or a release that is
    absent or empty is stored as "Untitled", "" and "". *)
Theorem part000_wish_then_list
    (P : platform) (req req' : request) (st : state) (A : Z) (u : user) :
  session_userId st = num A -> A <> 0 ->
  In u (users (db st)) -> u_id u = A ->
  let st1 := snd (Part000.wishlist_add P req st) in
  exists w older,
    fst (Part000.wishlist_add P req st)
    = Sent 200 (JO [("ok", jtrue); ("id", jint (w_id w))])
    /\ fst (Part000.wishlist_list P req' st)
       = Sent 200 (JO [("ok", jtrue); ("wishlist", JA older); ("list", JA older)])
    /\ fst (Part000.wishlist_list P req' st1)
       = Sent 200 (JO [("ok", jtrue);
                       ("wishlist", JA (json_of_row (wish_row w) :: older));
                       ("list", JA (json_of_row (wish_row w) :: older))])
    /\ w_user_id w = SInt A
    /\ (truthy (get "title" (req_body req)) = false -> w_title w = SText "Untitled")
    /\ (truthy (get "genre" (req_body req)) = false -> w_genre w = SText "")
    /\ (truthy (get "expected_release" (req_body req)) = false ->
        w_expected_release w = SText "").
Proof.
  intros Hs HA Hu Hid st1. subst st1.
  rewrite (part000_wish_add_run P req st A u Hs HA Hu Hid). cbn [fst snd].
  pose proof (session_truthy st A Hs HA) as Htruthy.
  match goal with
  | |- context [with_wishlist (_ ++ [?w]) _ _] => exists w
  end.
  eexists. split; [reflexivity |].
  unfold Part000.wishlist_list, requireLogin, db_query.
  cbn [session_userId db wishlist with_wishlist].
  rewrite Htruthy, Hs, !select_wishlist_num. unfold select_wishlist.
  cbn [wishlist with_wishlist fst].
  split; [reflexivity |]. split.
  - rewrite filter_app. cbn [filter w_user_id].
    replace (int_col_eq P (SInt A) (SInt A)) with true
      by (symmetry; apply Z.eqb_refl).
    rewrite order_by_desc_newest.
    + cbn [map]. reflexivity.
    + apply Forall_filter. cbn [w_id].
      destruct (next_id_above (map w_id (wishlist (db st))) (wishlist_seq (db st)))
        as [_ Hall].
      rewrite Forall_map in Hall. exact Hall.
  - cbn [w_user_id w_title w_genre w_expected_release].
    repeat split; intros Hf; unfold or_else; rewrite Hf; reflexivity.
Qed.

Lemma part000_wish_then_list_witness :
  exists w,
    fst (Part000.wishlist_list reference (request0 [])
           (snd (Part000.wishlist_add reference (request0 []) (wishing 2))))
    = Sent 200 (JO [("ok", jtrue);
                    ("wishlist", JA [json_of_row (wish_row w); json_of_row (wish_row portal)]);
                    ("list", JA [json_of_row (wish_row w); json_of_row (wish_row portal)])])
    /\ w_title w = SText "Untitled".
Proof.
  destruct (part000_wish_then_list reference (request0 []) (request0 [])
              (wishing 2) 2 bob eq_refl ltac:(discriminate)
              (or_intror (or_introl eq_refl)) eq_refl)
    as (w & older & _ & Hbefore & Hafter & _ & Htitle & _).
  exists w. split; [| exact (Htitle eq_refl)].
  rewrite Hafter.
  assert (Holder : older = [json_of_row (wish_row portal)]).
  { vm_compute in Hbefore. injection Hbefore as <- _. reflexivity. }
  rewrite Holder. reflexivity.
Defined.

(* ===================================================================== *)
(** * The totals of the statistics                                         *)
(* ===================================================================== *)

Lemma field_obj_hit (k : string) (j : json) (rest : list (string * json)) :
  is_undefined j = false -> field k (obj ((k, j) :: rest)) = Some j.
Proof.
  intros H. unfold obj. cbn [filter snd field]. rewrite H. cbn [negb lookup].
  rewrite String.eqb_refl. reflexivity.
Qed.

Lemma field_obj_skip (k k' : string) (j : json) (rest : list (string * json)) :
  String.eqb k' k = false -> field k (obj ((k', j) :: rest)) = field k (obj rest).
Proof.
  intros H. unfold obj. cbn [filter snd field].
  destruct (negb (is_undefined j)); cbn [lookup]; rewrite ?H; reflexivity.
Qed.

Lemma or_else_integer (n : Z) : or_else (VNum (Int n)) (num 0) = VNum (Int n).
Proof.
  unfold or_else. cbn. destruct (n =? 0) eqn:H; [| reflexivity].
  apply Z.eqb_eq in H. subst n. reflexivity.
Qed.

Lemma column_integer (n : Z) : Z.abs n <= safe -> column (SInt n) = VNum (Int n).
Proof.
  intros H. unfold column. apply Z.leb_le in H. rewrite H. reflexivity.
Qed.

Lemma sum_overflown (P : platform) (hs : list Z) :
  fold_left (sum_step P) (map SInt hs) Overflow = Overflow.
Proof. induction hs as [| h hs IH]; [reflexivity | exact IH]. Qed.

Lemma sum_from (P : platform) (hs : list Z) (a : Z) :
  fold_left (sum_step P) (map SInt hs) (Exact a)
  = if sums_fit a hs then Exact (a + total_of hs) else Overflow.
Proof.
  revert a. induction hs as [| h hs IH]; intros a; cbn [map fold_left sums_fit].
  - cbn. f_equal. lia.
  - cbn [sum_step summand]. destruct (int64 (a + h)); cbn [andb].
    + rewrite IH. destruct (sums_fit (a + h) hs); [| reflexivity].
      f_equal. cbn [total_of fold_right]. fold (total_of hs). lia.
    + apply sum_overflown.
Qed.

(** [SUM] over integers: their sum, unless a running sum leaves the 64 bits. *)
Lemma sum_of_integers (P : platform) (hs : list Z) :
  sum P (map SInt hs)
  = match hs with
    | [] => Value SNull
    | _ => if sums_fit 0 hs then Value (SInt (total_of hs))
           else Raised "integer overflow"
    end.
Proof.
  unfold sum. destruct hs as [| h hs]; [reflexivity |].
  cbn [map fold_left sum_step summand sums_fit]. rewrite Z.add_0_l.
  destruct (int64 h); cbn [andb].
  - rewrite sum_from. destruct (sums_fit h hs); reflexivity.
  - rewrite sum_overflown. reflexivity.
Qed.

(** X19. The totals (server.js and part_000), when the hours of the games a
    user owns are integers.  While every running sum of the hours, in the
    order of the rows, stays within 64 bits, [totalGames] is the number of
    those games and [totalHours] the sum of their hours, 0 when there is
    none; this for values within the integers a double holds exactly, and in
    server.js for a user whose row exists.  When a running sum leaves the
    64 bits the query fails and the reply is "DB error", whatever the sum of
    all the hours is. *)
Theorem stats_totals
    (P : platform) (v : variant) (h : handler) (req : request) (st : state)
    (hs : list Z) :
  app v P GET_stats = Some h ->
  truthy (session_userId st) = true ->
  map g_hours (filter (owned_by P (bind (session_userId st))) (games (db st)))
  = map SInt hs ->
  (sums_fit 0 hs = true ->
   (v = server_js ->
    find (user_has_id P (bind (session_userId st))) (users (db st)) <> None) ->
   Z.abs (total_of hs) <= safe ->
   Z.of_nat (List.length hs) <= safe ->
   stats_field "totalGames" (fst (h req st)) = Some (jint (Z.of_nat (List.length hs)))
   /\ stats_field "totalHours" (fst (h req st)) = Some (jint (total_of hs)))
  /\ (sums_fit 0 hs = false -> fst (h req st) = db_error).
Proof.
  intros Happ Hs Hhours.
  pose proof (sum_of_integers P hs) as Hsum. rewrite <- Hhours in Hsum.
  split.
  - intros Hfit Hrow Htotal Hlen.
    assert (Hcount : column (SInt (Z.of_nat (List.length
              (map g_hours (filter (owned_by P (bind (session_userId st)))
                              (games (db st)))))))
            = VNum (Int (Z.of_nat (List.length hs)))).
    { rewrite Hhours, length_map. apply column_integer. lia. }
    rewrite Hfit in Hsum.
    destruct v; cbn [app Server.app Part000.app Part001.app] in Happ;
      try discriminate Happ; injection Happ as <-.
    + unfold Server.stats, requireLogin, db_query, select_game_totals,
        select_user_by_id.
      rewrite Hs. cbn [db].
      destruct (find (user_has_id P (bind (session_userId st))) (users (db st)))
        as [u |]; [| exfalso; apply (Hrow eq_refl); reflexivity].
      rewrite Hsum, Hcount.
      destruct hs as [| h0 hs'];
        cbn [option_map fst stats_field get lookup String.eqb Ascii.eqb Bool.eqb];
        rewrite ?column_integer by exact Htotal; rewrite !or_else_integer;
        rewrite field_obj_skip by reflexivity; rewrite field_obj_hit by reflexivity;
        (split; [apply field_obj_hit; reflexivity |]);
        rewrite field_obj_skip by reflexivity; apply field_obj_hit; reflexivity.
    + unfold Part000.stats, requireLogin, db_query, select_game_totals.
      rewrite Hs. cbn [db]. rewrite Hsum, Hcount.
      destruct hs as [| h0 hs'];
        cbn [coalesce is_null fst stats_field get lookup String.eqb Ascii.eqb Bool.eqb];
        rewrite ?column_integer by exact Htotal; rewrite !or_else_integer;
        rewrite field_obj_skip by reflexivity; rewrite field_obj_hit by reflexivity;
        (split; [apply field_obj_hit; reflexivity |]);
        rewrite field_obj_skip by reflexivity; apply field_obj_hit; reflexivity.
  - intros Hfit. rewrite Hfit in Hsum.
    assert (Hne : hs <> []) by (intros ->; discriminate Hfit).
    destruct hs as [| h0 hs']; [congruence |].
    destruct v; cbn [app Server.app Part000.app Part001.app] in Happ;
      try discriminate Happ; injection Happ as <-;
      [unfold Server.stats | unfold Part000.stats];
      unfold requireLogin, db_query, select_game_totals;
      rewrite Hs; cbn [db]; rewrite Hsum; reflexivity.
Qed.

(** Bob's one game of 12 hours; and his marathon, whose hours sum to 1 and
    whose second running sum is 2^63. *)
Lemma stats_totals_witness :
  (stats_field "totalGames" (fst (Server.stats reference (request0 []) (as_user 2)))
   = Some (jint 1)
   /\ stats_field "totalHours" (fst (Server.stats reference (request0 []) (as_user 2)))
      = Some (jint 12))
  /\ total_of [2 ^ 63 - 1; 1; - (2 ^ 63 - 1)] = 1
  /\ fst (Part000.stats reference (request0 []) marathon) = db_error.
Proof.
  split; [| split; [reflexivity |]].
  - exact (proj1 (stats_totals reference server_js (Server.stats reference)
                    (request0 []) (as_user 2) [12] eq_refl eq_refl eq_refl)
             eq_refl ltac:(discriminate) ltac:(vm_compute; discriminate)
             ltac:(vm_compute; discriminate)).
  - exact (proj2 (stats_totals reference part_000 (Part000.stats reference)
                    (request0 []) marathon [2 ^ 63 - 1; 1; - (2 ^ 63 - 1)]
                    eq_refl eq_refl eq_refl)
             eq_refl).
Defined.

(* ===================================================================== *)
(** * Uploads                                                              *)
(* ===================================================================== *)

(** X20. The photo of a logged-in update of the profile is written to the upload
    directory, under [Date.now() + "-" + originalname], before the UPDATE
    runs, and stays there when the UPDATE is rejected and the database is
    left as it was; without a session nothing is written. *)
Theorem upload_kept_when_update_rejected
    (P : platform) (v : variant) (req : request) (st : state) (o m : string) :
  req_photo req = Some o ->
  (truthy (session_userId st) = true ->
   uploads (snd (profile_update v P req st))
   = (date_now req ++ "-" ++ o)%string :: uploads st
   /\ (update_users P (assignment v P req) (bind (session_userId st)) (db st) = Failed m ->
       db (snd (profile_update v P req st)) = db st))
  /\ (truthy (session_userId st) = false ->
      uploads (snd (profile_update v P req st)) = uploads st).
Proof.
  intros Hphoto. split.
  - intros Hs. rewrite (profile_update_run P v req st Hs). cbn [snd uploads db].
    rewrite Hphoto. split; [reflexivity |]. intros ->. reflexivity.
  - intros Hs.
    destruct v; cbn [profile_update];
      [unfold Server.profile_update | unfold Part000.profile_update
       | unfold Part001.profile_update];
      unfold requireLogin; rewrite Hs; reflexivity.
Qed.

Lemma upload_kept_when_update_rejected_witness :
  uploads (snd (Part000.profile_update reference taken_email (as_user 1)))
  = ["1700000000001-new.png"]
  /\ uploads (snd (Part000.profile_update reference taken_email anonymous)) = [].
Proof.
  destruct (upload_kept_when_update_rejected reference part_000 taken_email
              (as_user 1) "new.png" "" eq_refl) as [Hin _].
  destruct (upload_kept_when_update_rejected reference part_000 taken_email
              anonymous "new.png" "" eq_refl) as [_ Hout].
  split; [exact (proj1 (Hin eq_refl)) | exact (Hout eq_refl)].
Defined.

(* ===================================================================== *)
(** * Edges                                                                *)
(* ===================================================================== *)

(** X5. Signing up twice.  After a signup that went through, a signup with the
    same email, whatever its name and password, is answered 409; the row of
    the first signup and the rest of the database are as the first left
    them, and the session stays the one the first bound. *)
Theorem signup_twice_conflicts
    (P : platform) (v : variant) (hash hash' : string -> Z -> string)
    (req req' : request) (st : state) (e p p' : string) :
  truthy (get "name" (req_body req)) = true ->
  get "email" (req_body req) = VStr e -> e <> ""%string ->
  get "password" (req_body req) = VStr p -> p <> ""%string ->
  (forall u, In u (users (db st)) -> sql_eqb (u_email u) (SText e) = false) ->
  truthy (get "name" (req_body req')) = true ->
  get "email" (req_body req') = VStr e ->
  get "password" (req_body req') = VStr p' -> p' <> ""%string ->
  let st1 := snd (signup v P hash req st) in
  fst (signup v P hash' req' st1) = email_exists v
  /\ db (snd (signup v P hash' req' st1)) = db st1
  /\ session_userId (snd (signup v P hash' req' st1)) = session_userId st1.
Proof.
  intros Hn He Hne Hp Hnp Hfresh Hn' He' Hp' Hnp' st1. subst st1.
  destruct (signup_appends P v hash req st e p Hn He Hne Hp Hnp Hfresh)
    as (u & Husers & _ & _ & _ & _ & _ & _ & Hemail & _).
  apply (signup_conflict P v hash' req' _ e p' u Hn' He' Hne Hp' Hnp').
  - rewrite Husers. apply in_or_app. right. left. reflexivity.
  - exact Hemail.
Qed.

Lemma signup_twice_conflicts_witness :
  let eve := signup_request "Eve" "eve@example.com" "apple" in
  fst (signup part_001 reference reference_hash
         (signup_request "Eva" "eve@example.com" "pear")
         (snd (signup part_001 reference reference_hash eve anonymous)))
  = Sent 409 (JO [("error", jstr "Email exists")]).
Proof.
  refine (proj1 (signup_twice_conflicts reference part_001 reference_hash reference_hash
                   (signup_request "Eve" "eve@example.com" "apple")
                   (signup_request "Eva" "eve@example.com" "pear") anonymous
                   "eve@example.com" "apple" "pear" eq_refl eq_refl _ eq_refl _ _
                   eq_refl eq_refl eq_refl _)); try discriminate.
  intros u [<- | [<- | [<- | [<- | []]]]]; reflexivity.
Defined.

(** X7. part_000 turns a login with a missing or empty email or password away
    with 400 and sends no statement; the two other copies have no such check
    and query the table. *)
Theorem part000_login_missing_fields
    (P : platform) (req : request) (st : state) :
  truthy (get "email" (req_body req)) = false
  \/ truthy (get "password" (req_body req)) = false ->
  Part000.login P req st = (Sent 400 (JO [("error", jstr "Missing fields")]), st)
  /\ queries (snd (Server.login P req st))
     = "SELECT * FROM users WHERE email = ?" :: queries st
  /\ queries (snd (Part001.login P req st))
     = "SELECT * FROM users WHERE email = ?" :: queries st.
Proof.
  intros H. split; [| split].
  - unfold Part000.login.
    replace (negb (truthy (get "email" (req_body req)))
             || negb (truthy (get "password" (req_body req)))) with true;
      [reflexivity |].
    destruct H as [-> | ->]; cbn; rewrite ?orb_true_r; reflexivity.
  - unfold Server.login, db_query. cbn [db].
    destruct (select_user_by_email P _ (db st)); [| reflexivity].
    destruct (bcrypt_compare P _ _) as [[|] |]; reflexivity.
  - unfold Part001.login, db_query. cbn [db].
    destruct (select_user_by_email P _ (db st)); [| reflexivity].
    destruct (bcrypt_compare P _ _) as [[|] |]; reflexivity.
Qed.

Lemma part000_login_missing_fields_witness :
  Part000.login reference (request0 [("email", VStr "alice@example.com")]) anonymous
  = (Sent 400 (JO [("error", jstr "Missing fields")]), anonymous).
Proof.
  exact (proj1 (part000_login_missing_fields reference
                  (request0 [("email", VStr "alice@example.com")]) anonymous
                  (or_intror eq_refl))).
Defined.

(** X21. server.js binds the title as it comes: an addition to the collection
    with no title, or a null one, breaks NOT NULL on [games.title]; the
    reply is "DB error" and no row is stored.  (part_000 stores "Untitled".) *)
Theorem server_add_without_title_rejected
    (P : platform) (req : request) (st : state) :
  truthy (session_userId st) = true ->
  get "title" (req_body req) = Undefined \/ get "title" (req_body req) = Null ->
  fst (Server.collection_add P req st) = db_error
  /\ db (snd (Server.collection_add P req st)) = db st.
Proof.
  intros Hs Htitle.
  unfold Server.collection_add, requireLogin, db_run, insert_game. rewrite Hs.
  cbn [db g_user_id g_title].
  replace (text_affinity P (bind (get "title" (req_body req)))) with SNull
    by (destruct Htitle as [-> | ->]; reflexivity).
  cbn [is_null]. rewrite orb_true_r. split; reflexivity.
Qed.

Lemma server_add_without_title_rejected_witness :
  fst (Server.collection_add reference (request0 [("hours", VStr "5")]) (as_user 1))
  = db_error
  /\ games (db (snd (Part000.collection_add reference (request0 [("hours", VStr "5")])
                       (as_user 1))))
     <> games database0.
Proof.
  split.
  - exact (proj1 (server_add_without_title_rejected reference
                    (request0 [("hours", VStr "5")]) (as_user 1) eq_refl
                    (or_introl eq_refl))).
  - vm_compute. discriminate.
Defined.

(** X22. part_001 updates the name, the bio and the photo only: the email of a
    request is not written, the emails of all the rows are as before; and a
    logged-in update is answered [{ok: true}] whether the UPDATE was applied
    or rejected. *)
Theorem part001_update_keeps_email
    (P : platform) (req : request) (st : state) :
  truthy (session_userId st) = true ->
  fst (Part001.profile_update P req st) = ok_reply
  /\ map u_email (users (db (snd (Part001.profile_update P req st))))
     = map u_email (users (db st)).
Proof.
  intros Hs.
  rewrite (profile_update_run P part_001 req st Hs
           : Part001.profile_update P req st = _).
  cbn [fst snd db].
  destruct (update_users_cases P (assignment part_001 P req)
              (bind (session_userId st)) (db st)) as [[m Hm] | [n Hn]].
  - rewrite Hm. split; reflexivity.
  - rewrite Hn. split; [reflexivity |]. cbn [users with_users].
    rewrite map_map. apply map_ext. intros u.
    destruct (user_has_id P (bind (session_userId st)) u); reflexivity.
Qed.

Lemma part001_update_keeps_email_witness :
  map u_email (users (db (snd (Part001.profile_update reference
                                 (request0 [("name", VStr "Al");
                                            ("email", VStr "al@example.com")])
                                 (as_user 1)))))
  = map u_email (users database0).
Proof.
  exact (proj2 (part001_update_keeps_email reference
                  (request0 [("name", VStr "Al"); ("email", VStr "al@example.com")])
                  (as_user 1) eq_refl)).
Defined.
